(** * A rotating cube on WebGPU: the program of [index.ts], embedded and verified

    The program negotiates a GPU device, builds the resources of one textured
    cube (vertex buffer, pipeline, depth texture, uniform buffer, bind group)
    and then redraws it from a display-refresh callback, streaming a fresh
    model-view-projection matrix into the uniform buffer on every tick.

    Conventions of the embedding
    - a JavaScript [number] is a real number: rounding of doubles is not
      modelled, the unit and the shape of every computation is; of sine
      and cosine the properties use the values at 0, the sign between 0
      and pi and the growth of sine up to pi / 2, nothing that rounding
      would break;
    - Float32 storage is an interface ([Float32]): the rounding [fround] of a
      number to a float32 and the four bytes of a float32;
    - wgpu-matrix is an external library, taken as an interface
      ([WgpuMatrix]) over 16-element Float32Arrays;
    - JavaScript objects that are mutated or shared live in a heap indexed by
      locations; GPU objects live in the device's table indexed by handles;
    - a call that creates a GPU object throws, or returns a valid object,
      or returns an invalid object when the device finds the call invalid:
      then the device reports an error that the program does not see, and
      whatever is made from an invalid object is invalid;
    - every call to the platform is appended to a log, from which the queue
      timeline of the device is read off;
    - code runs in a state-and-exception monad over the [World]. *)

From Stdlib Require Import Reals Lra Lia ZArith List String.
From stdpp Require Import gmap.
Import ListNotations.
#[local] Open Scope string_scope.
#[local] Open Scope list_scope.

(** ** Numbers *)

Definition number : Type := R.
Bind Scope R_scope with number.

Definition Math_PI : number := PI.
Definition Math_sin (x : number) : number := sin x.
Definition Math_cos (x : number) : number := cos x.

(** ** Float32 storage *)

Class Float32 := {
  f32 : Type;
  (** the value a Float32Array element holds after a number is stored *)
  fround : number -> f32;
  (** the bytes of one element, in the platform's byte order *)
  f32_bytes : f32 -> list Byte.byte;
  f32_bytes_length : forall x, length (f32_bytes x) = 4%nat;
}.

Section Typed_arrays.
Context `{Float32}.

(** A [Float32Array] over its own [ArrayBuffer], [byteOffset] 0. *)
Definition Float32Array : Type := list f32.

Definition byteLength (a : Float32Array) : nat := 4 * length a.

(** [a.buffer], the bytes behind the array. *)
Definition buffer_of (a : Float32Array) : list Byte.byte :=
  flat_map f32_bytes a.

(** The sixteen elements of a [mat4], in the order of the array. *)
Record Mat4 : Type := mkMat4 {
  e0 : f32; e1 : f32; e2 : f32; e3 : f32;
  e4 : f32; e5 : f32; e6 : f32; e7 : f32;
  e8 : f32; e9 : f32; e10 : f32; e11 : f32;
  e12 : f32; e13 : f32; e14 : f32; e15 : f32;
}.

Definition Mat4_elements (m : Mat4) : Float32Array :=
  [ e0 m; e1 m; e2 m; e3 m; e4 m; e5 m; e6 m; e7 m;
    e8 m; e9 m; e10 m; e11 m; e12 m; e13 m; e14 m; e15 m ].

(** A [vec3]: a three-element Float32Array that is never mutated here. *)
Definition Vec3 : Type := (f32 * f32 * f32)%type.

Definition vec3_fromValues (x y z : number) : Vec3 :=
  (fround x, fround y, fround z).
End Typed_arrays.

(** ** The wgpu-matrix interface

    [mat4.f(args, dst)] computes a matrix from its arguments and stores it in
    [dst]; the class gives the value computed, the heap operations below
    store it. *)

Class WgpuMatrix `{Float32} := {
  mat4_create_value : Mat4;
  mat4_identity_value : Mat4;
  mat4_perspective_value :
    number -> number -> number -> number -> Mat4;
  mat4_translate_value : Mat4 -> Vec3 -> Mat4;
  mat4_rotate_value : Mat4 -> Vec3 -> number -> Mat4;
  mat4_multiply_value : Mat4 -> Mat4 -> Mat4;
}.

(** ** Mesh data *)

Section Mesh.
Context `{Float32}.

(** Modelled from the spec: the module [src/meshes/cube.js] is not among
    the sources.  A vertex is the record {position: 4 x float32,
    uv: 2 x float32}, packed contiguously. *)
Record Vertex : Type := mkVertex {
  position : f32 * f32 * f32 * f32;
  uv : f32 * f32;
}.

(** Modelled from the spec: the six float32 values of a vertex record, in
    the order of the record (interleaved layout of the absent module). *)
Definition vertex_floats (v : Vertex) : Float32Array :=
  let '(x, y, z, w) := position v in
  let '(s, t) := uv v in
  [x; y; z; w; s; t].

(** Modelled from the spec: the stride is the size of one vertex record
    exactly (the constant is defined in the absent module). *)
Definition cubeVertexSize : nat := 4 * 6.

(** Modelled from the spec: the position comes first in the record. *)
Definition cubePositionOffset : nat := 0.

(** Modelled from the spec: the uv follows the four floats of the
    position. *)
Definition cubeUVOffset : nat := 4 * 4.

(** Modelled from the spec: 6 faces x 2 triangles x 3 vertices. *)
Definition cubeVertexCount : nat := 36.

(** Modelled from the spec: the mesh is built from its table of vertices
    and the construction fails fast when the byte length of the
    interleaved sequence is not vertex count x stride. *)
Definition mkMesh (table : list Vertex) : option Float32Array :=
  let data := flat_map vertex_floats table in
  if (byteLength data =? cubeVertexCount * cubeVertexSize)%nat
  then Some data else None.
End Mesh.

(** ** GPU descriptors *)

(** Handles of device objects and locations of the JavaScript heap are
    numbers, given out in increasing order. *)
Abbreviation handle := nat (only parsing).
Abbreviation loc := nat (only parsing).

Module GPUBufferUsage.
Definition COPY_DST : Z := 0x0008.
Definition VERTEX : Z := 0x0020.
Definition UNIFORM : Z := 0x0040.
End GPUBufferUsage.

Module GPUTextureUsage.
Definition RENDER_ATTACHMENT : Z := 0x10.
End GPUTextureUsage.

Inductive GPUTextureFormat := bgra8unorm | rgba8unorm | depth24plus.
Inductive GPUVertexFormat := float32x4 | float32x2.
Inductive GPUPrimitiveTopology := triangle_list | triangle_strip | line_list | point_list.
Inductive GPUCullMode := cull_none | cull_front | cull_back.
Inductive GPUCompareFunction := cmp_never | cmp_less | cmp_less_equal | cmp_always.
Inductive GPULoadOp := op_load | op_clear.
Inductive GPUStoreOp := op_store | op_discard.

(** Bytes taken by one attribute of the given format. *)
Definition format_size (f : GPUVertexFormat) : nat :=
  match f with float32x4 => 16 | float32x2 => 8 end.

(** Least number of bits a depth format keeps per texel, [None] for a
    colour format. *)
Definition depth_bits (f : GPUTextureFormat) : option nat :=
  match f with depth24plus => Some 24%nat | _ => None end.

Record GPUBufferDescriptor := {
  bd_size : nat;
  bd_usage : Z;
  bd_mappedAtCreation : bool;
}.

Record GPUVertexAttribute := {
  shaderLocation : nat;
  offset : nat;
  format : GPUVertexFormat;
}.

Record GPUVertexBufferLayout := {
  arrayStride : nat;
  attributes : list GPUVertexAttribute;
}.

Record GPURenderPipelineDescriptor := {
  vertex_module : handle;
  vertex_entryPoint : string;
  vertex_buffers : list GPUVertexBufferLayout;
  fragment_module : handle;
  fragment_entryPoint : string;
  fragment_targets : list GPUTextureFormat;
  primitive_topology : GPUPrimitiveTopology;
  primitive_cullMode : GPUCullMode;
  depthWriteEnabled : bool;
  depthCompare : GPUCompareFunction;
  depthStencil_format : GPUTextureFormat;
}.

Record GPUTextureDescriptor := {
  td_size : Z * Z;
  td_format : GPUTextureFormat;
  td_usage : Z;
}.

Record GPUBindGroupDescriptor := {
  bg_layout : handle;
  (** binding number and the buffer bound to it *)
  bg_entries : list (nat * handle);
}.

Record GPURenderPassDescriptor := {
  color_view : option handle;
  color_clearValue : number * number * number * number;
  color_loadOp : GPULoadOp;
  color_storeOp : GPUStoreOp;
  depth_view : handle;
  depthClearValue : number;
  depthLoadOp : GPULoadOp;
  depthStoreOp : GPUStoreOp;
}.

(** The calls that create a device object from a descriptor. *)
Inductive GPUCall :=
| CreateBuffer (d : GPUBufferDescriptor)
| CreateShaderModule (code : string)
| CreateRenderPipeline (d : GPURenderPipelineDescriptor)
| CreateTexture (d : GPUTextureDescriptor)
| CreateBindGroup (d : GPUBindGroupDescriptor).

(** Commands recorded by an encoder. *)
Inductive Command :=
| BeginRenderPass (d : GPURenderPassDescriptor)
| SetPipeline (pipeline : handle)
| SetBindGroup (index : nat) (group : handle)
| SetVertexBuffer (slot : nat) (buffer : handle)
| Draw (vertexCount instanceCount firstVertex firstInstance : nat)
| EndPass.

(** The objects a creation call and a command name. *)
Definition call_refs (call : GPUCall) : list handle :=
  match call with
  | CreateRenderPipeline d => [ vertex_module d; fragment_module d ]
  | CreateBindGroup d => bg_layout d :: map snd (bg_entries d)
  | CreateBuffer _ | CreateShaderModule _ | CreateTexture _ => []
  end.

Definition command_refs (cmd : Command) : list handle :=
  match cmd with
  | BeginRenderPass d =>
      match color_view d with Some v => [ v ] | None => [] end ++
      [ depth_view d ]
  | SetPipeline p => [ p ]
  | SetBindGroup _ g => [ g ]
  | SetVertexBuffer _ b => [ b ]
  | Draw _ _ _ _ | EndPass => []
  end.

(** Work put on the device queue. *)
Inductive QueueOp :=
| WriteBuffer (buffer : handle) (bufferOffset : nat) (data : list Byte.byte)
| Submit (commandBuffers : list (list Command)).

(** Objects of the device. *)
Inductive GPUObject :=
| Buffer (d : GPUBufferDescriptor)
         (mapped : option (list Byte.byte)) (contents : list Byte.byte)
| ShaderModule (code : string)
| RenderPipeline (d : GPURenderPipelineDescriptor)
| BindGroupLayout (pipeline : handle) (index : nat)
| Texture (d : GPUTextureDescriptor)
| SurfaceTexture
| TextureView (texture : handle)
| BindGroup (d : GPUBindGroupDescriptor).

(** ** Errors and the environment *)

Inductive Error :=
| JSError (message : string)
| GPUError (call : GPUCall)
| RangeError
| OperationError
| TypeError
| InvalidStateError
| Rejection (reason : string).

(** How a computation ends: with a value or with an exception. *)
Inductive outcome (A : Type) :=
| Ok (a : A)
| Throw (e : Error).
Arguments Ok {A} a.
Arguments Throw {A} e.

Inductive Settled (A : Type) :=
| Fulfilled (a : A)
| Rejected (reason : string).
Arguments Fulfilled {A} a.
Arguments Rejected {A} reason.

(** What the page and the browser answer during start-up.  [None] is
    JavaScript's [null]. *)
Record Env := {
  navigator_gpu : bool;
  querySelector_canvas : option unit;
  innerWidth : number;
  innerHeight : number;
  clientWidth : number;
  clientHeight : number;
  devicePixelRatio : number;
  (** conversion done by the setter of [canvas.width] and [canvas.height] *)
  toUnsignedLong : number -> Z;
  requestAdapter : Settled (option unit);
  requestDevice : Settled (option unit);
  getContext_webgpu : option unit;
  getPreferredCanvasFormat : GPUTextureFormat;
  fetch_basic_vert : Settled string;
  fetch_vertexPositionColor_frag : Settled string;
  (** the creation calls the device refuses by throwing an exception *)
  rejects : GPUCall -> bool;
}.

(** ** The world: page, JavaScript heap, device *)

Section Program.
Context `{F32 : Float32} `{!WgpuMatrix}.

(** Modelled from the spec: the table of the cube's 36 vertices, part of the
    absent module [src/meshes/cube.js]; its values are not constrained. *)
Variable cubeVertexTable : list Vertex.

(** Objects of the JavaScript heap that the program shares or mutates. *)
Inductive JSObject :=
| ObjMat4 (m : Mat4)
| ObjRenderPassDescriptor (d : GPURenderPassDescriptor).

(** The variables of [main] that the function [frame] closes over. *)
Record Closure := {
  verticesBuffer : handle;
  pipeline : handle;
  uniformBuffer : handle;
  uniformBindGroup : handle;
  renderPassDescriptor : loc;
  projectionMatrix : loc;
  modelViewProjectionMatrix : loc;
}.

(** What the platform is asked to do, in the order of the calls. *)
Inductive Event :=
| EvConfigure (fmt : GPUTextureFormat)
| EvCreate (call : GPUCall) (result : handle)
| EvGetBindGroupLayout (pipeline : handle) (index : nat) (result : handle)
| EvDateNow (t : number)
| EvQueue (op : QueueOp)
| EvValidationError
| EvGetCurrentTexture (texture : handle)
| EvCreateView (texture view : handle)
| EvCreateCommandEncoder
| EvEncode (cmd : Command)
| EvFinish
| EvRequestAnimationFrame (callback : Closure)
| EvConsoleLog.

Record World := {
  env : Env;
  clock : number;
  canvas_width : Z;
  canvas_height : Z;
  heap : gmap loc JSObject;
  next_loc : loc;
  objects : gmap handle GPUObject;
  next_handle : handle;
  currentTexture : option handle;
  log : list Event;
  animationFrameCallbacks : list Closure;
  (** the creation calls the device finds invalid (a shader that does not
      compile, a descriptor that fails validation): such a call returns
      like any other, the error goes to the device's error scopes *)
  device_reports : GPUCall -> bool;
  (** the objects that are invalid *)
  invalidObjects : gset handle;
}.

(** The page before any script has run, with a device that finds every
    creation call valid. *)
Definition boot (e : Env) : World :=
  {| env := e; clock := 0%R; canvas_width := 300; canvas_height := 150;
     heap := ∅; next_loc := 0; objects := ∅; next_handle := 0;
     currentTexture := None; log := []; animationFrameCallbacks := [];
     device_reports := fun _ => false; invalidObjects := ∅ |}.

Definition set_clock (t : number) (w : World) : World :=
  {| env := env w; clock := t; canvas_width := canvas_width w;
     canvas_height := canvas_height w; heap := heap w; next_loc := next_loc w;
     objects := objects w; next_handle := next_handle w;
     currentTexture := currentTexture w; log := log w;
     animationFrameCallbacks := animationFrameCallbacks w;
     device_reports := device_reports w;
     invalidObjects := invalidObjects w |}.

Definition set_canvas_size (width height : Z) (w : World) : World :=
  {| env := env w; clock := clock w; canvas_width := width;
     canvas_height := height; heap := heap w; next_loc := next_loc w;
     objects := objects w; next_handle := next_handle w;
     currentTexture := currentTexture w; log := log w;
     animationFrameCallbacks := animationFrameCallbacks w;
     device_reports := device_reports w;
     invalidObjects := invalidObjects w |}.

Definition set_heap (h : gmap loc JSObject) (n : loc) (w : World) : World :=
  {| env := env w; clock := clock w; canvas_width := canvas_width w;
     canvas_height := canvas_height w; heap := h; next_loc := n;
     objects := objects w; next_handle := next_handle w;
     currentTexture := currentTexture w; log := log w;
     animationFrameCallbacks := animationFrameCallbacks w;
     device_reports := device_reports w;
     invalidObjects := invalidObjects w |}.

Definition set_objects (o : gmap handle GPUObject) (n : handle) (w : World)
  : World :=
  {| env := env w; clock := clock w; canvas_width := canvas_width w;
     canvas_height := canvas_height w; heap := heap w; next_loc := next_loc w;
     objects := o; next_handle := n;
     currentTexture := currentTexture w; log := log w;
     animationFrameCallbacks := animationFrameCallbacks w;
     device_reports := device_reports w;
     invalidObjects := invalidObjects w |}.

Definition set_currentTexture (t : option handle) (w : World) : World :=
  {| env := env w; clock := clock w; canvas_width := canvas_width w;
     canvas_height := canvas_height w; heap := heap w; next_loc := next_loc w;
     objects := objects w; next_handle := next_handle w;
     currentTexture := t; log := log w;
     animationFrameCallbacks := animationFrameCallbacks w;
     device_reports := device_reports w;
     invalidObjects := invalidObjects w |}.

Definition add_log (ev : Event) (w : World) : World :=
  {| env := env w; clock := clock w; canvas_width := canvas_width w;
     canvas_height := canvas_height w; heap := heap w; next_loc := next_loc w;
     objects := objects w; next_handle := next_handle w;
     currentTexture := currentTexture w; log := log w ++ [ev];
     animationFrameCallbacks := animationFrameCallbacks w;
     device_reports := device_reports w;
     invalidObjects := invalidObjects w |}.

Definition set_callbacks (cbs : list Closure) (w : World) : World :=
  {| env := env w; clock := clock w; canvas_width := canvas_width w;
     canvas_height := canvas_height w; heap := heap w; next_loc := next_loc w;
     objects := objects w; next_handle := next_handle w;
     currentTexture := currentTexture w; log := log w;
     animationFrameCallbacks := cbs;
     device_reports := device_reports w;
     invalidObjects := invalidObjects w |}.

Definition set_device_reports (r : GPUCall -> bool) (w : World) : World :=
  {| env := env w; clock := clock w; canvas_width := canvas_width w;
     canvas_height := canvas_height w; heap := heap w; next_loc := next_loc w;
     objects := objects w; next_handle := next_handle w;
     currentTexture := currentTexture w; log := log w;
     animationFrameCallbacks := animationFrameCallbacks w;
     device_reports := r;
     invalidObjects := invalidObjects w |}.

(** The same page with a device that finds the calls [r] invalid. *)
Definition boot_reporting (r : GPUCall -> bool) (e : Env) : World :=
  set_device_reports r (boot e).

(** The object [h] enters the invalid ones when [bad]; the errors a call
    adds to the log. *)
Definition mark (bad : bool) (h : handle) (s : gset handle) : gset handle :=
  if bad then {[ h ]} ∪ s else s.

Definition reported (bad : bool) : list Event :=
  if bad then [ EvValidationError ] else [].

(** The call [ev] has handed out the object [o] under the handle [h]. *)
Definition set_created (ev : Event) (h : handle) (o : GPUObject) (bad : bool)
    (w : World) : World :=
  {| env := env w; clock := clock w; canvas_width := canvas_width w;
     canvas_height := canvas_height w; heap := heap w; next_loc := next_loc w;
     objects := <[h := o]> (objects w); next_handle := S h;
     currentTexture := currentTexture w;
     log := log w ++ ev :: reported bad;
     animationFrameCallbacks := animationFrameCallbacks w;
     device_reports := device_reports w;
     invalidObjects := mark bad h (invalidObjects w) |}.

(** ** The monad of the program: state and exceptions *)

Definition M (A : Type) : Type := World -> outcome A * World.

Definition ret {A} (a : A) : M A := fun w => (Ok a, w).

Definition throw {A} (e : Error) : M A := fun w => (Throw e, w).

Definition bind {A B} (c : M A) (k : A -> M B) : M B :=
  fun w =>
    match c w with
    | (Ok a, w') => k a w'
    | (Throw e, w') => (Throw e, w')
    end.

Notation "x <- c ;; k" := (bind c (fun x => k))
  (at level 100, c at level 99, k at level 200, only parsing).
Notation "c ;; k" := (bind c (fun _ => k))
  (at level 100, k at level 200, right associativity, only parsing).

Definition get {A} (f : World -> A) : M A := fun w => (Ok (f w), w).

Definition modify (f : World -> World) : M unit := fun w => (Ok tt, f w).

Definition record (ev : Event) : M unit := modify (add_log ev).

(** ** The JavaScript heap *)

Definition alloc (o : JSObject) : M loc :=
  fun w =>
    let l := next_loc w in
    (Ok l, set_heap (<[l := o]> (heap w)) (S l) w).

Definition read_mat4 (l : loc) : M Mat4 :=
  fun w =>
    match heap w !! l with
    | Some (ObjMat4 m) => (Ok m, w)
    | _ => (Throw TypeError, w)
    end.

(** [dst ?? new Float32Array(16)], then the sixteen assignments: the
    functions of wgpu-matrix write their result into [dst] and return it;
    where [dst] is undefined (a location that holds nothing) they make a
    new array.  On an object that is no array the assignments only add
    properties, of which the model keeps none. *)
Definition store_mat4 (dst : loc) (m : Mat4) : M loc :=
  fun w =>
    match heap w !! dst with
    | Some (ObjMat4 _) =>
        (Ok dst, set_heap (<[dst := ObjMat4 m]> (heap w)) (next_loc w) w)
    | Some (ObjRenderPassDescriptor _) => (Ok dst, w)
    | None => alloc (ObjMat4 m) w
    end.

Definition read_descriptor (l : loc) : M GPURenderPassDescriptor :=
  fun w =>
    match heap w !! l with
    | Some (ObjRenderPassDescriptor d) => (Ok d, w)
    | _ => (Throw TypeError, w)
    end.

(** [descriptor.colorAttachments[0].view = view] *)
Definition assign_color_view (l : loc) (view : handle) : M unit :=
  fun w =>
    match heap w !! l with
    | Some (ObjRenderPassDescriptor d) =>
        let d' := {| color_view := Some view;
                     color_clearValue := color_clearValue d;
                     color_loadOp := color_loadOp d;
                     color_storeOp := color_storeOp d;
                     depth_view := depth_view d;
                     depthClearValue := depthClearValue d;
                     depthLoadOp := depthLoadOp d;
                     depthStoreOp := depthStoreOp d |} in
        (Ok tt,
         set_heap (<[l := ObjRenderPassDescriptor d']> (heap w)) (next_loc w) w)
    | _ => (Throw TypeError, w)
    end.

(** ** wgpu-matrix on the heap *)

Definition mat4_create : M loc := alloc (ObjMat4 mat4_create_value).

Definition mat4_identity : M loc := alloc (ObjMat4 mat4_identity_value).

Definition mat4_perspective (fieldOfViewY aspect zNear zFar : number)
  : M loc :=
  alloc (ObjMat4 (mat4_perspective_value fieldOfViewY aspect zNear zFar)).

Definition mat4_translate (m : loc) (v : Vec3) (dst : loc) : M loc :=
  a <- read_mat4 m ;;
  store_mat4 dst (mat4_translate_value a v).

Definition mat4_rotate (m : loc) (axis : Vec3) (angle : number) (dst : loc)
  : M loc :=
  a <- read_mat4 m ;;
  store_mat4 dst (mat4_rotate_value a axis angle).

Definition mat4_multiply (a b dst : loc) : M loc :=
  x <- read_mat4 a ;;
  y <- read_mat4 b ;;
  store_mat4 dst (mat4_multiply_value x y).

Definition Date_now : M number :=
  t <- get clock ;;
  record (EvDateNow t) ;;
  ret t.

(** ** The device *)

Definition zeros (n : nat) : list Byte.byte := repeat Byte.x00 n.

(** One of the objects [hs] is invalid. *)
Definition uses_invalid (invalid : gset handle) (hs : list handle) : bool :=
  existsb (fun h => bool_decide (h ∈ invalid)) hs.

(** The device finds a creation call invalid: for what the call asks, or
    because the call names an invalid object. *)
Definition found_invalid (reports : GPUCall -> bool) (invalid : gset handle)
    (call : GPUCall) : bool :=
  reports call || uses_invalid invalid (call_refs call).

(** A creation call has three outcomes.  It throws, and the program ends
    there.  Or it returns a new object under the next handle: a valid one,
    or, when the device finds the call invalid, an invalid one together
    with an error that the program is not told about unless it asks (an
    error scope, [getCompilationInfo], the [uncapturederror] event). *)
Definition create (call : GPUCall) (o : GPUObject) : M handle :=
  fun w =>
    if rejects (env w) call then (Throw (GPUError call), w)
    else
      let h := next_handle w in
      (Ok h,
       set_created (EvCreate call h) h o
         (found_invalid (device_reports w) (invalidObjects w) call) w).

(** An object the platform hands out without a descriptor. *)
Definition new_object (o : GPUObject) : M handle :=
  fun w =>
    let h := next_handle w in
    (Ok h, set_objects (<[h := o]> (objects w)) (S h) w).

Definition device_createBuffer (d : GPUBufferDescriptor) : M handle :=
  create (CreateBuffer d)
    (Buffer d
       (if bd_mappedAtCreation d then Some (zeros (bd_size d)) else None)
       (zeros (bd_size d))).

Definition device_createShaderModule (code : string) : M handle :=
  create (CreateShaderModule code) (ShaderModule code).

Definition device_createRenderPipeline (d : GPURenderPipelineDescriptor)
  : M handle :=
  create (CreateRenderPipeline d) (RenderPipeline d).

Definition device_createTexture (d : GPUTextureDescriptor) : M handle :=
  create (CreateTexture d) (Texture d).

Definition device_createBindGroup (d : GPUBindGroupDescriptor) : M handle :=
  create (CreateBindGroup d) (BindGroup d).

(** The layout of an invalid pipeline and the view of an invalid texture
    are invalid. *)
Definition pipeline_getBindGroupLayout (p : handle) (index : nat)
  : M handle :=
  fun w =>
    let l := next_handle w in
    (Ok l,
     set_created (EvGetBindGroupLayout p index l) l (BindGroupLayout p index)
       (uses_invalid (invalidObjects w) [ p ]) w).

Definition texture_createView (texture : handle) : M handle :=
  fun w =>
    let v := next_handle w in
    (Ok v,
     set_created (EvCreateView texture v) v (TextureView texture)
       (uses_invalid (invalidObjects w) [ texture ]) w).

(** [new Float32Array(buffer.getMappedRange()).set(src)] *)
Definition mappedRange_set (buffer : handle) (src : Float32Array) : M unit :=
  fun w =>
    match objects w !! buffer with
    | Some (Buffer d (Some range) contents) =>
        if negb (length range mod 4 =? 0)%nat then (Throw RangeError, w)
        else if (length range / 4 <? length src)%nat
        then (Throw RangeError, w)
        else
          let range' := buffer_of src ++ drop (byteLength src) range in
          (Ok tt,
           set_objects (<[buffer := Buffer d (Some range') contents]>
                          (objects w)) (next_handle w) w)
    | _ => (Throw OperationError, w)
    end.

(** [buffer.unmap()]: the mapped range becomes the contents. *)
Definition buffer_unmap (buffer : handle) : M unit :=
  fun w =>
    match objects w !! buffer with
    | Some (Buffer d (Some range) _) =>
        (Ok tt,
         set_objects (<[buffer := Buffer d None range]> (objects w))
           (next_handle w) w)
    | _ => (Ok tt, w)
    end.

Definition has_usage (usage flag : Z) : bool :=
  negb (Z.land usage flag =? 0)%Z.

(** [queue.writeBuffer(buffer, bufferOffset, data, dataOffset, size)] with
    [data] an ArrayBuffer: offsets and size are in bytes.  A bad range of
    [data] throws; a write the device finds invalid raises a validation
    error and is not put on the queue. *)
Definition queue_writeBuffer (buffer : handle) (bufferOffset : nat)
    (data : list Byte.byte) (dataOffset size : nat) : M unit :=
  fun w =>
    if (length data <? dataOffset + size)%nat || negb (size mod 4 =? 0)%nat
    then (Throw OperationError, w)
    else
      let contents := take size (drop dataOffset data) in
      match objects w !! buffer with
      | Some (Buffer d None _) =>
          if has_usage (bd_usage d) GPUBufferUsage.COPY_DST
             && (bufferOffset mod 4 =? 0)%nat
             && (bufferOffset + size <=? bd_size d)%nat
             && negb (uses_invalid (invalidObjects w) [ buffer ])
          then (Ok tt, add_log (EvQueue (WriteBuffer buffer bufferOffset contents)) w)
          else (Ok tt, add_log EvValidationError w)
      | _ => (Ok tt, add_log EvValidationError w)
      end.

Definition queue_submit (commandBuffers : list (list Command)) : M unit :=
  record (EvQueue (Submit commandBuffers)).

(** The context is configured once [configure] has been called; the
    program never unconfigures it. *)
Definition context_configured (l : list Event) : bool :=
  existsb (fun ev => match ev with EvConfigure _ => true | _ => false end) l.

(** [context.getCurrentTexture()]: an [InvalidStateError] on a context that
    is not configured, else one texture per animation frame. *)
Definition context_getCurrentTexture : M handle :=
  isConfigured <- get (fun w => context_configured (log w)) ;;
  if negb isConfigured then throw InvalidStateError
  else
    cur <- get currentTexture ;;
    match cur with
    | Some t => record (EvGetCurrentTexture t) ;; ret t
    | None =>
        t <- new_object SurfaceTexture ;;
        modify (set_currentTexture (Some t)) ;;
        record (EvGetCurrentTexture t) ;;
        ret t
    end.

(** Encoders accumulate commands; the value is the list recorded so far. *)
Definition device_createCommandEncoder : M (list Command) :=
  record EvCreateCommandEncoder ;;
  ret [].

Definition encode (encoder : list Command) (cmd : Command)
  : M (list Command) :=
  record (EvEncode cmd) ;;
  ret (encoder ++ [cmd]).

Definition encoder_finish (encoder : list Command) : M (list Command) :=
  record EvFinish ;;
  ret encoder.

Definition requestAnimationFrame (callback : Closure) : M unit :=
  fun w =>
    (Ok tt,
     add_log (EvRequestAnimationFrame callback)
       (set_callbacks (animationFrameCallbacks w ++ [callback]) w)).

(** ** The program: [main] and the functions it defines *)

Record IMain := {
  basicVertWgsl : string;
  vertexPositionColorWgsl : string;
  textureFormat : GPUTextureFormat;
}.

Definition getTransformationMatrix (c : Closure) : M loc :=
  viewMatrix <- mat4_identity ;;
  mat4_translate viewMatrix (vec3_fromValues 0 0 (-10)) viewMatrix ;;
  t <- Date_now ;;
  let now := (t / 5000)%R in
  mat4_rotate viewMatrix
    (vec3_fromValues (Math_sin now) (Math_cos now) 0) 1 viewMatrix ;;
  mat4_multiply (projectionMatrix c) viewMatrix
    (modelViewProjectionMatrix c) ;;
  ret (modelViewProjectionMatrix c).

Definition frame (c : Closure) : M unit :=
  transformationMatrix <- getTransformationMatrix c ;;
  m <- read_mat4 transformationMatrix ;;
  queue_writeBuffer (uniformBuffer c) 0
    (buffer_of (Mat4_elements m)) 0 (byteLength (Mat4_elements m)) ;;
  texture <- context_getCurrentTexture ;;
  view <- texture_createView texture ;;
  assign_color_view (renderPassDescriptor c) view ;;
  commandEncoder <- device_createCommandEncoder ;;
  descriptor <- read_descriptor (renderPassDescriptor c) ;;
  passEncoder <- encode commandEncoder (BeginRenderPass descriptor) ;;
  passEncoder <- encode passEncoder (SetPipeline (pipeline c)) ;;
  passEncoder <- encode passEncoder (SetBindGroup 0 (uniformBindGroup c)) ;;
  passEncoder <- encode passEncoder (SetVertexBuffer 0 (verticesBuffer c)) ;;
  passEncoder <- encode passEncoder (Draw cubeVertexCount 1 0 0) ;;
  passEncoder <- encode passEncoder EndPass ;;
  commandBuffer <- encoder_finish passEncoder ;;
  queue_submit [commandBuffer] ;;
  requestAnimationFrame c.

(** The one element of [vertex.buffers] in the pipeline descriptor. *)
Definition vertexBufferLayout : GPUVertexBufferLayout :=
  {| arrayStride := cubeVertexSize;
     attributes :=
       [ {| shaderLocation := 0; offset := cubePositionOffset;
            format := float32x4 |};
         {| shaderLocation := 1; offset := cubeUVOffset;
            format := float32x2 |} ] |}.

Definition main (cubeVertexArray : Float32Array) (props : IMain) : M unit :=
  verticesBuffer <- device_createBuffer
    {| bd_size := byteLength cubeVertexArray;
       bd_usage := GPUBufferUsage.VERTEX;
       bd_mappedAtCreation := true |} ;;
  mappedRange_set verticesBuffer cubeVertexArray ;;
  buffer_unmap verticesBuffer ;;
  vertexModule <- device_createShaderModule (basicVertWgsl props) ;;
  fragmentModule <- device_createShaderModule (vertexPositionColorWgsl props) ;;
  pipeline <- device_createRenderPipeline
    {| vertex_module := vertexModule;
       vertex_entryPoint := "main";
       vertex_buffers := [ vertexBufferLayout ];
       fragment_module := fragmentModule;
       fragment_entryPoint := "main";
       fragment_targets := [ textureFormat props ];
       primitive_topology := triangle_list;
       primitive_cullMode := cull_back;
       depthWriteEnabled := true;
       depthCompare := cmp_less;
       depthStencil_format := depth24plus |} ;;
  width <- get canvas_width ;;
  height <- get canvas_height ;;
  depthTexture <- device_createTexture
    {| td_size := (width, height);
       td_format := depth24plus;
       td_usage := GPUTextureUsage.RENDER_ATTACHMENT |} ;;
  let uniformBufferSize := (4 * 16)%nat in
  uniformBuffer <- device_createBuffer
    {| bd_size := uniformBufferSize;
       bd_usage := Z.lor GPUBufferUsage.UNIFORM GPUBufferUsage.COPY_DST;
       bd_mappedAtCreation := false |} ;;
  layout <- pipeline_getBindGroupLayout pipeline 0 ;;
  uniformBindGroup <- device_createBindGroup
    {| bg_layout := layout; bg_entries := [ (0%nat, uniformBuffer) ] |} ;;
  depthView <- texture_createView depthTexture ;;
  renderPassDescriptor <- alloc (ObjRenderPassDescriptor
    {| color_view := None;
       color_clearValue := (0.5, 0.5, 0.5, 1)%R;
       color_loadOp := op_clear;
       color_storeOp := op_store;
       depth_view := depthView;
       depthClearValue := 1%R;
       depthLoadOp := op_clear;
       depthStoreOp := op_store |}) ;;
  width <- get canvas_width ;;
  height <- get canvas_height ;;
  let aspect := (IZR width / IZR height)%R in
  projectionMatrix <- mat4_perspective (2 * Math_PI / 5) aspect 1 100 ;;
  modelViewProjectionMatrix <- mat4_create ;;
  requestAnimationFrame
    {| verticesBuffer := verticesBuffer;
       pipeline := pipeline;
       uniformBuffer := uniformBuffer;
       uniformBindGroup := uniformBindGroup;
       renderPassDescriptor := renderPassDescriptor;
       projectionMatrix := projectionMatrix;
       modelViewProjectionMatrix := modelViewProjectionMatrix |}.

(** ** Module initialisation *)

(** Evaluation of the imported mesh module; it throws when the construction
    of the mesh fails. *)
Definition import_cube : M Float32Array :=
  match mkMesh cubeVertexTable with
  | Some cubeVertexArray => ret cubeVertexArray
  | None => throw (JSError "mesh byte length is not vertex count x stride")
  end.

(** The top level of the module after its imports: capability check, canvas
    sizing, adapter and device negotiation, context configuration, and the
    call of [main] once both shader texts have arrived.  An exception thrown
    in a promise callback is an unhandled rejection: nothing after it
    runs. *)
Definition negotiate (canvasSize : Env -> number * number)
    (main : IMain -> M unit) : M unit :=
  e <- get env ;;
  if negb (navigator_gpu e)
  then throw (JSError "WebGPU not suported on this browser")
  else
    match querySelector_canvas e with
    | None => throw (JSError "Canvas not found")
    | Some _ =>
        modify (set_canvas_size (toUnsignedLong e (fst (canvasSize e)))
                                (toUnsignedLong e (snd (canvasSize e)))) ;;
        match requestAdapter e with
        | Rejected _ => throw (JSError "No appropriate GPUAdapter found.")
        | Fulfilled None => throw (JSError "Adapter not found")
        | Fulfilled (Some _) =>
            match requestDevice e with
            | Rejected reason => throw (Rejection reason)
            | Fulfilled None => throw (JSError "device not found")
            | Fulfilled (Some _) =>
                match getContext_webgpu e with
                | None => throw (JSError "Context not found")
                | Some _ =>
                    let canvasFormat := getPreferredCanvasFormat e in
                    record (EvConfigure canvasFormat) ;;
                    match fetch_basic_vert e,
                          fetch_vertexPositionColor_frag e with
                    | Fulfilled basicVertWgsl,
                      Fulfilled vertexPositionColorWgsl =>
                        main {| basicVertWgsl := basicVertWgsl;
                                vertexPositionColorWgsl :=
                                  vertexPositionColorWgsl;
                                textureFormat := canvasFormat |}
                    | Rejected reason, _ => throw (Rejection reason)
                    | _, Rejected reason => throw (Rejection reason)
                    end
                end
            end
        end
    end.

(** The first program. *)
Definition canvasSize (e : Env) : number * number :=
  ((innerWidth e - 50 * devicePixelRatio e)%R,
   (innerHeight e - 50 * devicePixelRatio e)%R).

Definition startup : M unit :=
  cubeVertexArray <- import_cube ;;
  negotiate canvasSize (main cubeVertexArray).

(** The second program: the same top level with another canvas size, and a
    [main] whose body is one call of [console.log]; the rest of that body
    is commented out. *)
Definition canvasSize_alt (e : Env) : number * number :=
  ((clientWidth e * devicePixelRatio e)%R,
   (clientHeight e * devicePixelRatio e)%R).

Definition main_alt (args : IMain) : M unit := record EvConsoleLog.

Definition startup_alt : M unit :=
  import_cube ;;
  negotiate canvasSize_alt main_alt.

(** ** The host's scheduler *)

(** One display refresh at time [t]: the callbacks registered so far run to
    completion one after the other, those they register wait for the next
    refresh; then the frame's surface texture expires.  An exception in a
    callback ends that callback only. *)
Definition run_callback (w : World) (c : Closure) : World := snd (frame c w).

Definition animationFrame (t : number) (w : World) : World :=
  let callbacks := animationFrameCallbacks w in
  let w' := fold_left run_callback callbacks (set_callbacks [] (set_clock t w)) in
  set_currentTexture None w'.

(** The refreshes at the given times, oldest first. *)
Definition run (times : list number) (w : World) : World :=
  fold_left (fun w t => animationFrame t w) times w.

(** ** The device timeline *)

(** The queue: the work of the log, in the order it was put there. *)
Definition queue_of (l : list Event) : list QueueOp :=
  flat_map (fun ev => match ev with EvQueue op => [op] | _ => [] end) l.

(** What one draw call reads. *)
Record Drawn := {
  drawn_target : option handle;
  drawn_pipeline : option handle;
  drawn_uniform : option (list Byte.byte);
  drawn_vertices : option (list Byte.byte);
  drawn_vertexCount : nat;
}.

Record PassState := {
  pass_target : option handle;
  pass_pipeline : option handle;
  pass_bindGroup0 : option handle;
  pass_vertexBuffer0 : option handle;
}.

Record Device := {
  memory : gmap handle GPUObject;
  draws : list Drawn;
}.

Definition buffer_contents (mem : gmap handle GPUObject) (h : handle)
  : option (list Byte.byte) :=
  match mem !! h with
  | Some (Buffer _ _ contents) => Some contents
  | _ => None
  end.

(** The buffer behind binding 0 of a bind group. *)
Definition bound_buffer (mem : gmap handle GPUObject) (group : handle)
  : option handle :=
  match mem !! group with
  | Some (BindGroup d) =>
      match bg_entries d with
      | (O, b) :: _ => Some b
      | _ => None
      end
  | _ => None
  end.

Definition exec_command (mem : gmap handle GPUObject)
    (st : PassState * list Drawn) (cmd : Command) : PassState * list Drawn :=
  let '(p, out) := st in
  match cmd with
  | BeginRenderPass d =>
      ({| pass_target := color_view d; pass_pipeline := None;
          pass_bindGroup0 := None; pass_vertexBuffer0 := None |}, out)
  | SetPipeline h =>
      ({| pass_target := pass_target p; pass_pipeline := Some h;
          pass_bindGroup0 := pass_bindGroup0 p;
          pass_vertexBuffer0 := pass_vertexBuffer0 p |}, out)
  | SetBindGroup O g =>
      ({| pass_target := pass_target p; pass_pipeline := pass_pipeline p;
          pass_bindGroup0 := Some g;
          pass_vertexBuffer0 := pass_vertexBuffer0 p |}, out)
  | SetBindGroup (S _) _ => (p, out)
  | SetVertexBuffer O b =>
      ({| pass_target := pass_target p; pass_pipeline := pass_pipeline p;
          pass_bindGroup0 := pass_bindGroup0 p;
          pass_vertexBuffer0 := Some b |}, out)
  | SetVertexBuffer (S _) _ => (p, out)
  | Draw n _ _ _ =>
      (p,
       out ++
       [ {| drawn_target := pass_target p;
            drawn_pipeline := pass_pipeline p;
            drawn_uniform :=
              g ← pass_bindGroup0 p; b ← bound_buffer mem g;
              buffer_contents mem b;
            drawn_vertices := b ← pass_vertexBuffer0 p; buffer_contents mem b;
            drawn_vertexCount := n |} ])
  | EndPass => (p, out)
  end.

Definition no_pass : PassState :=
  {| pass_target := None; pass_pipeline := None;
     pass_bindGroup0 := None; pass_vertexBuffer0 := None |}.

Definition exec_commandBuffer (mem : gmap handle GPUObject)
    (out : list Drawn) (cmds : list Command) : list Drawn :=
  snd (fold_left (exec_command mem) cmds (no_pass, out)).

(** A command buffer the device can execute names valid objects only; the
    memory of the device holds the valid objects. *)
Definition command_usable (mem : gmap handle GPUObject) (cmd : Command)
  : bool :=
  forallb (fun h => bool_decide (is_Some (mem !! h))) (command_refs cmd).

(** The device takes the work of the queue in order; a submission with a
    command buffer it cannot execute is an error and draws nothing. *)
Definition exec_op (s : Device) (op : QueueOp) : Device :=
  match op with
  | WriteBuffer h off data =>
      match memory s !! h with
      | Some (Buffer d mapped contents) =>
          {| memory :=
               <[h := Buffer d mapped
                        (take off contents ++ data ++
                         drop (off + length data) contents)]> (memory s);
             draws := draws s |}
      | _ => s
      end
  | Submit commandBuffers =>
      if forallb (forallb (command_usable (memory s))) commandBuffers
      then
        {| memory := memory s;
           draws := fold_left (exec_commandBuffer (memory s)) commandBuffers
                      (draws s) |}
      else s
  end.

(** The valid objects of a world. *)
Definition valid_objects (w : World) : gmap handle GPUObject :=
  filter (fun entry => fst entry ∉ invalidObjects w) (objects w).

(** The device once it has worked off everything the world has queued. *)
Definition device_after (w : World) : Device :=
  fold_left exec_op (queue_of (log w))
    {| memory := valid_objects w; draws := [] |}.

End Program.

(** ** The vocabulary of the properties *)

Section Vocabulary.
Context `{F32 : Float32} `{!WgpuMatrix}.

(** [canvas.width / canvas.height] *)
Definition aspect_of (w : World) : number :=
  (IZR (canvas_width w) / IZR (canvas_height w))%R.

(** The three numbers [getTransformationMatrix] hands to [vec3.fromValues]
    for the axis, when [Date.now()] answers [dateNow]. *)
Definition rotation_axis (dateNow : number) : number * number * number :=
  let now := (dateNow / 5000)%R in
  (Math_sin now, Math_cos now, 0%R).

(** The projection: field of view 2 pi / 5, near plane 1, far plane 100. *)
Definition projection_of (aspect : number) : Mat4 :=
  mat4_perspective_value (2 * Math_PI / 5) aspect 1 100.

(** The view: the identity, translated by (0, 0, -10), then rotated by one
    radian about the axis of the moment. *)
Definition view_at (dateNow : number) : Mat4 :=
  let '(x, y, z) := rotation_axis dateNow in
  mat4_rotate_value
    (mat4_translate_value mat4_identity_value (vec3_fromValues 0 0 (-10)))
    (vec3_fromValues x y z) 1.

(** Projection times view: the spec's [computeMVP], with the time in the
    unit of [Date.now()]. *)
Definition computeMVP (dateNow aspect : number) : Mat4 :=
  mat4_multiply_value (projection_of aspect) (view_at dateNow).

(** The 64 bytes of a matrix. *)
Definition serialize (m : Mat4) : list Byte.byte :=
  buffer_of (Mat4_elements m).

(** The matrix behind the reference that [getTransformationMatrix]
    returns, read right after the call. *)
Definition returned_matrix (c : Closure) (w : World) : option Mat4 :=
  match getTransformationMatrix c w with
  | (Ok l, w') =>
      match heap w' !! l with
      | Some (ObjMat4 m) => Some m
      | _ => None
      end
  | _ => None
  end.

(** The world in which the callbacks of the refresh at time [t] start. *)
Definition at_time (t : number) (w : World) : World :=
  set_callbacks [] (set_clock t w).

(** The render pass descriptor of [main], with its colour view. *)
Definition descriptor_with (view : option handle) (depthView : handle)
  : GPURenderPassDescriptor :=
  {| color_view := view;
     color_clearValue := (0.5, 0.5, 0.5, 1)%R;
     color_loadOp := op_clear;
     color_storeOp := op_store;
     depth_view := depthView;
     depthClearValue := 1%R;
     depthLoadOp := op_clear;
     depthStoreOp := op_store |}.

(** The commands one tick records. *)
Definition tick_commands (c : Closure) (depthView view : handle)
  : list Command :=
  [ BeginRenderPass (descriptor_with (Some view) depthView);
    SetPipeline (pipeline c);
    SetBindGroup 0 (uniformBindGroup c);
    SetVertexBuffer 0 (verticesBuffer c);
    Draw 36 1 0 0;
    EndPass ].

(** The calls of one tick at time [t], in order, when the surface hands out
    the texture [texture] and the view gets the handle [view]. *)
Definition tick_events (c : Closure) (aspect : number) (depthView : handle)
    (t : number) (texture view : handle) : list Event :=
  [ EvDateNow t;
    EvQueue (WriteBuffer (uniformBuffer c) 0 (serialize (computeMVP t aspect)));
    EvGetCurrentTexture texture;
    EvCreateView texture view;
    EvCreateCommandEncoder ] ++
  map EvEncode (tick_commands c depthView view) ++
  [ EvFinish;
    EvQueue (Submit [ tick_commands c depthView view ]);
    EvRequestAnimationFrame c ].

(** The surface texture and the view of the tick number [k], when the
    first tick finds the next free handle at [base]. *)
Definition texture_of_tick (base k : nat) : handle := base + 2 * k.
Definition view_of_tick (base k : nat) : handle := S (base + 2 * k).

(** The log of the ticks at the given times, the first being number [k]. *)
Fixpoint ticks_events (c : Closure) (aspect : number) (depthView : handle)
    (base k : nat) (times : list number) : list Event :=
  match times with
  | [] => []
  | t :: rest =>
      tick_events c aspect depthView t
        (texture_of_tick base k) (view_of_tick base k) ++
      ticks_events c aspect depthView base (S k) rest
  end.

(** What the draw of a tick at time [t] must read. *)
Definition expected_draw (c : Closure) (aspect : number)
    (vertices : list Byte.byte) (base : nat) (k : nat) (t : number) : Drawn :=
  {| drawn_target := Some (view_of_tick base k);
     drawn_pipeline := Some (pipeline c);
     drawn_uniform := Some (serialize (computeMVP t aspect));
     drawn_vertices := Some vertices;
     drawn_vertexCount := 36 |}.

(** The pipeline descriptor of [main]. *)
Definition pipeline_descriptor (vertexModule fragmentModule : handle)
    (fmt : GPUTextureFormat) : GPURenderPipelineDescriptor :=
  {| vertex_module := vertexModule;
     vertex_entryPoint := "main";
     vertex_buffers := [ vertexBufferLayout ];
     fragment_module := fragmentModule;
     fragment_entryPoint := "main";
     fragment_targets := [ fmt ];
     primitive_topology := triangle_list;
     primitive_cullMode := cull_back;
     depthWriteEnabled := true;
     depthCompare := cmp_less;
     depthStencil_format := depth24plus |}.

Definition vertex_buffer_descriptor (a : Float32Array) : GPUBufferDescriptor :=
  {| bd_size := byteLength a;
     bd_usage := GPUBufferUsage.VERTEX;
     bd_mappedAtCreation := true |}.

Definition uniform_buffer_descriptor : GPUBufferDescriptor :=
  {| bd_size := 64;
     bd_usage := Z.lor GPUBufferUsage.UNIFORM GPUBufferUsage.COPY_DST;
     bd_mappedAtCreation := false |}.

Definition depth_texture_descriptor (w : World) : GPUTextureDescriptor :=
  {| td_size := (canvas_width w, canvas_height w);
     td_format := depth24plus;
     td_usage := GPUTextureUsage.RENDER_ATTACHMENT |}.

(** The byte range [offset, offset + size) of an attribute. *)
Definition attribute_end (a : GPUVertexAttribute) : nat :=
  offset a + format_size (format a).

Definition attributes_disjoint (a b : GPUVertexAttribute) : bool :=
  (attribute_end a <=? offset b)%nat || (attribute_end b <=? offset a)%nat.

Definition attribute_fits (l : GPUVertexBufferLayout) (a : GPUVertexAttribute)
  : bool :=
  (attribute_end a <=? arrayStride l)%nat.
(** The world a tick leaves, when the tick finds [w]. *)
Definition frame_world (c : Closure) (aspect : number) (depthView : handle)
    (w : World) : World :=
  let h := next_handle w in
  {| env := env w; clock := clock w; canvas_width := canvas_width w;
     canvas_height := canvas_height w;
     heap :=
       <[renderPassDescriptor c :=
           ObjRenderPassDescriptor (descriptor_with (Some (S h)) depthView)]>
         (<[modelViewProjectionMatrix c :=
              ObjMat4 (computeMVP (clock w) aspect)]>
            (<[next_loc w := ObjMat4 (view_at (clock w))]> (heap w)));
     next_loc := S (next_loc w);
     objects := <[S h := TextureView h]> (<[h := SurfaceTexture]> (objects w));
     next_handle := S (S h);
     currentTexture := Some h;
     log := log w ++ tick_events c aspect depthView (clock w) h (S h);
     animationFrameCallbacks := animationFrameCallbacks w ++ [c];
     device_reports := device_reports w;
     invalidObjects := invalidObjects w |}.

(** The closure [main] hands to [requestAnimationFrame], when it starts in
    [w]: handles and locations are given out in the order of the calls. *)
Definition main_closure (w : World) : Closure :=
  let n := next_handle w in
  let l := next_loc w in
  {| verticesBuffer := n;
     pipeline := 3 + n;
     uniformBuffer := 5 + n;
     uniformBindGroup := 7 + n;
     renderPassDescriptor := l;
     projectionMatrix := 1 + l;
     modelViewProjectionMatrix := 2 + l |}.

Definition bind_group_descriptor (w : World) : GPUBindGroupDescriptor :=
  {| bg_layout := 6 + next_handle w;
     bg_entries := [ (0%nat, 5 + next_handle w) ] |}.

(** The creation calls of [main], in order: the vertex buffer, the two
    shader modules, the pipeline, the depth texture, the uniform buffer and
    the bind group. *)
Definition resource_calls (a : Float32Array) (props : IMain) (w : World)
  : list GPUCall :=
  let n := next_handle w in
  [ CreateBuffer (vertex_buffer_descriptor a);
    CreateShaderModule (basicVertWgsl props);
    CreateShaderModule (vertexPositionColorWgsl props);
    CreateRenderPipeline
      (pipeline_descriptor (1 + n) (2 + n) (textureFormat props));
    CreateTexture (depth_texture_descriptor w);
    CreateBuffer uniform_buffer_descriptor;
    CreateBindGroup (bind_group_descriptor w) ].

Definition main_events (a : Float32Array) (props : IMain) (w : World)
  : list Event :=
  let n := next_handle w in
  [ EvCreate (CreateBuffer (vertex_buffer_descriptor a)) n;
    EvCreate (CreateShaderModule (basicVertWgsl props)) (1 + n);
    EvCreate (CreateShaderModule (vertexPositionColorWgsl props)) (2 + n);
    EvCreate (CreateRenderPipeline
                (pipeline_descriptor (1 + n) (2 + n) (textureFormat props)))
             (3 + n);
    EvCreate (CreateTexture (depth_texture_descriptor w)) (4 + n);
    EvCreate (CreateBuffer uniform_buffer_descriptor) (5 + n);
    EvGetBindGroupLayout (3 + n) 0 (6 + n);
    EvCreate (CreateBindGroup (bind_group_descriptor w)) (7 + n);
    EvCreateView (4 + n) (8 + n);
    EvRequestAnimationFrame (main_closure w) ].

(** The world [main] leaves when every creation call is accepted and found
    valid. *)
Definition main_world (a : Float32Array) (props : IMain) (w : World)
  : World :=
  let n := next_handle w in
  let l := next_loc w in
  {| env := env w; clock := clock w; canvas_width := canvas_width w;
     canvas_height := canvas_height w;
     heap :=
       <[2 + l := ObjMat4 mat4_create_value]>
         (<[1 + l := ObjMat4 (projection_of (aspect_of w))]>
            (<[l := ObjRenderPassDescriptor (descriptor_with None (8 + n))]>
               (heap w)));
     next_loc := 3 + l;
     objects :=
       <[8 + n := TextureView (4 + n)]>
         (<[7 + n := BindGroup (bind_group_descriptor w)]>
            (<[6 + n := BindGroupLayout (3 + n) 0]>
               (<[5 + n := Buffer uniform_buffer_descriptor None (zeros 64)]>
                  (<[4 + n := Texture (depth_texture_descriptor w)]>
                     (<[3 + n := RenderPipeline
                                   (pipeline_descriptor (1 + n) (2 + n)
                                      (textureFormat props))]>
                        (<[2 + n := ShaderModule
                                      (vertexPositionColorWgsl props)]>
                           (<[1 + n := ShaderModule (basicVertWgsl props)]>
                              (<[n := Buffer (vertex_buffer_descriptor a)
                                        None (buffer_of a)]>
                                 (objects w)))))))));
     next_handle := 9 + n;
     currentTexture := currentTexture w;
     log := log w ++ main_events a props w;
     animationFrameCallbacks :=
       animationFrameCallbacks w ++ [ main_closure w ];
     device_reports := device_reports w;
     invalidObjects := invalidObjects w |}.

(** The answers of the page that let the top level reach [main]. *)
Definition handshake (e : Env) : option IMain :=
  if negb (navigator_gpu e) then None
  else
    match querySelector_canvas e, requestAdapter e, requestDevice e,
          getContext_webgpu e,
          fetch_basic_vert e, fetch_vertexPositionColor_frag e with
    | Some _, Fulfilled (Some _), Fulfilled (Some _), Some _,
      Fulfilled vert, Fulfilled frag =>
        Some {| basicVertWgsl := vert;
                vertexPositionColorWgsl := frag;
                textureFormat := getPreferredCanvasFormat e |}
    | _, _, _, _, _, _ => None
    end.

(** The world in which [main] is called: the canvas has its size and the
    context is configured. *)
Definition configured (size : Env -> number * number) (w : World) : World :=
  add_log (EvConfigure (getPreferredCanvasFormat (env w)))
    (set_canvas_size (toUnsignedLong (env w) (fst (size (env w))))
                     (toUnsignedLong (env w) (snd (size (env w)))) w).
(** The colour view the descriptor holds after [k] ticks. *)
Definition last_view (base k : nat) : option handle :=
  match k with
  | O => None
  | S k' => Some (view_of_tick base k')
  end.

(** The matrix the shared buffer holds after the ticks at [times]. *)
Definition last_matrix (aspect : number) (times : list number) : Mat4 :=
  List.last (map (fun t => computeMVP t aspect) times) mat4_create_value.

(** What the draws of the ticks at [times] must read, the first tick being
    number [k]. *)
Fixpoint expected_draws (c : Closure) (aspect : number)
    (vertices : list Byte.byte) (base k : nat) (times : list number)
  : list Drawn :=
  match times with
  | [] => []
  | t :: rest =>
      expected_draw c aspect vertices base k t ::
      expected_draws c aspect vertices base (S k) rest
  end.

(** The state of the frame loop between two ticks: [main] has run, with the
    mesh [a], the closure [c], the depth view [depthView], the first free
    handle [base] and the log [log0]; since then the ticks at [times] have
    run. *)
Record Running (a : Float32Array) (c : Closure) (depthView : handle)
    (base : nat) (log0 : list Event) (times : list number) (w : World)
  : Prop := {
  run_callbacks : animationFrameCallbacks w = [ c ];
  run_texture : currentTexture w = None;
  run_projection :
    heap w !! projectionMatrix c = Some (ObjMat4 (projection_of (aspect_of w)));
  run_matrix :
    heap w !! modelViewProjectionMatrix c =
    Some (ObjMat4 (last_matrix (aspect_of w) times));
  run_descriptor :
    heap w !! renderPassDescriptor c =
    Some (ObjRenderPassDescriptor
            (descriptor_with (last_view base (length times)) depthView));
  run_locs :
    projectionMatrix c < next_loc w /\
    modelViewProjectionMatrix c < next_loc w /\
    renderPassDescriptor c < next_loc w /\
    renderPassDescriptor c <> modelViewProjectionMatrix c /\
    renderPassDescriptor c <> projectionMatrix c /\
    projectionMatrix c <> modelViewProjectionMatrix c;
  run_uniform :
    objects w !! uniformBuffer c =
    Some (Buffer uniform_buffer_descriptor None (zeros 64));
  run_vertices :
    objects w !! verticesBuffer c =
    Some (Buffer (vertex_buffer_descriptor a) None (buffer_of a));
  run_bindGroup :
    exists layout,
      objects w !! uniformBindGroup c =
      Some (BindGroup {| bg_layout := layout;
                         bg_entries := [ (0%nat, uniformBuffer c) ] |});
  run_pipeline :
    exists vertexModule fragmentModule fmt,
      objects w !! pipeline c =
      Some (RenderPipeline
              (pipeline_descriptor vertexModule fragmentModule fmt));
  run_depth :
    exists depthTexture,
      depthTexture < base /\
      objects w !! depthView = Some (TextureView depthTexture) /\
      objects w !! depthTexture = Some (Texture (depth_texture_descriptor w));
  run_handles :
    uniformBuffer c < base /\ verticesBuffer c < base /\ pipeline c < base /\
    uniformBindGroup c < base /\ depthView < base /\
    uniformBuffer c <> verticesBuffer c;
  run_next : next_handle w = base + 2 * length times;
  run_fresh : forall h, next_handle w <= h -> objects w !! h = None;
  run_log :
    log w = log0 ++
            ticks_events c (aspect_of w) depthView base 0 times;
  run_log0 : queue_of log0 = [];
  run_configured : context_configured log0 = true;
  run_valid : invalidObjects w = ∅;
  run_views :
    forall k, k < length times ->
      objects w !! view_of_tick base k =
      Some (TextureView (texture_of_tick base k));
}.
(** The closure of the frame loop when the program starts on a fresh page:
    the first handles and locations. *)
Definition startup_closure : Closure :=
  {| verticesBuffer := 0;
     pipeline := 3;
     uniformBuffer := 5;
     uniformBindGroup := 7;
     renderPassDescriptor := 0;
     projectionMatrix := 1;
     modelViewProjectionMatrix := 2 |}.

(** The view and the product with the angle read as wall-clock seconds
    over 5000, [Date.now()] being in milliseconds. *)
Definition claimed_view (dateNow : number) : Mat4 :=
  let seconds := (dateNow / 1000)%R in
  let t' := (seconds / 5000)%R in
  mat4_rotate_value
    (mat4_translate_value mat4_identity_value (vec3_fromValues 0 0 (-10)))
    (vec3_fromValues (Math_sin t') (Math_cos t') 0) 1.

Definition claimed_MVP (dateNow aspect : number) : Mat4 :=
  mat4_multiply_value (projection_of aspect) (claimed_view dateNow).

(** The causes of a failed start-up. *)
Inductive StartupFailure (table : list Vertex) (e : Env) : Prop :=
| no_gpu : navigator_gpu e = false -> StartupFailure table e
| adapter_rejected reason :
    requestAdapter e = Rejected reason -> StartupFailure table e
| no_adapter : requestAdapter e = Fulfilled None -> StartupFailure table e
| device_rejected reason :
    requestDevice e = Rejected reason -> StartupFailure table e
| no_device : requestDevice e = Fulfilled None -> StartupFailure table e
| no_context : getContext_webgpu e = None -> StartupFailure table e
| step_fails a props call :
    mkMesh table = Some a -> handshake e = Some props ->
    In call (resource_calls a props (configured canvasSize (boot e))) ->
    rejects e call = true ->
    StartupFailure table e.

(** Two programs that are the same rendering program up to constants of
    the matrix computation start up alike: the constants reach neither the
    outcome of start-up nor the callbacks it registers. *)
Definition same_startup (table : list Vertex) (e : Env) : Prop :=
  fst (startup table (boot e)) = fst (startup_alt table (boot e)) /\
  animationFrameCallbacks (snd (startup table (boot e))) =
    animationFrameCallbacks (snd (startup_alt table (boot e))).

(** *** Vocabulary of the further properties *)

(** The command buffers handed to [queue.submit], oldest first. *)
Definition submissions (l : list Event) : list (list (list Command)) :=
  flat_map (fun ev =>
              match ev with
              | EvQueue (Submit commandBuffers) => [ commandBuffers ]
              | _ => []
              end) l.

(** A computation that leaves the frame loop as it found it, however it
    ends: it registers no callback and submits nothing. *)
Definition loop_untouched (w w' : World) : Prop :=
  animationFrameCallbacks w' = animationFrameCallbacks w /\
  submissions (log w') = submissions (log w).

Definition quiet {A} (c : M A) : Prop :=
  forall w r w', c w = (r, w') -> loop_untouched w w'.

(** The handles a call of the log is given, and those it hands out. *)
Definition event_uses (ev : Event) : list handle :=
  match ev with
  | EvCreate call _ => call_refs call
  | EvGetBindGroupLayout p _ _ => [ p ]
  | EvCreateView texture _ => [ texture ]
  | EvQueue (WriteBuffer b _ _) => [ b ]
  | EvQueue (Submit commandBuffers) =>
      flat_map (flat_map command_refs) commandBuffers
  | EvEncode cmd => command_refs cmd
  | EvRequestAnimationFrame c =>
      [ verticesBuffer c; pipeline c; uniformBuffer c; uniformBindGroup c ]
  | EvConfigure _ | EvDateNow _ | EvValidationError | EvGetCurrentTexture _
  | EvCreateCommandEncoder | EvFinish | EvConsoleLog => []
  end.

Definition event_defines (ev : Event) : list handle :=
  match ev with
  | EvCreate _ h => [ h ]
  | EvGetBindGroupLayout _ _ h => [ h ]
  | EvGetCurrentTexture t => [ t ]
  | EvCreateView _ v => [ v ]
  | _ => []
  end.

(** Every call of the log is given only handles that earlier calls of the
    log (or the set [known]) have handed out. *)
Fixpoint scoped (known : gset nat) (l : list Event) : bool :=
  match l with
  | [] => true
  | ev :: rest =>
      forallb (fun h => bool_decide (h ∈ known)) (event_uses ev) &&
      scoped (known ∪ list_to_set (event_defines ev)) rest
  end.

(** The valid object behind a handle. *)
Definition live (objs : gmap nat GPUObject) (invalid : gset nat) (h : handle)
  : option GPUObject :=
  if bool_decide (h ∈ invalid) then None else objs !! h.

(** The texture a view is a view of, both valid. *)
Definition view_target (objs : gmap nat GPUObject) (invalid : gset nat)
    (v : handle) : option (handle * GPUObject) :=
  match live objs invalid v with
  | Some (TextureView t) =>
      match live objs invalid t with
      | Some o => Some (t, o)
      | None => None
      end
  | _ => None
  end.

Definition format_eqb (f g : GPUTextureFormat) : bool :=
  match f, g with
  | bgra8unorm, bgra8unorm | rgba8unorm, rgba8unorm
  | depth24plus, depth24plus => true
  | _, _ => false
  end.

(** A command names valid objects of the right kind: the colour
    attachment is a view of the surface texture that is current, the depth
    attachment a view of a depth texture usable as render attachment, the
    pipeline a render pipeline, the bind group one made for the layout of
    the index it is set at and binding unmapped uniform buffers, the vertex
    buffer an unmapped buffer of vertex usage. *)
Definition command_valid (objs : gmap nat GPUObject) (invalid : gset nat)
    (current : option handle) (cmd : Command) : bool :=
  match cmd with
  | BeginRenderPass d =>
      match color_view d with
      | Some v =>
          match view_target objs invalid v with
          | Some (t, SurfaceTexture) => bool_decide (current = Some t)
          | _ => false
          end
      | None => false
      end &&
      match view_target objs invalid (depth_view d) with
      | Some (_, Texture td) =>
          has_usage (td_usage td) GPUTextureUsage.RENDER_ATTACHMENT &&
          match depth_bits (td_format td) with Some _ => true | None => false end
      | _ => false
      end
  | SetPipeline p =>
      match live objs invalid p with
      | Some (RenderPipeline _) => true
      | _ => false
      end
  | SetBindGroup i g =>
      match live objs invalid g with
      | Some (BindGroup d) =>
          match live objs invalid (bg_layout d) with
          | Some (BindGroupLayout _ j) => (i =? j)%nat
          | _ => false
          end &&
          forallb (fun entry =>
                     match live objs invalid (snd entry) with
                     | Some (Buffer bd None _) =>
                         has_usage (bd_usage bd) GPUBufferUsage.UNIFORM
                     | _ => false
                     end) (bg_entries d)
      | _ => false
      end
  | SetVertexBuffer _ b =>
      match live objs invalid b with
      | Some (Buffer bd None _) => has_usage (bd_usage bd) GPUBufferUsage.VERTEX
      | _ => false
      end
  | Draw _ _ _ _ | EndPass => true
  end.

(** The vertices [first, first + n) lie within the vertex buffer [b], for
    the stride of the first buffer layout of the pipeline [p]. *)
Definition draw_in_bounds (objs : gmap nat GPUObject) (invalid : gset nat)
    (p b : handle) (n first : nat) : bool :=
  match live objs invalid p, live objs invalid b with
  | Some (RenderPipeline pd), Some (Buffer bd _ _) =>
      match vertex_buffers pd with
      | layout :: _ => ((first + n) * arrayStride layout <=? bd_size bd)%nat
      | [] => true
      end
  | _, _ => false
  end.

(** What a pass has set and done so far. *)
Record PassCheck := {
  chk_depth : GPUTextureFormat;
  chk_pipeline : option handle;
  chk_group0 : bool;
  chk_vertex0 : option handle;
  chk_drawn : bool;
}.

Inductive PassStage :=
| NotBegun
| Open (s : PassCheck)
| Ended.

(** A command buffer is well formed when it is one render pass, begun and
    ended once, in which every command is valid, the pipeline has the depth
    format of the depth attachment, there is at least one draw, and every
    draw comes with a pipeline, bind group 0 and vertex buffer 0 set and
    stays within the vertex buffer. *)
Fixpoint check_commands (objs : gmap nat GPUObject) (invalid : gset nat)
    (current : option handle) (stage : PassStage) (cmds : list Command)
  : bool :=
  match cmds with
  | [] => match stage with Ended => true | _ => false end
  | cmd :: rest =>
      command_valid objs invalid current cmd &&
      match cmd, stage with
      | BeginRenderPass d, NotBegun =>
          match view_target objs invalid (depth_view d) with
          | Some (_, Texture td) =>
              check_commands objs invalid current
                (Open {| chk_depth := td_format td; chk_pipeline := None;
                         chk_group0 := false; chk_vertex0 := None;
                         chk_drawn := false |}) rest
          | _ => false
          end
      | SetPipeline p, Open s =>
          match live objs invalid p with
          | Some (RenderPipeline pd) =>
              format_eqb (depthStencil_format pd) (chk_depth s) &&
              check_commands objs invalid current
                (Open {| chk_depth := chk_depth s; chk_pipeline := Some p;
                         chk_group0 := chk_group0 s;
                         chk_vertex0 := chk_vertex0 s;
                         chk_drawn := chk_drawn s |}) rest
          | _ => false
          end
      | SetBindGroup O _, Open s =>
          check_commands objs invalid current
            (Open {| chk_depth := chk_depth s; chk_pipeline := chk_pipeline s;
                     chk_group0 := true; chk_vertex0 := chk_vertex0 s;
                     chk_drawn := chk_drawn s |}) rest
      | SetBindGroup (S _) _, Open s =>
          check_commands objs invalid current (Open s) rest
      | SetVertexBuffer O b, Open s =>
          check_commands objs invalid current
            (Open {| chk_depth := chk_depth s; chk_pipeline := chk_pipeline s;
                     chk_group0 := chk_group0 s; chk_vertex0 := Some b;
                     chk_drawn := chk_drawn s |}) rest
      | SetVertexBuffer (S _) _, Open s =>
          check_commands objs invalid current (Open s) rest
      | Draw n _ first _, Open s =>
          match chk_pipeline s, chk_vertex0 s with
          | Some p, Some b =>
              chk_group0 s && draw_in_bounds objs invalid p b n first &&
              check_commands objs invalid current
                (Open {| chk_depth := chk_depth s;
                         chk_pipeline := chk_pipeline s;
                         chk_group0 := chk_group0 s;
                         chk_vertex0 := chk_vertex0 s;
                         chk_drawn := true |}) rest
          | _, _ => false
          end
      | EndPass, Open s =>
          chk_drawn s && check_commands objs invalid current Ended rest
      | _, _ => false
      end
  end.

(** The commands between the begin and the end of a pass. *)
Definition in_pass (cmd : Command) : bool :=
  match cmd with
  | BeginRenderPass _ | EndPass => false
  | _ => true
  end.

Definition is_draw (cmd : Command) : bool :=
  match cmd with
  | Draw _ _ _ _ => true
  | _ => false
  end.

(** The contract of a tick of the closure [c]: a normal return has
    registered [c] once more and submitted one command buffer; an exception
    has left the loop untouched. *)
Definition tick_contract (c : Closure) {A} (m : M A) : Prop :=
  forall w r w',
    m w = (r, w') ->
    match r with
    | Ok _ =>
        animationFrameCallbacks w' = animationFrameCallbacks w ++ [ c ] /\
        exists cmds,
          submissions (log w') = submissions (log w) ++ [ [ cmds ] ]
    | Throw _ => loop_untouched w w'
    end.

(** The creation calls the device has accepted, and the formats the
    context has been configured with, oldest first. *)
Definition creations (l : list Event) : list GPUCall :=
  flat_map (fun ev =>
              match ev with
              | EvCreate call _ => [ call ]
              | _ => []
              end) l.

Definition configurations (l : list Event) : list GPUTextureFormat :=
  flat_map (fun ev =>
              match ev with
              | EvConfigure fmt => [ fmt ]
              | _ => []
              end) l.
End Vocabulary.


(** ** A stub platform

    Closed instances of the interfaces, for running the program on concrete
    inputs: float32 values are the numbers themselves, every matrix has its
    sixteen elements equal, every creation call is accepted.  The matrices
    are stand-ins, not those of wgpu-matrix. *)

Module Stub.

Definition float32 : Float32 :=
  {| f32 := R;
     fround := fun x => x;
     f32_bytes := fun _ => [ Byte.x00; Byte.x00; Byte.x00; Byte.x00 ];
     f32_bytes_length := fun _ => eq_refl |}.

Definition fill (x : R) : @Mat4 float32 :=
  @mkMat4 float32 x x x x x x x x x x x x x x x x.

Definition matrix : @WgpuMatrix float32 :=
  {| mat4_create_value := fill 0;
     mat4_identity_value := fill 1;
     mat4_perspective_value := fun fov aspect near far => fill aspect;
     mat4_translate_value := fun m v => fill (@e0 float32 m + snd v);
     mat4_rotate_value := fun m axis angle => fill (fst (fst axis));
     mat4_multiply_value :=
       fun a b => fill (@e0 float32 a + @e0 float32 b) |}.

Definition table : list (@Vertex float32) :=
  repeat (@mkVertex float32 (0, 0, 0, 1)%R (0, 0)%R) 36.

Definition page : Env :=
  {| navigator_gpu := true;
     querySelector_canvas := Some tt;
     innerWidth := 850;
     innerHeight := 650;
     clientWidth := 800;
     clientHeight := 600;
     devicePixelRatio := 1;
     toUnsignedLong := Int_part;
     requestAdapter := Fulfilled (Some tt);
     requestDevice := Fulfilled (Some tt);
     getContext_webgpu := Some tt;
     getPreferredCanvasFormat := bgra8unorm;
     fetch_basic_vert := Fulfilled "vertex shader";
     fetch_vertexPositionColor_frag := Fulfilled "fragment shader";
     rejects := fun _ => false |}.

(** The same page with a device that refuses to create textures. *)
Definition page_without_textures : Env :=
  {| navigator_gpu := true;
     querySelector_canvas := Some tt;
     innerWidth := 850;
     innerHeight := 650;
     clientWidth := 800;
     clientHeight := 600;
     devicePixelRatio := 1;
     toUnsignedLong := Int_part;
     requestAdapter := Fulfilled (Some tt);
     requestDevice := Fulfilled (Some tt);
     getContext_webgpu := Some tt;
     getPreferredCanvasFormat := bgra8unorm;
     fetch_basic_vert := Fulfilled "vertex shader";
     fetch_vertexPositionColor_frag := Fulfilled "fragment shader";
     rejects := fun call =>
                  match call with CreateTexture _ => true | _ => false end |}.

(** The world the first program leaves on the stub page. *)
Definition started : @World float32 :=
  snd (@startup float32 matrix table (boot page)).

End Stub.

(** Pages and worlds for the further properties. *)

Module Pages.

(** The stub page in a browser without WebGPU. *)
Definition page_without_gpu : Env :=
  {| navigator_gpu := false;
     querySelector_canvas := Some tt;
     innerWidth := 850;
     innerHeight := 650;
     clientWidth := 800;
     clientHeight := 600;
     devicePixelRatio := 1;
     toUnsignedLong := Int_part;
     requestAdapter := Fulfilled (Some tt);
     requestDevice := Fulfilled (Some tt);
     getContext_webgpu := Some tt;
     getPreferredCanvasFormat := bgra8unorm;
     fetch_basic_vert := Fulfilled "vertex shader";
     fetch_vertexPositionColor_frag := Fulfilled "fragment shader";
     rejects := fun _ => false |}.

(** The stub page in a browser that has WebGPU but no adapter for it. *)
Definition page_without_adapter : Env :=
  {| navigator_gpu := true;
     querySelector_canvas := Some tt;
     innerWidth := 850;
     innerHeight := 650;
     clientWidth := 800;
     clientHeight := 600;
     devicePixelRatio := 1;
     toUnsignedLong := Int_part;
     requestAdapter := Fulfilled None;
     requestDevice := Fulfilled (Some tt);
     getContext_webgpu := Some tt;
     getPreferredCanvasFormat := bgra8unorm;
     fetch_basic_vert := Fulfilled "vertex shader";
     fetch_vertexPositionColor_frag := Fulfilled "fragment shader";
     rejects := fun _ => false |}.

(** A device that finds the fragment shader of the stub page invalid: the
    shader does not compile. *)
Definition fragment_shader_does_not_compile (call : GPUCall) : bool :=
  match call with
  | CreateShaderModule code => String.eqb code "fragment shader"
  | _ => false
  end.

(** A world whose pending callback closes over objects that do not
    exist. *)
Definition dangling : @World Stub.float32 :=
  set_callbacks [ startup_closure ] (boot Stub.page).

End Pages.

(** ** Properties *)

Section Properties.
Context `{F32 : Float32} `{!WgpuMatrix}.
Variable table : list Vertex.

(** *** Running the monad step by step *)

(** Projections of a world built by the setters. *)
Ltac world_simpl :=
  cbn [env clock canvas_width canvas_height heap next_loc objects next_handle
       currentTexture log animationFrameCallbacks device_reports invalidObjects
       set_clock set_canvas_size set_heap set_objects set_currentTexture
       add_log set_callbacks set_device_reports set_created mark reported
       at_time].

Ltac world_simpl_in H :=
  cbn [env clock canvas_width canvas_height heap next_loc objects next_handle
       currentTexture log animationFrameCallbacks device_reports invalidObjects
       set_clock set_canvas_size set_heap set_objects set_currentTexture
       add_log set_callbacks set_device_reports set_created mark reported
       at_time] in H.

Lemma world_eq (w1 w2 : World) :
  env w1 = env w2 -> clock w1 = clock w2 ->
  canvas_width w1 = canvas_width w2 -> canvas_height w1 = canvas_height w2 ->
  heap w1 = heap w2 -> next_loc w1 = next_loc w2 ->
  objects w1 = objects w2 -> next_handle w1 = next_handle w2 ->
  currentTexture w1 = currentTexture w2 -> log w1 = log w2 ->
  animationFrameCallbacks w1 = animationFrameCallbacks w2 ->
  device_reports w1 = device_reports w2 ->
  invalidObjects w1 = invalidObjects w2 ->
  w1 = w2.
Proof. destruct w1, w2; cbn; intros; subst; reflexivity. Qed.

Lemma bind_eq {A B} (c : M A) (k : A -> M B) w a w1 :
  c w = (Ok a, w1) -> bind c k w = k a w1.
Proof. intros Hc. unfold bind. rewrite Hc. reflexivity. Qed.

Lemma bind_throw {A B} (c : M A) (k : A -> M B) w e w1 :
  c w = (Throw e, w1) -> bind c k w = (Throw e, w1).
Proof. intros Hc. unfold bind. rewrite Hc. reflexivity. Qed.

Lemma uses_invalid_empty (hs : list nat) : uses_invalid ∅ hs = false.
Proof.
  unfold uses_invalid. induction hs as [|h hs IH]; [ reflexivity | ].
  cbn [existsb]. rewrite IH, bool_decide_eq_false_2; [ reflexivity | ].
  apply not_elem_of_empty.
Qed.

Lemma found_invalid_none (reports : GPUCall -> bool) (invalid : gset nat) call :
  (forall c, reports c = false) -> invalid = ∅ ->
  found_invalid reports invalid call = false.
Proof.
  intros Hr ->. unfold found_invalid. rewrite Hr. apply uses_invalid_empty.
Qed.

(** A creation call that the device neither refuses nor finds invalid. *)
Lemma create_run call o w :
  rejects (env w) call = false ->
  (forall c, device_reports w c = false) -> invalidObjects w = ∅ ->
  create call o w =
    (Ok (next_handle w),
     add_log (EvCreate call (next_handle w))
       (set_objects (<[next_handle w := o]> (objects w)) (S (next_handle w)) w)).
Proof.
  intros Hr Hrep Hinv. unfold create.
  rewrite Hr, (found_invalid_none _ _ call Hrep Hinv).
  apply f_equal, world_eq; reflexivity.
Qed.

(** A creation call that the device does not refuse returns. *)
Lemma create_ok call o w :
  rejects (env w) call = false ->
  create call o w =
    (Ok (next_handle w),
     set_created (EvCreate call (next_handle w)) (next_handle w) o
       (found_invalid (device_reports w) (invalidObjects w) call) w).
Proof. intros Hr. unfold create. rewrite Hr. reflexivity. Qed.

Lemma create_throw call o w :
  rejects (env w) call = true -> create call o w = (Throw (GPUError call), w).
Proof. intros Hr. unfold create. rewrite Hr. reflexivity. Qed.

Lemma buffer_of_length (a : Float32Array) : length (buffer_of a) = byteLength a.
Proof.
  unfold buffer_of, byteLength. induction a as [|x a IH]; [reflexivity|].
  cbn [flat_map length]. rewrite length_app, f32_bytes_length, IH. lia.
Qed.

Lemma zeros_length n : length (zeros n) = n.
Proof. apply repeat_length. Qed.

Lemma mappedRange_set_run b (a : Float32Array) d contents w :
  objects w !! b = Some (Buffer d (Some (zeros (byteLength a))) contents) ->
  mappedRange_set b a w =
    (Ok tt, set_objects (<[b := Buffer d (Some (buffer_of a)) contents]> (objects w))
              (next_handle w) w).
Proof.
  intros Hb. unfold mappedRange_set. rewrite Hb, zeros_length.
  unfold byteLength at 1 2.
  replace (4 * length a) with (length a * 4) by lia.
  rewrite Nat.Div0.mod_mul, Nat.div_mul by lia.
  rewrite Nat.ltb_irrefl. cbn [Nat.eqb negb].
  rewrite <- (zeros_length (byteLength a)) at 1.
  rewrite drop_all, app_nil_r. reflexivity.
Qed.

Lemma buffer_unmap_run b d range contents w :
  objects w !! b = Some (Buffer d (Some range) contents) ->
  buffer_unmap b w =
    (Ok tt,
     set_objects (<[b := Buffer d None range]> (objects w)) (next_handle w) w).
Proof. intros Hb. unfold buffer_unmap. rewrite Hb. reflexivity. Qed.

Lemma queue_of_app (l1 l2 : list Event) :
  queue_of (l1 ++ l2) = queue_of l1 ++ queue_of l2.
Proof. unfold queue_of. apply flat_map_app. Qed.

(** A creation call: either the device refuses it and [main] ends there,
    or the call returns and [main] goes on. *)
Ltac found_rejected E :=
  repeat first [ apply Exists_cons_hd; exact E | apply Exists_cons_tl ].

Ltac thrown E :=
  cbv beta iota; world_simpl;
  split; [ reflexivity | split; [ | found_rejected E ] ];
  rewrite ?queue_of_app; cbn [queue_of flat_map app]; rewrite ?app_nil_r;
  reflexivity.

Ltac create_step :=
  lazymatch goal with
  | |- context [bind (create ?call ?o) ?k ?w] =>
      let E := fresh "E" in
      destruct (rejects (env w) call) eqn:E; world_simpl_in E;
      [ rewrite (bind_throw (create call o) k w _ _ (create_throw call o w E));
        thrown E
      | let Hrep := fresh "Hrep" in
        let Hinv := fresh "Hinv" in
        assert (Hrep : forall c, device_reports w c = false)
          by (world_simpl; assumption);
        assert (Hinv : invalidObjects w = ∅) by (world_simpl; assumption);
        rewrite (bind_eq (create call o) k w _ _
                   (create_run call o w E Hrep Hinv));
        clear Hrep Hinv ]
  end.

Lemma get_run {A} (f : World -> A) w : get f w = (Ok (f w), w).
Proof. reflexivity. Qed.

Lemma alloc_run o w :
  alloc o w =
    (Ok (next_loc w), set_heap (<[next_loc w := o]> (heap w)) (S (next_loc w)) w).
Proof. reflexivity. Qed.

Lemma pipeline_getBindGroupLayout_run p i w :
  invalidObjects w = ∅ ->
  pipeline_getBindGroupLayout p i w =
    (Ok (next_handle w),
     add_log (EvGetBindGroupLayout p i (next_handle w))
       (set_objects (<[next_handle w := BindGroupLayout p i]> (objects w))
          (S (next_handle w)) w)).
Proof.
  intros Hinv. unfold pipeline_getBindGroupLayout.
  rewrite Hinv, uses_invalid_empty.
  apply f_equal, world_eq; reflexivity.
Qed.

Lemma texture_createView_run t w :
  invalidObjects w = ∅ ->
  texture_createView t w =
    (Ok (next_handle w),
     add_log (EvCreateView t (next_handle w))
       (set_objects (<[next_handle w := TextureView t]> (objects w))
          (S (next_handle w)) w)).
Proof.
  intros Hinv. unfold texture_createView.
  rewrite Hinv, uses_invalid_empty.
  apply f_equal, world_eq; reflexivity.
Qed.

Ltac run_step lem :=
  erewrite bind_eq by (apply lem; world_simpl; assumption);
  cbv beta; world_simpl.

(** On a device that finds every call valid, [main] either runs to its
    end, every creation call being accepted, or stops at the first call
    the device refuses, before it registers the
    frame callback. *)
Lemma main_cases a props w :
  (forall c, device_reports w c = false) -> invalidObjects w = ∅ ->
  match main a props w with
  | (Ok _, w') =>
      w' = main_world a props w /\
      Forall (fun call => rejects (env w) call = false) (resource_calls a props w)
  | (Throw e, w') =>
      animationFrameCallbacks w' = animationFrameCallbacks w /\
      queue_of (log w') = queue_of (log w) /\
      Exists (fun call => rejects (env w) call = true) (resource_calls a props w)
  end.
Proof.
  unfold main, device_createBuffer, device_createShaderModule,
    device_createRenderPipeline, device_createTexture, device_createBindGroup,
    mat4_perspective, mat4_create.
  intros Hrep Hinv.
  cbn [bd_mappedAtCreation bd_size].
  create_step.
  erewrite bind_eq
    by (apply mappedRange_set_run; world_simpl; apply lookup_insert_eq).
  world_simpl. rewrite insert_insert_eq.
  erewrite bind_eq
    by (eapply buffer_unmap_run; world_simpl; apply lookup_insert_eq).
  world_simpl. rewrite insert_insert_eq.
  create_step. world_simpl.
  create_step. world_simpl.
  create_step. world_simpl.
  run_step @get_run. run_step @get_run.
  create_step. world_simpl.
  create_step. world_simpl.
  run_step pipeline_getBindGroupLayout_run.
  create_step. world_simpl.
  run_step texture_createView_run.
  run_step alloc_run.
  run_step @get_run. run_step @get_run.
  run_step alloc_run.
  run_step alloc_run.
  unfold requestAnimationFrame. cbv beta iota. split.
  - unfold main_world, main_events, main_closure.
    apply world_eq; world_simpl; try reflexivity.
    rewrite <- ?app_assoc. reflexivity.
  - repeat constructor; assumption.
Qed.

Ltac unfold_monad :=
  unfold mat4_identity, mat4_translate, mat4_rotate, mat4_multiply,
    mat4_create, mat4_perspective, Date_now, record, modify, get, alloc,
    read_mat4, store_mat4, bind, ret, throw.

(** One call of [getTransformationMatrix]: a new view matrix is allocated,
    the shared buffer is overwritten and its location returned. *)
Lemma getTransformationMatrix_run c w P m0 :
  heap w !! projectionMatrix c = Some (ObjMat4 P) ->
  heap w !! modelViewProjectionMatrix c = Some (ObjMat4 m0) ->
  projectionMatrix c < next_loc w ->
  modelViewProjectionMatrix c < next_loc w ->
  getTransformationMatrix c w =
    (Ok (modelViewProjectionMatrix c),
     set_heap
       (<[modelViewProjectionMatrix c :=
            ObjMat4 (mat4_multiply_value P (view_at (clock w)))]>
          (<[next_loc w := ObjMat4 (view_at (clock w))]> (heap w)))
       (S (next_loc w)) (add_log (EvDateNow (clock w)) w)).
Proof.
  intros HP Hm L1 L2.
  unfold getTransformationMatrix. unfold_monad.
  cbn.
  repeat (first [ rewrite lookup_insert_eq
                | rewrite lookup_insert_ne by lia
                | rewrite HP | rewrite Hm ]; cbn).
  rewrite !insert_insert_eq.
  reflexivity.
Qed.

Lemma serialize_length m : length (serialize m) = 64.
Proof.
  unfold serialize, buffer_of, Mat4_elements. cbn [flat_map].
  rewrite ?length_app, ?f32_bytes_length. reflexivity.
Qed.

Lemma bind_run {A B} (c : M A) (k : A -> M B) w a w1 r :
  c w = (Ok a, w1) -> k a w1 = r -> bind c k w = r.
Proof. intros Hc Hk. unfold bind. rewrite Hc. exact Hk. Qed.

Lemma read_mat4_run l m w :
  heap w !! l = Some (ObjMat4 m) -> read_mat4 l w = (Ok m, w).
Proof. intros Hl. unfold read_mat4. rewrite Hl. reflexivity. Qed.

Lemma read_descriptor_run l d w :
  heap w !! l = Some (ObjRenderPassDescriptor d) ->
  read_descriptor l w = (Ok d, w).
Proof. intros Hl. unfold read_descriptor. rewrite Hl. reflexivity. Qed.

Lemma assign_color_view_run l v0 dv view w :
  heap w !! l = Some (ObjRenderPassDescriptor (descriptor_with v0 dv)) ->
  assign_color_view l view w =
    (Ok tt,
     set_heap
       (<[l := ObjRenderPassDescriptor (descriptor_with (Some view) dv)]>
          (heap w))
       (next_loc w) w).
Proof. intros Hl. unfold assign_color_view. rewrite Hl. reflexivity. Qed.

Lemma queue_writeBuffer_run buffer data size w d contents :
  objects w !! buffer = Some (Buffer d None contents) ->
  has_usage (bd_usage d) GPUBufferUsage.COPY_DST = true ->
  size = length data -> size = bd_size d -> (size mod 4 = 0)%nat ->
  invalidObjects w = ∅ ->
  queue_writeBuffer buffer 0 data 0 size w =
    (Ok tt, add_log (EvQueue (WriteBuffer buffer 0 data)) w).
Proof.
  intros Hb Hu Hs Hd Hm Hinv. unfold queue_writeBuffer.
  rewrite Hb, Hu, Hinv, uses_invalid_empty. subst size.
  replace (length data <? 0 + length data)%nat with false
    by (symmetry; apply Nat.ltb_ge; lia).
  rewrite Hm. cbn [Nat.eqb negb orb andb Nat.modulo Nat.add drop].
  rewrite <- Hd, Nat.leb_refl. cbn [andb Nat.divmod fst snd Nat.sub Nat.eqb].
  rewrite firstn_all. reflexivity.
Qed.

Lemma context_configured_app (l1 l2 : list Event) :
  context_configured (l1 ++ l2) =
  context_configured l1 || context_configured l2.
Proof. unfold context_configured. apply existsb_app. Qed.

Lemma context_getCurrentTexture_run w :
  context_configured (log w) = true ->
  currentTexture w = None ->
  context_getCurrentTexture w =
    (Ok (next_handle w),
     add_log (EvGetCurrentTexture (next_handle w))
       (set_currentTexture (Some (next_handle w))
          (set_objects (<[next_handle w := SurfaceTexture]> (objects w))
             (S (next_handle w)) w))).
Proof.
  intros Hc Ht. unfold context_getCurrentTexture, bind, get.
  rewrite Hc. cbn [negb]. cbv beta iota. rewrite Ht. reflexivity.
Qed.

(** One call of [frame], in a world that holds what [main] has built. *)
Lemma frame_run c w aspect m0 v0 depthView contents :
  heap w !! projectionMatrix c = Some (ObjMat4 (projection_of aspect)) ->
  heap w !! modelViewProjectionMatrix c = Some (ObjMat4 m0) ->
  heap w !! renderPassDescriptor c =
    Some (ObjRenderPassDescriptor (descriptor_with v0 depthView)) ->
  projectionMatrix c < next_loc w ->
  modelViewProjectionMatrix c < next_loc w ->
  renderPassDescriptor c < next_loc w ->
  renderPassDescriptor c <> modelViewProjectionMatrix c ->
  objects w !! uniformBuffer c =
    Some (Buffer uniform_buffer_descriptor None contents) ->
  currentTexture w = None ->
  invalidObjects w = ∅ ->
  context_configured (log w) = true ->
  frame c w = (Ok tt, frame_world c aspect depthView w).
Proof.
  intros HP Hm Hd L1 L2 L3 N1 Hu Ht Hinv Hcfg.
  unfold frame.
  eapply bind_run;
    [ exact (getTransformationMatrix_run c w _ _ HP Hm L1 L2) | cbv beta ].
  eapply bind_run;
    [ apply read_mat4_run; world_simpl; apply lookup_insert_eq | cbv beta ].
  eapply bind_run.
  { eapply queue_writeBuffer_run; world_simpl;
      [ exact Hu | reflexivity | | reflexivity | reflexivity | exact Hinv ].
    symmetry. apply serialize_length. }
  cbv beta.
  eapply bind_run.
  { apply context_getCurrentTexture_run; world_simpl; [ | exact Ht ].
    rewrite !context_configured_app, Hcfg. reflexivity. }
  cbv beta.
  eapply bind_run;
    [ apply texture_createView_run; world_simpl; exact Hinv | cbv beta ].
  eapply bind_run.
  { eapply assign_color_view_run. world_simpl.
    rewrite lookup_insert_ne by congruence.
    rewrite lookup_insert_ne by lia. exact Hd. }
  cbv beta.
  eapply bind_run; [ reflexivity | cbv beta ].
  eapply bind_run;
    [ apply read_descriptor_run; world_simpl; apply lookup_insert_eq
    | cbv beta ].
  do 6 (eapply bind_run; [ reflexivity | cbv beta ]).
  eapply bind_run; [ reflexivity | cbv beta ].
  eapply bind_run; [ reflexivity | cbv beta ].
  unfold requestAnimationFrame, frame_world.
  apply f_equal, world_eq; world_simpl; try reflexivity.
  unfold tick_events, tick_commands, computeMVP, serialize, cubeVertexCount.
  cbn [map app]. rewrite <- ?app_assoc. reflexivity.
Qed.

(** *** Start-up *)

(** The top level reaches [main] exactly when the page answers every
    question; otherwise it throws with nothing queued or registered. *)
Lemma negotiate_cases size (k : IMain -> M unit) w :
  match handshake (env w) with
  | Some props => negotiate size k w = k props (configured size w)
  | None =>
      exists err w',
        negotiate size k w = (Throw err, w') /\
        animationFrameCallbacks w' = animationFrameCallbacks w /\
        queue_of (log w') = queue_of (log w) /\ objects w' = objects w
  end.
Proof.
  unfold negotiate, handshake, configured, record, bind, get, modify, throw.
  destruct (navigator_gpu (env w)); cbn [negb]; [ | eauto 10 ].
  destruct (querySelector_canvas (env w)); [ | eauto 10 ].
  world_simpl.
  destruct (requestAdapter (env w)) as [[?|]|]; [ | eauto 10 .. ].
  destruct (requestDevice (env w)) as [[?|]|]; [ | eauto 10 .. ].
  destruct (getContext_webgpu (env w)); [ | eauto 10 ].
  world_simpl.
  destruct (fetch_basic_vert (env w)), (fetch_vertexPositionColor_frag (env w));
    [ reflexivity | | | ];
    (do 2 eexists; split; [ reflexivity | world_simpl ];
     rewrite queue_of_app, app_nil_r; auto).
Qed.

(** A lookup below a pile of inserts at other keys. *)
Ltac lookup_solve :=
  repeat (rewrite lookup_insert_ne by lia); rewrite ?lookup_insert_eq;
  try reflexivity.

(** [main], run to its end in an idle world, leaves the frame loop
    running. *)
Lemma main_running a props w :
  animationFrameCallbacks w = [] -> currentTexture w = None ->
  queue_of (log w) = [] ->
  (forall h, next_handle w <= h -> objects w !! h = None) ->
  context_configured (log w) = true -> invalidObjects w = ∅ ->
  Running a (main_closure w) (8 + next_handle w) (9 + next_handle w)
    (log w ++ main_events a props w) [] (main_world a props w).
Proof.
  intros Hc Ht Hq Hf Hcfg Hinv.
  constructor; unfold main_world, main_closure, last_matrix, aspect_of,
    depth_texture_descriptor; world_simpl;
    cbn [verticesBuffer pipeline uniformBuffer uniformBindGroup
         renderPassDescriptor projectionMatrix modelViewProjectionMatrix
         length last_view map List.last ticks_events].
  - rewrite Hc. reflexivity.
  - exact Ht.
  - lookup_solve.
  - lookup_solve.
  - lookup_solve.
  - lia.
  - lookup_solve.
  - lookup_solve.
  - eexists. lookup_solve.
  - do 3 eexists. lookup_solve.
  - exists (4 + next_handle w). split; [ lia | split; lookup_solve ].
  - lia.
  - lia.
  - intros h Hh. repeat (rewrite lookup_insert_ne by lia). apply Hf. lia.
  - rewrite app_nil_r. reflexivity.
  - rewrite queue_of_app, Hq. reflexivity.
  - rewrite context_configured_app, Hcfg. reflexivity.
  - exact Hinv.
  - intros k Hk. inversion Hk.
Qed.

(** *** One tick *)

Lemma ticks_events_app c aspect dv base k ts t :
  ticks_events c aspect dv base k (ts ++ [t]) =
  ticks_events c aspect dv base k ts ++
  tick_events c aspect dv t (texture_of_tick base (k + length ts))
    (view_of_tick base (k + length ts)).
Proof.
  revert k. induction ts as [|t0 ts IH]; intros k; cbn [ticks_events app length].
  - rewrite app_nil_r, Nat.add_0_r. reflexivity.
  - rewrite IH, <- app_assoc. do 4 f_equal; lia.
Qed.

Lemma last_matrix_snoc aspect times t :
  last_matrix aspect (times ++ [t]) = computeMVP t aspect.
Proof. unfold last_matrix. rewrite map_app. cbn [map]. apply last_last. Qed.

(** A refresh runs the one pending callback, which succeeds, and leaves
    the frame loop running with one more tick behind it. *)
Lemma tick_running a c dv base log0 times w t :
  Running a c dv base log0 times w ->
  frame c (at_time t w) =
    (Ok tt, frame_world c (aspect_of w) dv (at_time t w)) /\
  animationFrame t w =
    set_currentTexture None (frame_world c (aspect_of w) dv (at_time t w)) /\
  Running a c dv base log0 (times ++ [t]) (animationFrame t w).
Proof.
  intros [Hcb Htex Hproj Hmat Hdesc Hlocs Huni Hvert Hbg Hpipe Hdepth Hh
          Hnext Hfresh Hlog Hlog0 Hcfg Hinv Hviews].
  destruct Hlocs as (L1 & L2 & L3 & N1 & N2 & N3).
  destruct Hh as (H1 & H2 & H3 & H4 & H5 & H6).
  assert (Hf : frame c (at_time t w) =
                 (Ok tt, frame_world c (aspect_of w) dv (at_time t w))).
  { eapply frame_run; unfold at_time; world_simpl; eauto.
    rewrite Hlog, context_configured_app, Hcfg. reflexivity. }
  assert (Ha : animationFrame t w =
                 set_currentTexture None
                   (frame_world c (aspect_of w) dv (at_time t w))).
  { unfold animationFrame. rewrite Hcb. cbn [fold_left].
    unfold run_callback. fold (at_time t w). rewrite Hf. reflexivity. }
  split; [ exact Hf | split; [ exact Ha | ] ].
  rewrite Ha.
  constructor; unfold frame_world, at_time, aspect_of, depth_texture_descriptor;
    world_simpl; fold (aspect_of w).
  - reflexivity.
  - reflexivity.
  - lookup_solve. exact Hproj.
  - lookup_solve. rewrite last_matrix_snoc. reflexivity.
  - lookup_solve. rewrite length_app. cbn [length].
    rewrite Nat.add_1_r. cbn [last_view]. unfold view_of_tick.
    rewrite Hnext. reflexivity.
  - repeat split; try lia; assumption.
  - lookup_solve. exact Huni.
  - lookup_solve. exact Hvert.
  - destruct Hbg as [layout Hl]. exists layout. lookup_solve. exact Hl.
  - destruct Hpipe as (vm & fm & fmt & Hp). exists vm, fm, fmt.
    lookup_solve. exact Hp.
  - destruct Hdepth as (tex & Ht & Hv & Hx). exists tex.
    split; [ exact Ht | split; lookup_solve; assumption ].
  - repeat split; assumption.
  - rewrite length_app. cbn [length]. lia.
  - intros h Hh. repeat (rewrite lookup_insert_ne by lia). apply Hfresh. lia.
  - rewrite Hlog, ticks_events_app, <- app_assoc. do 2 f_equal.
    unfold texture_of_tick, view_of_tick. rewrite Hnext.
    f_equal; lia.
  - exact Hlog0.
  - exact Hcfg.
  - exact Hinv.
  - intros k Hk. rewrite length_app in Hk. cbn [length] in Hk.
    unfold view_of_tick, texture_of_tick in *.
    destruct (Nat.lt_ge_cases k (length times)) as [Hlt|Hge].
    + rewrite !lookup_insert_ne by lia. apply Hviews. exact Hlt.
    + assert (k = length times) as -> by lia.
      rewrite Hnext. apply lookup_insert_eq.
Qed.

Lemma run_snoc ts t (w : World) :
  run (ts ++ [t]) w = animationFrame t (run ts w).
Proof. unfold run. rewrite fold_left_app. reflexivity. Qed.

Lemma run_running a c dv base log0 times w ts :
  Running a c dv base log0 times w ->
  Running a c dv base log0 (times ++ ts) (run ts w).
Proof.
  intros R. induction ts as [|t ts IH] using rev_ind.
  - rewrite app_nil_r. exact R.
  - rewrite run_snoc, app_assoc. apply tick_running, IH.
Qed.

Lemma startup_cases e :
  let w1 := configured canvasSize (boot e) in
  match startup table (boot e) with
  | (Ok _, w') =>
      exists a props,
        mkMesh table = Some a /\ handshake e = Some props /\
        Forall (fun call => rejects e call = false) (resource_calls a props w1) /\
        w' = main_world a props w1
  | (Throw err, w') =>
      animationFrameCallbacks w' = [] /\ queue_of (log w') = [] /\
      (mkMesh table = None \/ handshake e = None \/
       exists a props,
         mkMesh table = Some a /\ handshake e = Some props /\
         Exists (fun call => rejects e call = true) (resource_calls a props w1))
  end.
Proof.
  intros w1. unfold startup, import_cube.
  destruct (mkMesh table) as [a|] eqn:Hmesh.
  2: { cbn. auto. }
  rewrite (bind_eq (ret a) _ (boot e) a (boot e) eq_refl).
  pose proof (negotiate_cases canvasSize (main a) (boot e)) as Hn.
  change (env (boot e)) with e in Hn.
  destruct (handshake e) as [props|] eqn:Hh.
  - rewrite Hn. fold w1.
    pose proof (main_cases a props w1 (fun _ => eq_refl) eq_refl) as Hm.
    destruct (main a props w1) as [[[]|err] w'].
    + destruct Hm as [-> Hacc]. exists a, props. auto.
    + destruct Hm as (Hc & Hq & Hrej). rewrite Hc, Hq.
      repeat split; [ right; right; exists a, props; auto ].
  - destruct Hn as (err & w' & -> & Hc & Hl & _). rewrite Hc, Hl. auto.
Qed.

Lemma startup_alt_cases e :
  match startup_alt table (boot e) with
  | (Ok _, w') =>
      exists a props,
        mkMesh table = Some a /\ handshake e = Some props /\
        w' = add_log EvConsoleLog (configured canvasSize_alt (boot e))
  | (Throw err, w') =>
      animationFrameCallbacks w' = [] /\ queue_of (log w') = [] /\
      objects w' = ∅ /\
      (mkMesh table = None \/ handshake e = None)
  end.
Proof.
  unfold startup_alt, import_cube.
  destruct (mkMesh table) as [a|] eqn:Hmesh.
  2: { cbn. auto. }
  rewrite (bind_eq (ret a) _ (boot e) a (boot e) eq_refl).
  pose proof (negotiate_cases canvasSize_alt main_alt (boot e)) as Hn.
  change (env (boot e)) with e in Hn.
  destruct (handshake e) as [props|] eqn:Hh.
  - rewrite Hn. cbn. exists a, props. auto.
  - destruct Hn as (err & w' & -> & Hc & Hl & Ho). rewrite Hc, Hl, Ho. auto.
Qed.

(** *** The device works the queue off in order *)

Lemma queue_of_tick c aspect dv t tex view :
  queue_of (tick_events c aspect dv t tex view) =
  [ WriteBuffer (uniformBuffer c) 0 (serialize (computeMVP t aspect));
    Submit [ tick_commands c dv view ] ].
Proof. reflexivity. Qed.

Lemma queue_of_ticks c aspect dv base k times :
  queue_of (ticks_events c aspect dv base k times) =
  flat_map (fun '(i, t) =>
              [ WriteBuffer (uniformBuffer c) 0 (serialize (computeMVP t aspect));
                Submit [ tick_commands c dv (view_of_tick base i) ] ])
           (combine (seq k (length times)) times).
Proof.
  revert k. induction times as [|t ts IH]; intros k; [ reflexivity | ].
  cbn [ticks_events length seq combine flat_map].
  rewrite queue_of_app, queue_of_tick, IH. reflexivity.
Qed.

Lemma tick_commands_usable (mem : gmap nat GPUObject) c dv view :
  is_Some (mem !! view) -> is_Some (mem !! dv) ->
  is_Some (mem !! pipeline c) -> is_Some (mem !! uniformBindGroup c) ->
  is_Some (mem !! verticesBuffer c) ->
  forallb (forallb (command_usable mem)) [ tick_commands c dv view ] = true.
Proof.
  intros Hview Hdv Hp Hg Hv. unfold tick_commands, command_usable.
  cbn [forallb command_refs color_view depth_view descriptor_with app].
  rewrite !bool_decide_eq_true_2 by assumption. reflexivity.
Qed.

Lemma exec_tick c aspect dv vertices base k t s d0 c0 layout dvb :
  memory s !! uniformBuffer c = Some (Buffer d0 None c0) ->
  length c0 = 64 ->
  memory s !! uniformBindGroup c =
    Some (BindGroup {| bg_layout := layout;
                       bg_entries := [ (0%nat, uniformBuffer c) ] |}) ->
  memory s !! verticesBuffer c = Some (Buffer dvb None vertices) ->
  uniformBuffer c <> verticesBuffer c ->
  is_Some (memory s !! pipeline c) -> is_Some (memory s !! dv) ->
  is_Some (memory s !! view_of_tick base k) ->
  fold_left exec_op
    (queue_of (tick_events c aspect dv t (texture_of_tick base k)
                 (view_of_tick base k))) s =
  {| memory := <[uniformBuffer c :=
                   Buffer d0 None (serialize (computeMVP t aspect))]> (memory s);
     draws := draws s ++ [ expected_draw c aspect vertices base k t ] |}.
Proof.
  intros Hu Hlen Hg Hv Hne Hp Hdv Hview.
  assert (Hug : uniformBuffer c <> uniformBindGroup c) by congruence.
  rewrite queue_of_tick. cbn [fold_left exec_op]. rewrite Hu.
  cbn [memory draws firstn Nat.add app].
  rewrite serialize_length, <- Hlen, drop_all, app_nil_r.
  rewrite tick_commands_usable
    by (apply lookup_insert_is_Some'; right; first [ assumption | eauto ]).
  f_equal.
  unfold exec_commandBuffer, tick_commands.
  cbn [fold_left exec_command snd color_view descriptor_with pass_target
       pass_pipeline pass_bindGroup0 pass_vertexBuffer0 no_pass].
  unfold expected_draw, mbind, option_bind, bound_buffer, buffer_contents.
  rewrite (lookup_insert_ne _ _ (uniformBindGroup c)) by exact Hug.
  rewrite Hg. cbn [bg_entries].
  rewrite lookup_insert_eq.
  rewrite (lookup_insert_ne _ _ (verticesBuffer c)) by exact Hne.
  rewrite Hv. reflexivity.
Qed.

Lemma last_cons_default {A} (l : list A) x d :
  List.last (x :: l) d = List.last l x.
Proof.
  revert x d. induction l as [|y l IH]; intros x d; [ reflexivity | ].
  change (List.last (x :: y :: l) d) with (List.last (y :: l) d).
  rewrite !IH. reflexivity.
Qed.

Lemma exec_ticks c aspect dv vertices base d0 layout dvb times :
  forall k s c0,
  memory s !! uniformBuffer c = Some (Buffer d0 None c0) ->
  length c0 = 64 ->
  memory s !! uniformBindGroup c =
    Some (BindGroup {| bg_layout := layout;
                       bg_entries := [ (0%nat, uniformBuffer c) ] |}) ->
  memory s !! verticesBuffer c = Some (Buffer dvb None vertices) ->
  uniformBuffer c <> verticesBuffer c ->
  is_Some (memory s !! pipeline c) -> is_Some (memory s !! dv) ->
  (forall i, k <= i < k + length times ->
             is_Some (memory s !! view_of_tick base i)) ->
  let s' := fold_left exec_op
              (queue_of (ticks_events c aspect dv base k times)) s in
  draws s' = draws s ++ expected_draws c aspect vertices base k times /\
  memory s' !! uniformBuffer c =
    Some (Buffer d0 None
            (List.last (map (fun t => serialize (computeMVP t aspect)) times) c0)) /\
  (forall h, h <> uniformBuffer c -> memory s' !! h = memory s !! h).
Proof.
  induction times as [|t ts IH]; intros k s c0 Hu Hlen Hg Hv Hne Hp Hdv Hviews.
  - cbn. rewrite app_nil_r. auto.
  - cbn [ticks_events]. rewrite queue_of_app, fold_left_app.
    assert (Hug : uniformBuffer c <> uniformBindGroup c) by congruence.
    rewrite (exec_tick c aspect dv vertices base k t s d0 c0 layout dvb
               Hu Hlen Hg Hv Hne Hp Hdv)
      by (apply Hviews; cbn [length]; lia).
    edestruct (IH (S k)
      {| memory := <[uniformBuffer c :=
                       Buffer d0 None (serialize (computeMVP t aspect))]> (memory s);
         draws := draws s ++ [ expected_draw c aspect vertices base k t ] |}
      (serialize (computeMVP t aspect))) as (Hd & Hm & Hoth).
    + cbn [memory]. apply lookup_insert_eq.
    + apply serialize_length.
    + cbn [memory]. rewrite lookup_insert_ne by exact Hug. exact Hg.
    + cbn [memory]. rewrite lookup_insert_ne by exact Hne. exact Hv.
    + exact Hne.
    + cbn [memory]. apply lookup_insert_is_Some'. right. exact Hp.
    + cbn [memory]. apply lookup_insert_is_Some'. right. exact Hdv.
    + intros i Hi. cbn [memory]. apply lookup_insert_is_Some'. right.
      apply Hviews. cbn [length]. lia.
    + cbv zeta. split; [ | split ].
      * rewrite Hd. cbn [draws expected_draws]. rewrite <- app_assoc. reflexivity.
      * rewrite Hm. cbn [map]. rewrite last_cons_default. reflexivity.
      * intros h Hh. rewrite Hoth by exact Hh. cbn [memory].
        apply lookup_insert_ne. congruence.
Qed.

(** *** From start-up to any number of ticks *)

Lemma startup_running e w0 :
  startup table (boot e) = (Ok tt, w0) ->
  exists a props,
    mkMesh table = Some a /\ handshake e = Some props /\
    Forall (fun call => rejects e call = false)
      (resource_calls a props (configured canvasSize (boot e))) /\
    w0 = main_world a props (configured canvasSize (boot e)) /\
    Running a startup_closure 8 9
      (log (configured canvasSize (boot e)) ++
       main_events a props (configured canvasSize (boot e))) [] w0.
Proof.
  intros Hs. pose proof (startup_cases e) as Hc. cbv zeta in Hc.
  rewrite Hs in Hc. destruct Hc as (a & props & Hm & Hh & Hacc & ->).
  exists a, props.
  split; [ exact Hm | split; [ exact Hh | split; [ exact Hacc | ] ] ].
  split; [ reflexivity | ].
  apply (main_running a props (configured canvasSize (boot e)));
    reflexivity.
Qed.

Lemma tick_canvas a c dv base log0 times w t :
  Running a c dv base log0 times w ->
  canvas_width (animationFrame t w) = canvas_width w /\
  canvas_height (animationFrame t w) = canvas_height w.
Proof.
  intros R. destruct (tick_running a c dv base log0 times w t R) as (_ & -> & _).
  split; reflexivity.
Qed.

Lemma run_canvas a c dv base log0 times w ts :
  Running a c dv base log0 times w ->
  canvas_width (run ts w) = canvas_width w /\
  canvas_height (run ts w) = canvas_height w.
Proof.
  intros R. induction ts as [|t ts IH] using rev_ind; [ split; reflexivity | ].
  rewrite run_snoc.
  destruct (tick_canvas a c dv base log0 (times ++ ts) (run ts w) t
              (run_running a c dv base log0 times w ts R)) as [-> ->].
  exact IH.
Qed.

Lemma run_aspect a c dv base log0 times w ts :
  Running a c dv base log0 times w -> aspect_of (run ts w) = aspect_of w.
Proof.
  intros R. unfold aspect_of.
  destruct (run_canvas a c dv base log0 times w ts R) as [-> ->]. reflexivity.
Qed.

(** The state after start-up and the ticks at [ts]. *)
Lemma started_running e w0 ts :
  startup table (boot e) = (Ok tt, w0) ->
  exists a log0,
    mkMesh table = Some a /\ queue_of log0 = [] /\ log w0 = log0 /\
    aspect_of (run ts w0) = aspect_of w0 /\
    Running a startup_closure 8 9 log0 ts (run ts w0).
Proof.
  intros Hs. destruct (startup_running e w0 Hs) as (a & props & Hm & _ & _ & Hw & R).
  exists a. eexists. split; [ exact Hm | ].
  split; [ exact (run_log0 _ _ _ _ _ _ _ R) | ].
  split; [ pose proof (run_log _ _ _ _ _ _ _ R) as Hl; cbn [ticks_events] in Hl;
           rewrite app_nil_r in Hl; exact Hl | ].
  split; [ exact (run_aspect _ _ _ _ _ _ _ ts R) | ].
  exact (run_running _ _ _ _ _ [] w0 ts R).
Qed.

Lemma started_canvas e w0 ts :
  startup table (boot e) = (Ok tt, w0) ->
  canvas_width (run ts w0) = canvas_width w0 /\
  canvas_height (run ts w0) = canvas_height w0.
Proof.
  intros Hs. destruct (startup_running e w0 Hs) as (a & props & _ & _ & _ & _ & R).
  exact (run_canvas _ _ _ _ _ _ _ ts R).
Qed.

Lemma returned_matrix_running a c dv base log0 times w t :
  Running a c dv base log0 times w ->
  (exists w', getTransformationMatrix c (at_time t w) =
                (Ok (modelViewProjectionMatrix c), w')) /\
  returned_matrix c (at_time t w) = Some (computeMVP t (aspect_of w)).
Proof.
  intros [Hcb Htex Hproj Hmat Hdesc Hlocs Huni Hvert Hbg Hpipe Hdepth Hh
          Hnext Hfresh Hlog Hlog0 Hcfg Hinv Hviews].
  destruct Hlocs as (L1 & L2 & L3 & N1 & N2 & N3).
  assert (Hg := getTransformationMatrix_run c (at_time t w) _ _ Hproj Hmat L1 L2).
  split; [ eexists; exact Hg | ].
  unfold returned_matrix. rewrite Hg. world_simpl.
  rewrite lookup_insert_eq. reflexivity.
Qed.

Lemma valid_objects_all (w : World) :
  invalidObjects w = ∅ -> valid_objects w = objects w.
Proof.
  intros Hinv. unfold valid_objects. apply map_filter_id.
  intros h o _. rewrite Hinv. apply not_elem_of_empty.
Qed.

Lemma device_running a c dv base log0 times w :
  Running a c dv base log0 times w ->
  draws (device_after w) =
    expected_draws c (aspect_of w) (buffer_of a) base 0 times /\
  memory (device_after w) !! uniformBuffer c =
    Some (Buffer uniform_buffer_descriptor None
            (List.last (map (fun t => serialize (computeMVP t (aspect_of w))) times)
               (zeros 64))) /\
  (forall h, h <> uniformBuffer c ->
             memory (device_after w) !! h = objects w !! h).
Proof.
  intros [Hcb Htex Hproj Hmat Hdesc Hlocs Huni Hvert Hbg Hpipe Hdepth Hh
          Hnext Hfresh Hlog Hlog0 Hcfg Hinv Hviews].
  destruct Hbg as [layout Hl].
  destruct Hh as (H1 & H2 & H3 & H4 & H5 & H6).
  destruct Hpipe as (vm & fm & fmt & Hp).
  destruct Hdepth as (tex & _ & Hdv & _).
  unfold device_after.
  rewrite (valid_objects_all w Hinv), Hlog, queue_of_app, Hlog0. cbn [app].
  apply (exec_ticks c (aspect_of w) dv (buffer_of a) base
           uniform_buffer_descriptor layout (vertex_buffer_descriptor a) times
           0 {| memory := objects w; draws := [] |} (zeros 64)
           Huni eq_refl Hl Hvert H6); cbn [memory].
  - rewrite Hp. eauto.
  - rewrite Hdv. eauto.
  - intros i Hi. rewrite Hviews by lia. eauto.
Qed.

(** *** The transformation matrix *)

Lemma computeMVP_unfold t a :
  computeMVP t a =
  mat4_multiply_value (mat4_perspective_value (2 * Math_PI / 5) a 1 100)
    (mat4_rotate_value
       (mat4_translate_value mat4_identity_value (vec3_fromValues 0 0 (-10)))
       (vec3_fromValues (Math_sin (t / 5000)) (Math_cos (t / 5000)) 0) 1).
Proof. reflexivity. Qed.

(** C1, amended: at every call, [Date.now()] answering [t] milliseconds, the
    matrix behind the returned reference is projection x view, sixteen
    float32 values; the projection is the perspective matrix of field of
    view 2 pi / 5, aspect canvas width / canvas height, near 1 and far 100,
    stored once by [main]; the view is the identity translated by
    (0, 0, -10), then rotated by 1 radian about (sin t', cos t', 0) with
    t' = t / 5000, [t] in milliseconds. *)
Theorem getTransformationMatrix_projection_times_view e w0 ts t :
  startup table (boot e) = (Ok tt, w0) ->
  let w := at_time t (run ts w0) in
  let c := startup_closure in
  let a := (IZR (canvas_width w0) / IZR (canvas_height w0))%R in
  let now := (t / 5000)%R in
  let projection := mat4_perspective_value (2 * Math_PI / 5) a 1 100 in
  let view :=
    mat4_rotate_value
      (mat4_translate_value mat4_identity_value (vec3_fromValues 0 0 (-10)))
      (vec3_fromValues (Math_sin now) (Math_cos now) 0) 1 in
  (exists w', getTransformationMatrix c w =
                (Ok (modelViewProjectionMatrix c), w')) /\
  returned_matrix c w = Some (mat4_multiply_value projection view) /\
  length (Mat4_elements (mat4_multiply_value projection view)) = 16 /\
  heap w !! projectionMatrix c = Some (ObjMat4 projection).
Proof.
  intros Hs. cbv zeta.
  destruct (started_running e w0 ts Hs) as (a & log0 & _ & _ & _ & Ha & R).
  destruct (returned_matrix_running _ _ _ _ _ _ _ t R) as [Hcall Hret].
  rewrite Ha in Hret.
  split; [ exact Hcall | split; [ exact Hret | split; [ reflexivity | ] ] ].
  pose proof (run_projection _ _ _ _ _ _ _ R) as Hp. rewrite Ha in Hp.
  exact Hp.
Qed.

(** C6: the matrix returned is a function of the time and of the aspect
    ratio alone: two calls at the same time in worlds of the same aspect
    ratio, whatever else differs (the page, the ticks that have run, the
    contents left in the shared buffer), give the same sixteen float32
    values and the same 64 bytes. *)
Theorem getTransformationMatrix_deterministic e1 e2 w1 w2 ts1 ts2 t :
  startup table (boot e1) = (Ok tt, w1) ->
  startup table (boot e2) = (Ok tt, w2) ->
  aspect_of w1 = aspect_of w2 ->
  let c := startup_closure in
  returned_matrix c (at_time t (run ts1 w1)) =
    Some (computeMVP t (aspect_of w1)) /\
  returned_matrix c (at_time t (run ts1 w1)) =
    returned_matrix c (at_time t (run ts2 w2)) /\
  option_map serialize (returned_matrix c (at_time t (run ts1 w1))) =
    option_map serialize (returned_matrix c (at_time t (run ts2 w2))).
Proof.
  intros Hs1 Hs2 Hasp. cbv zeta.
  destruct (started_running e1 w1 ts1 Hs1) as (a1 & l1 & _ & _ & _ & Ha1 & R1).
  destruct (started_running e2 w2 ts2 Hs2) as (a2 & l2 & _ & _ & _ & Ha2 & R2).
  destruct (returned_matrix_running _ _ _ _ _ _ _ t R1) as [_ Hr1].
  destruct (returned_matrix_running _ _ _ _ _ _ _ t R2) as [_ Hr2].
  rewrite Ha1 in Hr1. rewrite Ha2, <- Hasp in Hr2.
  rewrite Hr1, Hr2. auto.
Qed.

(** At a multiple of the divisor the angle is the multiplier. *)
Lemma rotation_axis_multiple (k : Z) :
  rotation_axis (IZR k * 5000) = (Math_sin (IZR k), Math_cos (IZR k), 0%R).
Proof.
  unfold rotation_axis.
  replace (IZR k * 5000 / 5000)%R with (IZR k) by (field; lra).
  reflexivity.
Qed.

Lemma rotation_axis_0 : rotation_axis 0 = (0, 1, 0)%R.
Proof.
  unfold rotation_axis, Math_sin, Math_cos.
  replace (0 / 5000)%R with 0%R by lra.
  rewrite sin_0, cos_0. reflexivity.
Qed.

(** C7, amended: the time-to-angle mapping is time / divisor.  At a time
    [p] that is [k] times the divisor 5000, [k] a whole number within the
    range of [Date.now()], the three numbers of the axis are sin k, cos k
    and 0; at time 0 they are sin 0 = 0, cos 0 = 1 and 0.  So the axis at
    [p] is the axis at 0 only if sin k = 0 and cos k = 1, which is so for
    k = 0 and not for k = 1, 2 or 3.  The matrix returned at time [p] is
    the projection times the view rotated about the axis of sin k and
    cos k, for every aspect ratio. *)
Theorem rotation_axis_at_multiples_of_divisor e w0 ts (k : Z) :
  startup table (boot e) = (Ok tt, w0) ->
  (0 <= k <= 1728000000000)%Z ->
  let p := (IZR k * 5000)%R in
  let view :=
    mat4_rotate_value
      (mat4_translate_value mat4_identity_value (vec3_fromValues 0 0 (-10)))
      (vec3_fromValues (Math_sin (IZR k)) (Math_cos (IZR k)) 0) 1 in
  rotation_axis p = (Math_sin (IZR k), Math_cos (IZR k), 0%R) /\
  rotation_axis 0 = (0, 1, 0)%R /\
  (rotation_axis p = rotation_axis 0 <->
   Math_sin (IZR k) = 0%R /\ Math_cos (IZR k) = 1%R) /\
  (k = 0%Z -> rotation_axis p = rotation_axis 0) /\
  ((1 <= k <= 3)%Z -> rotation_axis p <> rotation_axis 0) /\
  (forall a, computeMVP p a = mat4_multiply_value (projection_of a) view) /\
  returned_matrix startup_closure (at_time p (run ts w0)) =
    Some (mat4_multiply_value (projection_of (aspect_of w0)) view).
Proof.
  intros Hs Hk. cbv zeta.
  pose proof (rotation_axis_multiple k) as Hp.
  pose proof rotation_axis_0 as H0.
  assert (Hiff : rotation_axis (IZR k * 5000) = rotation_axis 0 <->
                 Math_sin (IZR k) = 0%R /\ Math_cos (IZR k) = 1%R).
  { rewrite Hp, H0. split.
    - intros [= Hsin Hcos]. split; assumption.
    - intros [-> ->]. reflexivity. }
  assert (Hm : forall a, computeMVP (IZR k * 5000) a =
               mat4_multiply_value (projection_of a)
                 (mat4_rotate_value
                    (mat4_translate_value mat4_identity_value
                       (vec3_fromValues 0 0 (-10)))
                    (vec3_fromValues (Math_sin (IZR k)) (Math_cos (IZR k)) 0) 1)).
  { intros a. unfold computeMVP, view_at. rewrite Hp. reflexivity. }
  split; [ exact Hp | split; [ exact H0 | split; [ exact Hiff | ] ] ].
  split.
  { intros ->. apply Hiff. unfold Math_sin, Math_cos.
    rewrite sin_0, cos_0. split; reflexivity. }
  split.
  { intros Hk3 Heq. apply Hiff in Heq. destruct Heq as [Hsin _].
    unfold Math_sin in Hsin.
    assert (H1 : (1 <= IZR k)%R) by (apply IZR_le; lia).
    assert (H3 : (IZR k <= 3)%R) by (apply IZR_le; lia).
    pose proof PI2_3_2 as Hpi.
    assert (Hpos : (0 < sin (IZR k))%R) by (apply sin_gt_0; lra).
    lra. }
  split; [ exact Hm | ].
  destruct (started_running e w0 ts Hs) as (a1 & l1 & _ & _ & _ & Ha1 & R1).
  destruct (returned_matrix_running _ _ _ _ _ _ _ (IZR k * 5000)%R R1) as [_ ->].
  rewrite Ha1, Hm. reflexivity.
Qed.

(** C10: every call returns the one location of the buffer allocated by
    [main]; a later tick overwrites what an earlier call left there, so
    the reference returned at time [t1] reads the matrix of [t2] after the
    tick at [t2]; within its tick, the upload takes the bytes of its own
    matrix. *)
Theorem getTransformationMatrix_returns_shared_buffer e w0 ts t1 ts' t2 :
  startup table (boot e) = (Ok tt, w0) ->
  let c := startup_closure in
  let a := aspect_of w0 in
  let before := at_time t1 (run ts w0) in
  let later := at_time t2 (run (ts ++ [t1] ++ ts') w0) in
  exists l1 wa l2 wb,
    getTransformationMatrix c before = (Ok l1, wa) /\
    getTransformationMatrix c later = (Ok l2, wb) /\
    l1 = modelViewProjectionMatrix c /\ l2 = l1 /\
    heap wa !! l1 = Some (ObjMat4 (computeMVP t1 a)) /\
    heap wb !! l1 = Some (ObjMat4 (computeMVP t2 a)) /\
    heap (run (ts ++ [t1]) w0) !! l1 = Some (ObjMat4 (computeMVP t1 a)) /\
    heap (run (ts ++ [t1] ++ ts' ++ [t2]) w0) !! l1 =
      Some (ObjMat4 (computeMVP t2 a)) /\
    In (EvQueue (WriteBuffer (uniformBuffer c) 0 (serialize (computeMVP t1 a))))
       (log (run (ts ++ [t1]) w0)).
Proof.
  intros Hs. cbv zeta.
  destruct (started_running e w0 ts Hs) as (a1 & l1 & _ & _ & _ & Ha1 & R1).
  destruct (started_running e w0 (ts ++ [t1] ++ ts') Hs)
    as (a2 & l2 & _ & _ & _ & Ha2 & R2).
  destruct (started_running e w0 (ts ++ [t1]) Hs)
    as (a3 & l3 & _ & _ & _ & Ha3 & R3).
  destruct (started_running e w0 (ts ++ [t1] ++ ts' ++ [t2]) Hs)
    as (a4 & l4 & _ & _ & _ & Ha4 & R4).
  pose proof (run_locs _ _ _ _ _ _ _ R1) as (L1 & L2 & _).
  pose proof (run_locs _ _ _ _ _ _ _ R2) as (L3 & L4 & _).
  pose proof (getTransformationMatrix_run startup_closure
                (at_time t1 (run ts w0)) _ _
                (run_projection _ _ _ _ _ _ _ R1)
                (run_matrix _ _ _ _ _ _ _ R1) L1 L2) as G1.
  pose proof (getTransformationMatrix_run startup_closure
                (at_time t2 (run (ts ++ [t1] ++ ts') w0)) _ _
                (run_projection _ _ _ _ _ _ _ R2)
                (run_matrix _ _ _ _ _ _ _ R2) L3 L4) as G2.
  do 4 eexists.
  split; [ exact G1 | split; [ exact G2 | ] ].
  split; [ reflexivity | split; [ reflexivity | ] ].
  world_simpl. rewrite !lookup_insert_eq.
  fold (aspect_of (run ts w0)). fold (aspect_of (run (ts ++ [t1] ++ ts') w0)).
  rewrite Ha1, Ha2.
  split; [ reflexivity | split; [ reflexivity | ] ].
  pose proof (run_matrix _ _ _ _ _ _ _ R3) as M3.
  pose proof (run_matrix _ _ _ _ _ _ _ R4) as M4.
  rewrite last_matrix_snoc, Ha3 in M3.
  rewrite !app_assoc, last_matrix_snoc, <- !app_assoc, Ha4 in M4.
  split; [ exact M3 | split; [ exact M4 | ] ].
  rewrite (run_log _ _ _ _ _ _ _ R3), ticks_events_app, Ha3.
  apply in_or_app. right. apply in_or_app. right.
  unfold tick_events. cbn [app]. right. left. reflexivity.
Qed.

(** *** The frame loop *)

Lemma device_after_texture t (w : World) :
  device_after (set_currentTexture t w) = device_after w.
Proof. reflexivity. Qed.

Lemma map_uniform_expected c a vertices base k ts :
  map drawn_uniform (expected_draws c a vertices base k ts) =
  map (fun t => Some (serialize (computeMVP t a))) ts.
Proof.
  revert k. induction ts as [|t ts IH]; intros k; [ reflexivity | ].
  cbn [expected_draws map]. rewrite IH. reflexivity.
Qed.

(** C2: a tick runs without error and makes these calls, in this order:
    [Date.now()]; the write of the 64 bytes of the matrix of that time at
    offset 0 of the uniform buffer, whose size is 64; the current texture
    and a view of it, both new; the encoder; the render pass (clear colour
    (0.5, 0.5, 0.5, 1), clear depth 1, the pipeline, the bind group at
    index 0, the vertex buffer at slot 0, one draw of 36 vertices, end);
    [finish]; [submit]; [requestAnimationFrame].  Once the device has
    worked the queue off, the uniform buffer holds the 64 bytes of the
    matrix of that time. *)
Theorem frame_tick e w0 ts t :
  startup table (boot e) = (Ok tt, w0) ->
  let w := at_time t (run ts w0) in
  let c := startup_closure in
  let m := computeMVP t (aspect_of w0) in
  let texture := texture_of_tick 9 (length ts) in
  let view := view_of_tick 9 (length ts) in
  let pass :=
    [ BeginRenderPass
        {| color_view := Some view;
           color_clearValue := (0.5, 0.5, 0.5, 1)%R;
           color_loadOp := op_clear;
           color_storeOp := op_store;
           depth_view := 8;
           depthClearValue := 1%R;
           depthLoadOp := op_clear;
           depthStoreOp := op_store |};
      SetPipeline (pipeline c);
      SetBindGroup 0 (uniformBindGroup c);
      SetVertexBuffer 0 (verticesBuffer c);
      Draw cubeVertexCount 1 0 0;
      EndPass ] in
  exists w',
    frame c w = (Ok tt, w') /\
    log w' =
      log w ++
      [ EvDateNow t;
        EvQueue (WriteBuffer (uniformBuffer c) 0 (serialize m));
        EvGetCurrentTexture texture;
        EvCreateView texture view;
        EvCreateCommandEncoder ] ++
      map EvEncode pass ++
      [ EvFinish; EvQueue (Submit [ pass ]); EvRequestAnimationFrame c ] /\
    length (serialize m) = 64 /\
    cubeVertexCount = 36 /\
    objects w !! uniformBuffer c =
      Some (Buffer {| bd_size := 64;
                      bd_usage := Z.lor GPUBufferUsage.UNIFORM
                                    GPUBufferUsage.COPY_DST;
                      bd_mappedAtCreation := false |} None (zeros 64)) /\
    objects w !! texture = None /\ objects w !! view = None /\
    objects w' !! texture = Some SurfaceTexture /\
    objects w' !! view = Some (TextureView texture) /\
    buffer_contents (memory (device_after w')) (uniformBuffer c) =
      Some (serialize m).
Proof.
  intros Hs. cbv zeta.
  destruct (started_running e w0 ts Hs) as (a & log0 & _ & _ & _ & Ha & R).
  destruct (tick_running _ _ _ _ _ _ _ t R) as (Hf & Hanim & R').
  rewrite Ha in Hf, Hanim.
  pose proof (run_next _ _ _ _ _ _ _ R) as Hn.
  pose proof (run_fresh _ _ _ _ _ _ _ R) as Hfresh.
  eexists. split; [ exact Hf | ].
  unfold frame_world at 1 2 3. world_simpl. rewrite Hn.
  split; [ reflexivity | ].
  split; [ apply serialize_length | ].
  split; [ reflexivity | ].
  split; [ exact (run_uniform _ _ _ _ _ _ _ R) | ].
  unfold texture_of_tick, view_of_tick.
  split; [ apply Hfresh; lia | ].
  split; [ apply Hfresh; lia | ].
  split; [ rewrite lookup_insert_ne by lia; apply lookup_insert_eq | ].
  split; [ apply lookup_insert_eq | ].
  destruct (device_running _ _ _ _ _ _ _ R') as (_ & Hmem & _).
  rewrite Hanim, device_after_texture in Hmem.
  unfold buffer_contents. rewrite Hmem.
  rewrite map_app. cbn [map]. rewrite last_last.
  unfold aspect_of, frame_world, at_time. world_simpl.
  fold (aspect_of (run ts w0)). rewrite Ha. reflexivity.
Qed.

(** C3: the queue holds, for the ticks in their order, the write of the
    tick's matrix and then the submission of the tick's draw; the device
    takes the queue in order, so the draw of each tick reads the bytes of
    that tick's matrix.  The log of the run is the log of the first tick,
    then that of the second, and so on; the log of a tick ends with
    [submit] followed by the only [requestAnimationFrame] of the tick, and
    one callback is pending between two ticks. *)
Theorem frames_render_their_own_matrix e w0 ts :
  startup table (boot e) = (Ok tt, w0) ->
  let w := run ts w0 in
  let c := startup_closure in
  let a := aspect_of w0 in
  queue_of (log w) =
    flat_map (fun '(i, t) =>
                [ WriteBuffer (uniformBuffer c) 0 (serialize (computeMVP t a));
                  Submit [ tick_commands c 8 (view_of_tick 9 i) ] ])
             (combine (seq 0 (length ts)) ts) /\
  map drawn_uniform (draws (device_after w)) =
    map (fun t => Some (serialize (computeMVP t a))) ts /\
  log w = log w0 ++ ticks_events c a 8 9 0 ts /\
  animationFrameCallbacks w = [ c ] /\
  (forall t texture view,
     exists before cmds,
       tick_events c a 8 t texture view =
         before ++ [ EvQueue (Submit cmds); EvRequestAnimationFrame c ] /\
       forall ev cb, In ev before -> ev <> EvRequestAnimationFrame cb).
Proof.
  intros Hs. cbv zeta.
  destruct (started_running e w0 ts Hs) as (a & log0 & _ & Hq0 & Hl0 & Ha & R).
  pose proof (run_log _ _ _ _ _ _ _ R) as Hlog. rewrite Ha in Hlog.
  destruct (device_running _ _ _ _ _ _ _ R) as (Hd & _ & _). rewrite Ha in Hd.
  split.
  { rewrite Hlog, queue_of_app, Hq0. apply queue_of_ticks. }
  split.
  { rewrite Hd. apply map_uniform_expected. }
  split; [ rewrite Hl0; exact Hlog | ].
  split; [ exact (run_callbacks _ _ _ _ _ _ _ R) | ].
  intros t texture view.
  eexists (firstn 12 (tick_events startup_closure (aspect_of w0) 8 t texture view)).
  eexists. split; [ reflexivity | ].
  intros ev cb Hin. cbn in Hin.
  repeat (destruct Hin as [<- | Hin]; [ discriminate | ]). destruct Hin.
Qed.

(** *** The resources *)


(** *** Start-up failures *)

Lemma handshake_Some e props :
  handshake e = Some props ->
  navigator_gpu e = true /\
  (exists u, requestAdapter e = Fulfilled (Some u)) /\
  (exists u, requestDevice e = Fulfilled (Some u)) /\
  (exists u, getContext_webgpu e = Some u).
Proof.
  unfold handshake.
  destruct (navigator_gpu e); cbn [negb]; [ | discriminate ].
  destruct (querySelector_canvas e); [ | discriminate ].
  destruct (requestAdapter e) as [[?|]|]; try discriminate.
  destruct (requestDevice e) as [[?|]|]; try discriminate.
  destruct (getContext_webgpu e); try discriminate.
  eauto 10.
Qed.

Lemma idle_run (w : World) ts :
  animationFrameCallbacks w = [] ->
  animationFrameCallbacks (run ts w) = [] /\
  log (run ts w) = log w /\ objects (run ts w) = objects w.
Proof.
  intros Hc. induction ts as [|t ts IH] using rev_ind; [ auto | ].
  destruct IH as (Hc' & Hl & Ho).
  rewrite run_snoc. unfold animationFrame. rewrite Hc'. cbn [fold_left].
  world_simpl. auto.
Qed.

Lemma idle_never_draws (w : World) ts :
  animationFrameCallbacks w = [] -> queue_of (log w) = [] ->
  animationFrameCallbacks (run ts w) = [] /\
  queue_of (log (run ts w)) = [] /\
  draws (device_after (run ts w)) = [].
Proof.
  intros Hc Hq. destruct (idle_run w ts Hc) as (Hc' & Hl & Ho).
  unfold device_after. rewrite Hl, Hq. auto.
Qed.

(** *** The mesh *)

Lemma vertex_floats_length (v : Vertex) : length (vertex_floats v) = 6.
Proof. destruct v as [[[[x y] z] w] [s t]]. reflexivity. Qed.

Lemma mesh_floats_length (vs : list Vertex) :
  length (flat_map vertex_floats vs) = 6 * length vs.
Proof.
  induction vs as [|v vs IH]; [ reflexivity | ].
  cbn [flat_map length]. rewrite length_app, vertex_floats_length, IH. lia.
Qed.

(** C8: a mesh that is built has a byte sequence of 36 x stride bytes; the
    construction fails for a table of any other length; in the vertex
    buffer layout of the pipeline the position (float32x4) and the uv
    (float32x2) attributes do not overlap and each ends within the
    stride. *)
Theorem mesh_bytes_and_layout (vertices : list Vertex) a :
  mkMesh vertices = Some a ->
  byteLength a = cubeVertexCount * cubeVertexSize /\
  length (buffer_of a) = 36 * cubeVertexSize /\
  length vertices = 36 /\
  (forall other : list Vertex, length other <> 36 -> mkMesh other = None) /\
  (exists pos uv,
     attributes vertexBufferLayout = [ pos; uv ] /\
     arrayStride vertexBufferLayout = cubeVertexSize /\
     offset pos = cubePositionOffset /\ format pos = float32x4 /\
     offset uv = cubeUVOffset /\ format uv = float32x2 /\
     attributes_disjoint pos uv = true /\
     attribute_fits vertexBufferLayout pos = true /\
     attribute_fits vertexBufferLayout uv = true).
Proof.
  unfold mkMesh. intros Hm.
  destruct (Nat.eqb_spec (byteLength (flat_map vertex_floats vertices))
              (cubeVertexCount * cubeVertexSize)) as [Hlen|]; [ | discriminate ].
  injection Hm as <-.
  split; [ exact Hlen | ].
  split; [ rewrite buffer_of_length; exact Hlen | ].
  split.
  { unfold byteLength, cubeVertexCount, cubeVertexSize in Hlen.
    rewrite mesh_floats_length in Hlen. lia. }
  split.
  { intros other Hother.
    destruct (Nat.eqb_spec (byteLength (flat_map vertex_floats other))
                (cubeVertexCount * cubeVertexSize)) as [Hl|]; [ | reflexivity ].
    unfold byteLength, cubeVertexCount, cubeVertexSize in Hl.
    rewrite mesh_floats_length in Hl. lia. }
  do 2 eexists. repeat split.
Qed.

(** *** The second program *)

(** C9, amended: the second program goes through the same start-up as the
    first and then only logs to the console: it creates no object of the
    device, queues nothing, registers no callback, and nothing is ever
    drawn; where the first program starts its frame loop, the second
    returns with no frame loop. *)
Theorem second_program_never_renders e :
  let w := snd (startup_alt table (boot e)) in
  objects w = ∅ /\
  animationFrameCallbacks w = [] /\
  queue_of (log w) = [] /\
  (forall ts,
     animationFrameCallbacks (run ts w) = [] /\
     queue_of (log (run ts w)) = [] /\
     draws (device_after (run ts w)) = []) /\
  (fst (startup_alt table (boot e)) = Ok tt ->
   log w = [ EvConfigure (getPreferredCanvasFormat e); EvConsoleLog ]) /\
  (forall w0,
     startup table (boot e) = (Ok tt, w0) ->
     fst (startup_alt table (boot e)) = Ok tt /\
     animationFrameCallbacks w0 = [ startup_closure ]).
Proof.
  cbv zeta. pose proof (startup_alt_cases e) as Hc.
  destruct (startup_alt table (boot e)) as [[[]|err] w] eqn:Hs; cbn [fst snd].
  - destruct Hc as (a & props & Hm & Hh & ->).
    unfold configured. world_simpl.
    split; [ reflexivity | split; [ reflexivity | split; [ reflexivity | ] ] ].
    split; [ intros ts; apply idle_never_draws; reflexivity | ].
    split; [ reflexivity | ].
    intros w0 Hs0. split; [ reflexivity | ].
    destruct (startup_running e w0 Hs0) as (? & ? & _ & _ & _ & _ & R).
    exact (run_callbacks _ _ _ _ _ _ _ R).
  - destruct Hc as (Hcb & Hq & Ho & Hcause).
    split; [ exact Ho | split; [ exact Hcb | split; [ exact Hq | ] ] ].
    split; [ intros ts; apply idle_never_draws; assumption | ].
    split; [ discriminate | ].
    intros w0 Hs0. exfalso.
    destruct (startup_running e w0 Hs0) as (a & props & Hm & Hh & _).
    destruct Hcause; congruence.
Qed.

(** *** A tick in any world *)

Lemma submissions_app (l1 l2 : list Event) :
  submissions (l1 ++ l2) = submissions l1 ++ submissions l2.
Proof. unfold submissions. apply flat_map_app. Qed.

Lemma loop_untouched_refl (w : World) : loop_untouched w w.
Proof. split; reflexivity. Qed.

Lemma loop_untouched_trans (w1 w2 w3 : World) :
  loop_untouched w1 w2 -> loop_untouched w2 w3 -> loop_untouched w1 w3.
Proof. intros [H1 H2] [H3 H4]. split; congruence. Qed.

Lemma quiet_ret {A} (a : A) : quiet (ret a).
Proof. intros w r w' Hrun. injection Hrun as <- <-. apply loop_untouched_refl. Qed.

Lemma quiet_throw {A} e : quiet (throw (A:=A) e).
Proof. intros w r w' Hrun. injection Hrun as <- <-. apply loop_untouched_refl. Qed.

Lemma quiet_bind {A B} (m : M A) (k : A -> M B) :
  quiet m -> (forall a, quiet (k a)) -> quiet (bind m k).
Proof.
  intros Hm Hk w r w' Hrun. unfold bind in Hrun.
  destruct (m w) as [[a|e] w1] eqn:Hmw.
  - exact (loop_untouched_trans _ _ _ (Hm _ _ _ Hmw) (Hk a _ _ _ Hrun)).
  - injection Hrun as <- <-. exact (Hm _ _ _ Hmw).
Qed.

Lemma quiet_get {A} (f : World -> A) : quiet (get f).
Proof. intros w r w' Hrun. injection Hrun as <- <-. apply loop_untouched_refl. Qed.

Lemma quiet_record ev : submissions [ ev ] = [] -> quiet (record ev).
Proof.
  intros Hev w r w' Hrun. injection Hrun as <- <-.
  split; world_simpl; [ reflexivity | ].
  rewrite submissions_app, Hev, app_nil_r. reflexivity.
Qed.

Lemma quiet_alloc o : quiet (alloc o).
Proof.
  intros w r w' Hrun. injection Hrun as <- <-.
  split; world_simpl; reflexivity.
Qed.

Lemma quiet_read_mat4 l : quiet (read_mat4 l).
Proof.
  intros w r w' Hrun. unfold read_mat4 in Hrun.
  destruct (heap w !! l) as [[m|d]|]; injection Hrun as <- <-;
    apply loop_untouched_refl.
Qed.

Lemma quiet_store_mat4 l m : quiet (store_mat4 l m).
Proof.
  intros w r w' Hrun. unfold store_mat4, alloc in Hrun.
  destruct (heap w !! l) as [[m0|d]|]; injection Hrun as <- <-;
    (split; world_simpl; reflexivity).
Qed.

Lemma quiet_read_descriptor l : quiet (read_descriptor l).
Proof.
  intros w r w' Hrun. unfold read_descriptor in Hrun.
  destruct (heap w !! l) as [[m|d]|]; injection Hrun as <- <-;
    apply loop_untouched_refl.
Qed.

Lemma quiet_assign_color_view l v : quiet (assign_color_view l v).
Proof.
  intros w r w' Hrun. unfold assign_color_view in Hrun.
  destruct (heap w !! l) as [[m|d]|]; injection Hrun as <- <-;
    (split; world_simpl; reflexivity).
Qed.

Lemma quiet_new_object o : quiet (new_object o).
Proof.
  intros w r w' Hrun. injection Hrun as <- <-.
  split; world_simpl; reflexivity.
Qed.

Lemma quiet_modify_texture t : quiet (modify (set_currentTexture t)).
Proof.
  intros w r w' Hrun. injection Hrun as <- <-.
  split; world_simpl; reflexivity.
Qed.

(** The write of the matrix is queued, refused by the device, or, for a
    range that is no range of the array, thrown back: in no case is
    anything submitted. *)
Lemma quiet_queue_writeBuffer b off data dataOffset size :
  quiet (queue_writeBuffer b off data dataOffset size).
Proof.
  intros w r w' Hrun. unfold queue_writeBuffer in Hrun.
  assert (Hq : forall ev, submissions [ ev ] = [] ->
                          loop_untouched w (add_log ev w)).
  { intros ev Hev. split; world_simpl; [ reflexivity | ].
    rewrite submissions_app, Hev, app_nil_r. reflexivity. }
  destruct ((length data <? dataOffset + size)%nat
            || negb (size mod 4 =? 0)%nat);
    [ injection Hrun as <- <-; apply loop_untouched_refl | ].
  destruct (objects w !! b) as [[d [range|] contents| | | | | | |]|];
    try (injection Hrun as <- <-; apply Hq; reflexivity).
  match type of Hrun with
  | (if ?cond then _ else _) = _ => destruct cond
  end; injection Hrun as <- <-; apply Hq; reflexivity.
Qed.

(** The view of a texture. *)
Lemma quiet_texture_createView t : quiet (texture_createView t).
Proof.
  intros w r w' Hrun. unfold texture_createView in Hrun.
  injection Hrun as <- <-. split; world_simpl; [ reflexivity | ].
  rewrite submissions_app.
  match goal with |- context [reported ?b] => destruct b end;
    cbn; apply app_nil_r.
Qed.

Create HintDb quiet.
#[local] Hint Resolve quiet_ret quiet_throw quiet_get quiet_alloc
  quiet_read_mat4 quiet_store_mat4 quiet_read_descriptor
  quiet_assign_color_view quiet_new_object quiet_modify_texture
  quiet_queue_writeBuffer quiet_texture_createView : quiet.

Ltac quiet_chain :=
  repeat first
    [ solve [ eauto with quiet ]
    | solve [ apply quiet_record; reflexivity ]
    | apply quiet_bind; [ | intros ] ].

Lemma quiet_getTransformationMatrix c : quiet (getTransformationMatrix c).
Proof.
  unfold getTransformationMatrix, mat4_identity, mat4_translate, mat4_rotate,
    mat4_multiply, Date_now.
  quiet_chain.
Qed.

Lemma quiet_context_getCurrentTexture : quiet context_getCurrentTexture.
Proof.
  unfold context_getCurrentTexture.
  apply quiet_bind; [ eauto with quiet | intros [|]; cbn [negb] ];
    [ | eauto with quiet ].
  apply quiet_bind; [ eauto with quiet | intros [t|] ]; quiet_chain.
Qed.

Lemma quiet_encode encoder cmd : quiet (encode encoder cmd).
Proof. unfold encode. quiet_chain. Qed.

Lemma tick_contract_bind c {A B} (m : M A) (k : A -> M B) :
  quiet m -> (forall a, tick_contract c (k a)) -> tick_contract c (bind m k).
Proof.
  intros Hm Hk w r w' Hrun. unfold bind in Hrun.
  destruct (m w) as [[a|e] w1] eqn:Hmw.
  - destruct (Hm _ _ _ Hmw) as [H1 H2].
    specialize (Hk a _ _ _ Hrun). destruct r as [b|e].
    + rewrite <- H1, <- H2. exact Hk.
    + destruct Hk as [H3 H4]. split; congruence.
  - injection Hrun as <- <-. exact (Hm _ _ _ Hmw).
Qed.

Lemma frame_contract c : tick_contract c (frame c).
Proof.
  unfold frame, device_createCommandEncoder, encoder_finish.
  apply tick_contract_bind; [ apply quiet_getTransformationMatrix | intros tm ].
  apply tick_contract_bind; [ apply quiet_read_mat4 | intros m ].
  apply tick_contract_bind; [ apply quiet_queue_writeBuffer | intros _ ].
  apply tick_contract_bind; [ apply quiet_context_getCurrentTexture | intros tex ].
  apply tick_contract_bind; [ apply quiet_texture_createView | intros view ].
  apply tick_contract_bind; [ apply quiet_assign_color_view | intros _ ].
  apply tick_contract_bind; [ quiet_chain | intros enc ].
  apply tick_contract_bind; [ apply quiet_read_descriptor | intros d ].
  do 6 (apply tick_contract_bind; [ apply quiet_encode | intros ? ]).
  apply tick_contract_bind; [ quiet_chain | intros cb ].
  intros w r w' Hrun. injection Hrun as <- <-. world_simpl.
  split; [ reflexivity | ].
  eexists. rewrite !submissions_app. cbn. rewrite app_nil_r. reflexivity.
Qed.

(** X1: in any world, a call of [frame] that returns has registered
    itself exactly once more and submitted exactly one command buffer, and
    a call that ends with an exception, whichever call has thrown it, has
    neither submitted anything nor registered a callback:
    [queue.submit] and [requestAnimationFrame] are the last two statements
    of [frame].  The exception of a context that is not configured, thrown
    by [getCurrentTexture] after the write of the matrix, is one such
    case. *)
Theorem frame_reschedules_iff_it_returns c w :
  match frame c w with
  | (Ok _, w') =>
      animationFrameCallbacks w' = animationFrameCallbacks w ++ [ c ] /\
      exists cmds, submissions (log w') = submissions (log w) ++ [ [ cmds ] ]
  | (Throw _, w') =>
      animationFrameCallbacks w' = animationFrameCallbacks w /\
      submissions (log w') = submissions (log w)
  end.
Proof.
  pose proof (frame_contract c w) as Hc.
  destruct (frame c w) as [[[]|e] w1]; exact (Hc _ _ eq_refl).
Qed.

(** X2: when the pending callback throws at a refresh, the frame loop is
    over: no callback is pending afterwards, and no later refresh calls the
    platform again. *)
Theorem failed_tick_ends_the_loop c w t e w' :
  animationFrameCallbacks w = [ c ] ->
  frame c (at_time t w) = (Throw e, w') ->
  forall ts,
    animationFrameCallbacks (run ts (animationFrame t w)) = [] /\
    log (run ts (animationFrame t w)) = log w' /\
    submissions (log (run ts (animationFrame t w))) = submissions (log w).
Proof.
  intros Hcb Hf ts.
  destruct (frame_contract c _ _ _ Hf) as (Hc & Hsub).
  assert (Ha : animationFrame t w = set_currentTexture None w').
  { unfold animationFrame. rewrite Hcb. cbn [fold_left].
    unfold run_callback. fold (at_time t w). rewrite Hf. reflexivity. }
  assert (Hidle : animationFrameCallbacks (animationFrame t w) = []).
  { rewrite Ha. world_simpl. rewrite Hc. reflexivity. }
  destruct (idle_run _ ts Hidle) as (H1 & H2 & _).
  rewrite H1, H2, Ha. world_simpl.
  split; [ reflexivity | split; [ reflexivity | ] ].
  rewrite Hsub. reflexivity.
Qed.

(** *** The exception of [main] *)

Lemma find_skip {A} (f : A -> bool) x l r :
  f x = false -> List.find f l = r -> List.find f (x :: l) = r.
Proof. intros Hx Hl. cbn [List.find]. rewrite Hx. exact Hl. Qed.

Lemma find_here {A} (f : A -> bool) x l :
  f x = true -> List.find f (x :: l) = Some x.
Proof. intros Hx. cbn [List.find]. rewrite Hx. reflexivity. Qed.

Ltac find_first :=
  repeat first [ apply find_here; assumption
               | apply find_skip; [ assumption | ] ];
  try reflexivity.

Lemma queue_of_reported (l : list Event) ev bad :
  queue_of [ ev ] = [] -> queue_of (l ++ ev :: reported bad) = queue_of l.
Proof.
  intros Hev. rewrite queue_of_app.
  change (ev :: reported bad) with ([ ev ] ++ reported bad).
  rewrite queue_of_app, Hev. destruct bad; apply app_nil_r.
Qed.

Lemma pipeline_getBindGroupLayout_ok p i w :
  pipeline_getBindGroupLayout p i w =
    (Ok (next_handle w),
     set_created (EvGetBindGroupLayout p i (next_handle w)) (next_handle w)
       (BindGroupLayout p i) (uses_invalid (invalidObjects w) [ p ]) w).
Proof. reflexivity. Qed.

Lemma texture_createView_ok t w :
  texture_createView t w =
    (Ok (next_handle w),
     set_created (EvCreateView t (next_handle w)) (next_handle w)
       (TextureView t) (uses_invalid (invalidObjects w) [ t ]) w).
Proof. reflexivity. Qed.

(** The verdict of the device on the call just made: the course of [main]
    does not depend on it. *)
Ltac any_verdict :=
  world_simpl;
  repeat match goal with
         | |- context [found_invalid ?r ?i ?c] =>
             generalize (found_invalid r i c); intro
         | |- context [uses_invalid ?i ?hs] =>
             generalize (uses_invalid i hs); intro
         end.

Ltac first_rejected :=
  lazymatch goal with
  | |- context [bind (create ?call ?o) ?k ?w] =>
      let E := fresh "E" in
      destruct (rejects (env w) call) eqn:E; world_simpl_in E;
      [ rewrite (bind_throw (create call o) k w _ _ (create_throw call o w E));
        cbv beta iota; world_simpl;
        eexists; split; [ find_first | repeat split ];
        rewrite ?queue_of_reported by reflexivity; reflexivity
      | rewrite (bind_eq (create call o) k w _ _ (create_ok call o w E));
        any_verdict ]
  end.

Ltac ok_step lem := erewrite bind_eq by (apply lem); cbv beta; any_verdict.

(** The course of [main] in any world and on any device: it stops at the
    first creation call that throws, and else runs to its end, whatever
    the device has found invalid on the way. *)
Lemma main_outcome a props w :
  match main a props w with
  | (Ok _, w') =>
      List.find (rejects (env w)) (resource_calls a props w) = None /\
      animationFrameCallbacks w' =
        animationFrameCallbacks w ++ [ main_closure w ] /\
      canvas_width w' = canvas_width w /\
      canvas_height w' = canvas_height w /\
      queue_of (log w') = queue_of (log w)
  | (Throw err, w') =>
      exists call,
        List.find (rejects (env w)) (resource_calls a props w) = Some call /\
        err = GPUError call /\
        heap w' = heap w /\ next_loc w' = next_loc w /\
        animationFrameCallbacks w' = animationFrameCallbacks w /\
        canvas_width w' = canvas_width w /\
        canvas_height w' = canvas_height w /\
        queue_of (log w') = queue_of (log w)
  end.
Proof.
  unfold main, device_createBuffer, device_createShaderModule,
    device_createRenderPipeline, device_createTexture, device_createBindGroup,
    mat4_perspective, mat4_create.
  cbn [bd_mappedAtCreation bd_size].
  first_rejected.
  erewrite bind_eq
    by (apply mappedRange_set_run; world_simpl; apply lookup_insert_eq).
  world_simpl. rewrite insert_insert_eq.
  erewrite bind_eq
    by (eapply buffer_unmap_run; world_simpl; apply lookup_insert_eq).
  world_simpl. rewrite insert_insert_eq.
  first_rejected.
  first_rejected.
  first_rejected.
  ok_step @get_run. ok_step @get_run.
  first_rejected.
  first_rejected.
  ok_step pipeline_getBindGroupLayout_ok.
  first_rejected.
  ok_step texture_createView_ok.
  ok_step alloc_run.
  ok_step @get_run. ok_step @get_run.
  ok_step alloc_run.
  ok_step alloc_run.
  unfold requestAnimationFrame. cbv beta iota. world_simpl.
  split; [ find_first | ].
  split; [ reflexivity | ].
  split; [ reflexivity | split; [ reflexivity | ] ].
  rewrite queue_of_app. rewrite ?queue_of_reported by reflexivity.
  apply app_nil_r.
Qed.


(** *** What start-up hands to [main] *)

Lemma handshake_props e props :
  handshake e = Some props ->
  fetch_basic_vert e = Fulfilled (basicVertWgsl props) /\
  fetch_vertexPositionColor_frag e = Fulfilled (vertexPositionColorWgsl props) /\
  textureFormat props = getPreferredCanvasFormat e.
Proof.
  unfold handshake.
  destruct (navigator_gpu e); cbn [negb]; [ | discriminate ].
  destruct (querySelector_canvas e); [ | discriminate ].
  destruct (requestAdapter e) as [[?|]|]; try discriminate.
  destruct (requestDevice e) as [[?|]|]; try discriminate.
  destruct (getContext_webgpu e); try discriminate.
  destruct (fetch_basic_vert e); try discriminate.
  destruct (fetch_vertexPositionColor_frag e); try discriminate.
  intros [= <-]. repeat split.
Qed.

(** X4: after a start-up that succeeds, the vertex shader module holds the
    text fetched for [basic.vert.wgsl] and the fragment module the text
    fetched for [vertexPositionColor.frag.wgsl]; both pipeline stages enter
    at [main]; the one colour target of the pipeline has the format the
    context was configured with, the preferred canvas format, and that
    configuration is the first call of the log; the canvas, and with it the
    depth texture, is the window's inner size less 50 device pixels each
    way, as an unsigned long. *)
Theorem startup_hands_the_page_to_main e w0 :
  startup table (boot e) = (Ok tt, w0) ->
  exists vert frag d,
    fetch_basic_vert e = Fulfilled vert /\
    fetch_vertexPositionColor_frag e = Fulfilled frag /\
    objects w0 !! 1 = Some (ShaderModule vert) /\
    objects w0 !! 2 = Some (ShaderModule frag) /\
    objects w0 !! 3 = Some (RenderPipeline d) /\
    vertex_module d = 1 /\ fragment_module d = 2 /\
    vertex_entryPoint d = "main"%string /\
    fragment_entryPoint d = "main"%string /\
    fragment_targets d = [ getPreferredCanvasFormat e ] /\
    head (log w0) = Some (EvConfigure (getPreferredCanvasFormat e)) /\
    canvas_width w0 =
      toUnsignedLong e (innerWidth e - 50 * devicePixelRatio e)%R /\
    canvas_height w0 =
      toUnsignedLong e (innerHeight e - 50 * devicePixelRatio e)%R /\
    exists td,
      objects w0 !! 4 = Some (Texture td) /\
      td_size td = (canvas_width w0, canvas_height w0).
Proof.
  intros Hs.
  destruct (startup_running e w0 Hs) as (a & props & _ & Hh & _ & -> & _).
  destruct (handshake_props e props Hh) as (Hv & Hf & Hfmt).
  exists (basicVertWgsl props), (vertexPositionColorWgsl props).
  eexists.
  split; [ exact Hv | split; [ exact Hf | ] ].
  unfold main_world, configured. world_simpl.
  split; [ lookup_solve | ].
  split; [ lookup_solve | ].
  split; [ lookup_solve | ].
  cbn [pipeline_descriptor vertex_module fragment_module vertex_entryPoint
       fragment_entryPoint fragment_targets].
  rewrite Hfmt.
  do 8 (split; [ reflexivity | ]).
  eexists. split; [ lookup_solve | reflexivity ].
Qed.

(** *** The two programs *)

Ltac negotiate_throws :=
  eexists; intros size k w <-;
  unfold negotiate, record, bind, get, modify, throw;
  repeat match goal with
         | E : _ = _ |- _ => rewrite E; clear E; cbn [negb]; world_simpl
         end;
  reflexivity.

(** A handshake that fails ends in an exception that depends on the
    answers of the page only. *)
Lemma negotiate_fails e :
  handshake e = None ->
  exists err,
    forall size (k : IMain -> M unit) w,
      env w = e -> fst (negotiate size k w) = Throw err.
Proof.
  unfold handshake.
  destruct (navigator_gpu e) eqn:E1; cbn [negb]; [ | intros _; negotiate_throws ].
  destruct (querySelector_canvas e) eqn:E2; [ | intros _; negotiate_throws ].
  destruct (requestAdapter e) as [[?|]|] eqn:E3;
    [ | intros _; negotiate_throws .. ].
  destruct (requestDevice e) as [[?|]|] eqn:E4;
    [ | intros _; negotiate_throws .. ].
  destruct (getContext_webgpu e) eqn:E5; [ | intros _; negotiate_throws ].
  destruct (fetch_basic_vert e) eqn:E6,
           (fetch_vertexPositionColor_frag e) eqn:E7;
    [ discriminate | intros _; negotiate_throws .. ].
Qed.

(** X5: when the mesh module fails to load, or the page does not answer
    the handshake (no WebGPU, no canvas, no adapter, no device, no context,
    a shader text not fetched), the two programs of the repository end
    with the same exception, whatever their canvas sizes and their
    [main]. *)
Theorem both_programs_fail_alike e :
  mkMesh table = None \/ handshake e = None ->
  exists err,
    fst (startup table (boot e)) = Throw err /\
    fst (startup_alt table (boot e)) = Throw err.
Proof.
  intros Hfail. unfold startup, startup_alt, import_cube.
  destruct (mkMesh table) as [a|] eqn:Hmesh.
  - destruct Hfail as [Hf|Hf]; [ discriminate | ].
    rewrite !(bind_eq (ret a) _ (boot e) a (boot e) eq_refl).
    destruct (negotiate_fails e Hf) as (err & Herr).
    exists err. split; apply Herr; reflexivity.
  - eexists. split; reflexivity.
Qed.

(** *** Start-up on any device *)

Lemma find_none_Forall {A} (f : A -> bool) (l : list A) :
  List.find f l = None -> Forall (fun x => f x = false) l.
Proof.
  intros Hf. apply List.Forall_forall. intros x Hx.
  exact (List.find_none f l Hf x Hx).
Qed.

Lemma find_some_Exists {A} (f : A -> bool) (l : list A) x :
  List.find f l = Some x -> Exists (fun x => f x = true) l.
Proof.
  intros Hf. apply List.Exists_exists. exists x.
  exact (List.find_some f l Hf).
Qed.

(** Start-up has two outcomes on every device, whatever the device finds
    invalid: an exception, with no callback registered and nothing queued,
    or a return with the frame callback registered; and it is an exception
    exactly when the mesh fails to load, the handshake fails or a creation
    call throws. *)
Lemma startup_outcome r e :
  let w1 := configured canvasSize (boot e) in
  match startup table (boot_reporting r e) with
  | (Ok _, w') =>
      animationFrameCallbacks w' = [ startup_closure ] /\
      queue_of (log w') = [] /\
      exists a props,
        mkMesh table = Some a /\ handshake e = Some props /\
        Forall (fun call => rejects e call = false) (resource_calls a props w1)
  | (Throw err, w') =>
      animationFrameCallbacks w' = [] /\ queue_of (log w') = [] /\
      (mkMesh table = None \/ handshake e = None \/
       exists a props,
         mkMesh table = Some a /\ handshake e = Some props /\
         Exists (fun call => rejects e call = true) (resource_calls a props w1))
  end.
Proof.
  cbv zeta. unfold startup, import_cube.
  destruct (mkMesh table) as [a|] eqn:Hmesh.
  2: { cbn. auto. }
  rewrite (bind_eq (ret a) _ (boot_reporting r e) a _ eq_refl).
  pose proof (negotiate_cases canvasSize (main a) (boot_reporting r e)) as Hn.
  change (env (boot_reporting r e)) with e in Hn.
  destruct (handshake e) as [props|] eqn:Hh.
  - rewrite Hn.
    pose proof (main_outcome a props
                  (configured canvasSize (boot_reporting r e))) as Hm.
    destruct (main a props (configured canvasSize (boot_reporting r e)))
      as [[[]|err] w'].
    + destruct Hm as (Hfind & Hcb & _ & _ & Hq).
      split; [ rewrite Hcb; reflexivity | ].
      split; [ rewrite Hq; reflexivity | ].
      exists a, props. split; [ reflexivity | split; [ reflexivity | ] ].
      exact (find_none_Forall _ _ Hfind).
    + destruct Hm as (call & Hfind & _ & _ & _ & Hcb & _ & _ & Hq).
      split; [ rewrite Hcb; reflexivity | ].
      split; [ rewrite Hq; reflexivity | ].
      right; right. exists a, props.
      split; [ reflexivity | split; [ reflexivity | ] ].
      exact (find_some_Exists _ _ _ Hfind).
  - destruct Hn as (err & w' & -> & Hc & Hl & _). rewrite Hc, Hl. auto.
Qed.

Lemma mark_here (bad : bool) (h : nat) (invalid : gset nat) :
  bad = true -> h ∈ mark bad h invalid.
Proof. intros ->. cbn [mark]. apply elem_of_union_l, elem_of_singleton_2. reflexivity. Qed.

Lemma mark_later (bad : bool) (h h' : nat) (invalid : gset nat) :
  h ∈ invalid -> h ∈ mark bad h' invalid.
Proof.
  intros Hin. destruct bad; cbn [mark]; [ apply elem_of_union_r | ]; exact Hin.
Qed.

Lemma found_invalid_reported (reports : GPUCall -> bool) invalid call :
  reports call = true -> found_invalid reports invalid call = true.
Proof. intros Hr. unfold found_invalid. rewrite Hr. reflexivity. Qed.

Ltac accepted_call :=
  lazymatch goal with
  | |- context [bind (create ?call ?o) ?k ?w] =>
      let E := fresh "E" in
      destruct (rejects (env w) call) eqn:E; world_simpl_in E;
      [ rewrite (bind_throw (create call o) k w _ _ (create_throw call o w E));
        exact I
      | rewrite (bind_eq (create call o) k w _ _ (create_ok call o w E));
        world_simpl ]
  end.

(** Where [main] runs to its end although the device has found one of its
    creation calls invalid, it leaves an invalid object behind. *)
Lemma main_reported a props w :
  match main a props w with
  | (Ok _, w') =>
      forall call,
        In call (resource_calls a props w) ->
        device_reports w call = true ->
        exists h, h ∈ invalidObjects w'
  | (Throw _, _) => True
  end.
Proof.
  unfold main, device_createBuffer, device_createShaderModule,
    device_createRenderPipeline, device_createTexture, device_createBindGroup,
    mat4_perspective, mat4_create.
  cbn [bd_mappedAtCreation bd_size].
  accepted_call.
  erewrite bind_eq
    by (apply mappedRange_set_run; world_simpl; apply lookup_insert_eq).
  world_simpl. rewrite insert_insert_eq.
  erewrite bind_eq
    by (eapply buffer_unmap_run; world_simpl; apply lookup_insert_eq).
  world_simpl. rewrite insert_insert_eq.
  accepted_call.
  accepted_call.
  accepted_call.
  erewrite bind_eq by (apply @get_run). cbv beta. world_simpl.
  erewrite bind_eq by (apply @get_run). cbv beta. world_simpl.
  accepted_call.
  accepted_call.
  erewrite bind_eq by (apply pipeline_getBindGroupLayout_ok).
  cbv beta. world_simpl.
  accepted_call.
  erewrite bind_eq by (apply texture_createView_ok). cbv beta. world_simpl.
  erewrite bind_eq by (apply alloc_run). cbv beta. world_simpl.
  erewrite bind_eq by (apply @get_run). cbv beta. world_simpl.
  erewrite bind_eq by (apply @get_run). cbv beta. world_simpl.
  erewrite bind_eq by (apply alloc_run). cbv beta. world_simpl.
  erewrite bind_eq by (apply alloc_run). cbv beta. world_simpl.
  unfold requestAnimationFrame. cbv beta iota. world_simpl.
  intros call Hin Hrep. unfold resource_calls in Hin. cbn [In] in Hin.
  repeat (destruct Hin as [<-|Hin]);
    [ eexists;
      repeat first
        [ apply mark_here, found_invalid_reported; exact Hrep
        | apply mark_later ] .. | destruct Hin ].
Qed.

(** What the device finds invalid does not reach the outcome of
    start-up. *)
Lemma startup_same_outcome r e :
  fst (startup table (boot_reporting r e)) = fst (startup table (boot e)).
Proof.
  unfold startup, import_cube.
  destruct (mkMesh table) as [a|] eqn:Hmesh; [ | reflexivity ].
  rewrite (bind_eq (ret a) _ (boot_reporting r e) a _ eq_refl).
  rewrite (bind_eq (ret a) _ (boot e) a _ eq_refl).
  destruct (handshake e) as [props|] eqn:Hh.
  - pose proof (negotiate_cases canvasSize (main a) (boot_reporting r e)) as Hn.
    pose proof (negotiate_cases canvasSize (main a) (boot e)) as Hn'.
    change (env (boot_reporting r e)) with e in Hn.
    change (env (boot e)) with e in Hn'.
    rewrite Hh in Hn, Hn'. rewrite Hn, Hn'.
    pose proof (main_outcome a props
                  (configured canvasSize (boot_reporting r e))) as Hm.
    pose proof (main_outcome a props (configured canvasSize (boot e))) as Hm'.
    assert (Hsame :
      List.find (rejects (env (configured canvasSize (boot_reporting r e))))
        (resource_calls a props (configured canvasSize (boot_reporting r e))) =
      List.find (rejects (env (configured canvasSize (boot e))))
        (resource_calls a props (configured canvasSize (boot e))))
      by reflexivity.
    destruct (main a props (configured canvasSize (boot_reporting r e)))
      as [[[]|err] w'],
      (main a props (configured canvasSize (boot e))) as [[[]|err'] w''];
      cbn [fst].
    + reflexivity.
    + destruct Hm as (Hf & _). destruct Hm' as (call & Hf' & _). congruence.
    + destruct Hm as (call & Hf & _). destruct Hm' as (Hf' & _). congruence.
    + destruct Hm as (call & Hf & -> & _).
      destruct Hm' as (call' & Hf' & -> & _). congruence.
  - destruct (negotiate_fails e Hh) as (err & Herr).
    rewrite !Herr by reflexivity. reflexivity.
Qed.

(** C5, amended: when the page has no GPU, or the adapter, the device or
    the context is not obtained, or one of the creation calls of [main]
    (vertex buffer, shader modules, pipeline, depth texture, uniform
    buffer, bind group) throws, start-up ends with that exception, no
    callback is registered, and at no later refresh is anything queued or
    drawn.  What the device finds invalid without throwing (a shader that
    does not compile, a descriptor that fails validation) aborts nothing:
    on every device start-up ends as it does on the device that finds
    everything valid, and where it returns the frame callback is
    registered, also when a creation call has been found invalid and has
    left an invalid object behind.  On the device that finds everything
    valid, a start-up that returns has built every object, and every
    object is valid. *)
Theorem startup_aborts_only_when_a_call_throws r e :
  let result := startup table (boot_reporting r e) in
  (StartupFailure table e -> exists err, fst result = Throw err) /\
  (forall err,
     fst result = Throw err ->
     animationFrameCallbacks (snd result) = [] /\
     forall ts,
       animationFrameCallbacks (run ts (snd result)) = [] /\
       queue_of (log (run ts (snd result))) = [] /\
       draws (device_after (run ts (snd result))) = []) /\
  (fst result = Ok tt ->
   animationFrameCallbacks (snd result) = [ startup_closure ]) /\
  fst result = fst (startup table (boot e)) /\
  (forall a props call,
     mkMesh table = Some a -> handshake e = Some props ->
     In call (resource_calls a props (configured canvasSize (boot e))) ->
     r call = true ->
     fst result = Ok tt ->
     exists h, h ∈ invalidObjects (snd result)) /\
  (forall w,
     startup table (boot e) = (Ok tt, w) ->
     invalidObjects w = ∅ /\
     exists a props,
       mkMesh table = Some a /\ handshake e = Some props /\
       objects w !! 0 =
         Some (Buffer (vertex_buffer_descriptor a) None (buffer_of a)) /\
       objects w !! 1 = Some (ShaderModule (basicVertWgsl props)) /\
       objects w !! 2 = Some (ShaderModule (vertexPositionColorWgsl props)) /\
       objects w !! 3 =
         Some (RenderPipeline (pipeline_descriptor 1 2 (textureFormat props))) /\
       objects w !! 4 = Some (Texture (depth_texture_descriptor w)) /\
       objects w !! 5 =
         Some (Buffer uniform_buffer_descriptor None (zeros 64)) /\
       objects w !! 7 =
         Some (BindGroup {| bg_layout := 6; bg_entries := [ (0%nat, 5) ] |})).
Proof.
  cbv zeta. pose proof (startup_outcome r e) as Hc. cbv zeta in Hc.
  split; [ | split; [ | split; [ | split; [ | split ] ] ] ].
  - intros Hfail.
    destruct (startup table (boot_reporting r e)) as [[[]|err] w]; cbn [fst];
      [ exfalso | eauto ].
    destruct Hc as (_ & _ & a & props & Hm & Hh & Hacc).
    destruct (handshake_Some e props Hh)
      as (Hg & [u1 Had] & [u2 Hdev] & [u3 Hctx]).
    destruct Hfail as [Hf|x Hf|Hf|x Hf|Hf|Hf|a' props' call Hm' Hh' Hin Hrej];
      try congruence.
    assert (a' = a) by congruence. assert (props' = props) by congruence.
    subst a' props'.
    rewrite List.Forall_forall in Hacc. specialize (Hacc call Hin). congruence.
  - intros err Herr.
    destruct (startup table (boot_reporting r e)) as [[[]|err'] w];
      cbn [fst snd] in *; [ discriminate | ].
    destruct Hc as (Hcb & Hq & _). split; [ exact Hcb | ].
    intros ts. apply idle_never_draws; assumption.
  - intros Hok.
    destruct (startup table (boot_reporting r e)) as [[[]|err'] w];
      cbn [fst snd] in *; [ | discriminate ].
    exact (proj1 Hc).
  - apply startup_same_outcome.
  - intros a props call Hm Hh Hin Hr. clear Hc.
    unfold startup, import_cube. rewrite Hm.
    rewrite (bind_eq (ret a) _ (boot_reporting r e) a _ eq_refl).
    pose proof (negotiate_cases canvasSize (main a) (boot_reporting r e)) as Hn.
    change (env (boot_reporting r e)) with e in Hn.
    rewrite Hh in Hn. rewrite Hn.
    pose proof (main_reported a props
                  (configured canvasSize (boot_reporting r e))) as Hrep.
    destruct (main a props (configured canvasSize (boot_reporting r e)))
      as [[[]|err] w']; cbn [fst snd]; [ | discriminate ].
    intros _. exact (Hrep call Hin Hr).
  - intros w Hw.
    destruct (startup_running e w Hw) as (a & props & Hm & Hh & _ & -> & R).
    split; [ exact (run_valid _ _ _ _ _ _ _ R) | ].
    exists a, props. split; [ exact Hm | split; [ exact Hh | ] ].
    unfold main_world. world_simpl.
    repeat split; lookup_solve.
Qed.


(** *** What the ticks leave behind *)

Lemma objects_persist a c dv base log0 times w ts h o :
  Running a c dv base log0 times w ->
  objects w !! h = Some o -> objects (run ts w) !! h = Some o.
Proof.
  intros R Ho. induction ts as [|t ts IH] using rev_ind; [ exact Ho | ].
  pose proof (run_running a c dv base log0 times w ts R) as R'.
  destruct (tick_running _ _ _ _ _ _ _ t R') as (_ & Hanim & _).
  pose proof (run_fresh _ _ _ _ _ _ _ R') as Hfresh.
  rewrite run_snoc, Hanim. unfold frame_world, at_time. world_simpl.
  assert (h < next_handle (run ts w)).
  { destruct (Nat.lt_ge_cases h (next_handle (run ts w))) as [|Hge];
      [ assumption | ]. rewrite (Hfresh h Hge) in IH. discriminate. }
  rewrite !lookup_insert_ne by lia. exact IH.
Qed.

Lemma run_allocations a c dv base log0 w ts :
  Running a c dv base log0 [] w ->
  next_loc (run ts w) = next_loc w + length ts /\
  forall k t,
    nth_error ts k = Some t ->
    heap (run ts w) !! (next_loc w + k) = Some (ObjMat4 (view_at t)) /\
    objects (run ts w) !! texture_of_tick base k = Some SurfaceTexture /\
    objects (run ts w) !! view_of_tick base k =
      Some (TextureView (texture_of_tick base k)).
Proof.
  intros R. induction ts as [|t ts IH] using rev_ind.
  - split; [ cbn; lia | ]. intros k t Hk. destruct k; discriminate.
  - destruct IH as [Hloc IH].
    pose proof (run_running a c dv base log0 [] w ts R) as R'.
    cbn [app] in R'.
    destruct (tick_running _ _ _ _ _ _ _ t R') as (_ & Hanim & _).
    pose proof (run_next _ _ _ _ _ _ _ R') as Hnext.
    pose proof (run_locs _ _ _ _ _ _ _ R) as (L1 & L2 & L3 & _).
    rewrite run_snoc, Hanim. unfold frame_world, at_time. world_simpl.
    split; [ rewrite Hloc, length_app; cbn [length]; lia | ].
    intros k t' Hk.
    destruct (Nat.lt_ge_cases k (length ts)) as [Hlt|Hge].
    + rewrite nth_error_app1 in Hk by exact Hlt.
      destruct (IH k t' Hk) as (Hh & Ht & Hv).
      unfold texture_of_tick, view_of_tick in *.
      rewrite !lookup_insert_ne by lia.
      split; [ exact Hh | split; assumption ].
    + rewrite nth_error_app2 in Hk by exact Hge.
      destruct (k - length ts) as [|j] eqn:Hj;
        [ | destruct j; discriminate ].
      injection Hk as <-. assert (k = length ts) as -> by lia.
      unfold texture_of_tick, view_of_tick. rewrite Hnext, Hloc.
      split; [ | split ].
      * rewrite !lookup_insert_ne by lia. apply lookup_insert_eq.
      * rewrite lookup_insert_ne by lia. apply lookup_insert_eq.
      * apply lookup_insert_eq.
Qed.

(** *** The draws of a run *)

Lemma expected_draws_targets c aspect vertices base ts :
  forall k,
    map drawn_target (expected_draws c aspect vertices base k ts) =
    map (fun i => Some (view_of_tick base i)) (seq k (length ts)).
Proof.
  induction ts as [|t ts IH]; intros k; [ reflexivity | ].
  cbn [expected_draws map length seq]. rewrite IH. reflexivity.
Qed.

Lemma expected_draws_same c aspect vertices base ts :
  forall k,
    Forall (fun d => drawn_pipeline d = Some (pipeline c) /\
                     drawn_vertices d = Some vertices /\
                     drawn_vertexCount d = cubeVertexCount)
      (expected_draws c aspect vertices base k ts).
Proof.
  induction ts as [|t ts IH]; intros k; constructor;
    [ repeat split | apply IH ].
Qed.

Lemma NoDup_map_injective {A B} (f : A -> B) (l : list A) :
  (forall x y, f x = f y -> x = y) -> List.NoDup l -> List.NoDup (map f l).
Proof.
  intros Hinj Hl. induction Hl as [|x l Hx Hl IH]; cbn [map]; constructor.
  - intros Hin. apply in_map_iff in Hin. destruct Hin as (y & Hy & Hin).
    apply Hinj in Hy. subst y. exact (Hx Hin).
  - exact IH.
Qed.

(** X7: the device draws once per tick, each time into the view that this
    tick has made of its own surface texture: no two draws of a run have
    the same target, and none draws into a view of an earlier tick.  All
    draws use the one pipeline and read the bytes of the mesh from the
    vertex buffer, [cubeVertexCount] vertices each. *)
Theorem every_draw_has_its_own_target e w0 ts :
  startup table (boot e) = (Ok tt, w0) ->
  let ds := draws (device_after (run ts w0)) in
  length ds = length ts /\
  map drawn_target ds =
    map (fun k => Some (view_of_tick 9 k)) (seq 0 (length ts)) /\
  List.NoDup (map drawn_target ds) /\
  exists a,
    mkMesh table = Some a /\
    Forall (fun d => drawn_pipeline d = Some (pipeline startup_closure) /\
                     drawn_vertices d = Some (buffer_of a) /\
                     drawn_vertexCount d = cubeVertexCount) ds.
Proof.
  intros Hs. cbv zeta.
  destruct (started_running e w0 ts Hs) as (a & log0 & Hm & _ & _ & _ & R).
  destruct (device_running _ _ _ _ _ _ _ R) as (Hd & _ & _).
  rewrite Hd.
  assert (Ht := expected_draws_targets startup_closure
                  (aspect_of (run ts w0)) (buffer_of a) 9 ts 0).
  split.
  { rewrite <- (length_map drawn_target), Ht, length_map, length_seq.
    reflexivity. }
  split; [ exact Ht | ].
  split.
  { rewrite Ht. apply NoDup_map_injective; [ | apply List.seq_NoDup ].
    intros i j Hij. unfold view_of_tick in Hij. injection Hij as Hij. lia. }
  exists a. split; [ exact Hm | apply expected_draws_same ].
Qed.

(** X8: between two ticks no surface texture is current, yet the render
    pass descriptor, which [frame] updates in place, keeps what the last
    tick has put there: no colour view before the first tick, and then
    the view of the last tick, a view of a surface texture that is no
    longer the current one.  The next tick overwrites it before it
    begins its pass. *)
Theorem descriptor_keeps_the_expired_view e w0 ts :
  startup table (boot e) = (Ok tt, w0) ->
  let w := run ts w0 in
  let c := startup_closure in
  currentTexture w = None /\
  exists d,
    heap w !! renderPassDescriptor c = Some (ObjRenderPassDescriptor d) /\
    (ts = [] -> color_view d = None) /\
    (forall ts' t, ts = ts' ++ [ t ] ->
       let view := view_of_tick 9 (length ts') in
       let texture := texture_of_tick 9 (length ts') in
       color_view d = Some view /\
       objects w !! view = Some (TextureView texture) /\
       objects w !! texture = Some SurfaceTexture /\
       currentTexture w <> Some texture) /\
    forall t,
      exists w',
        frame c (at_time t w) = (Ok tt, w') /\
        heap w' !! renderPassDescriptor c =
          Some (ObjRenderPassDescriptor
                  (descriptor_with (Some (view_of_tick 9 (length ts))) 8)).
Proof.
  intros Hs. cbv zeta.
  destruct (startup_running e w0 Hs) as (a & props & _ & _ & _ & _ & R0).
  pose proof (run_running _ _ _ _ _ _ _ ts R0) as R. cbn [app] in R.
  pose proof (run_texture _ _ _ _ _ _ _ R) as Htex.
  split; [ exact Htex | ].
  eexists. split; [ exact (run_descriptor _ _ _ _ _ _ _ R) | ].
  split; [ intros ->; reflexivity | ].
  split.
  { intros ts' t ->. cbv zeta. rewrite length_app. cbn [length].
    rewrite Nat.add_1_r. cbn [last_view descriptor_with color_view].
    split; [ reflexivity | ].
    destruct (run_allocations _ _ _ _ _ w0 (ts' ++ [ t ]) R0) as [_ Hall].
    destruct (Hall (length ts') t) as (_ & Ht & Hv).
    { rewrite nth_error_app2 by lia. rewrite Nat.sub_diag. reflexivity. }
    split; [ exact Hv | split; [ exact Ht | ] ].
    rewrite Htex. discriminate. }
  intros t. destruct (tick_running _ _ _ _ _ _ _ t R) as (Hf & _ & _).
  eexists. split; [ exact Hf | ].
  unfold frame_world, at_time. world_simpl.
  rewrite lookup_insert_eq, (run_next _ _ _ _ _ _ _ R). reflexivity.
Qed.

(** *** Handles are handed out before they are used *)

Lemma scoped_mono (l : list Event) :
  forall known known' : gset nat,
    known ⊆ known' -> scoped known l = true -> scoped known' l = true.
Proof.
  induction l as [|ev l IH]; intros known known' Hsub; [ reflexivity | ].
  cbn [scoped]. rewrite !andb_true_iff. intros [Hu Hl]. split.
  - rewrite forallb_forall in *. intros h Hh. specialize (Hu h Hh).
    apply bool_decide_eq_true_1 in Hu. apply bool_decide_eq_true_2.
    apply Hsub. exact Hu.
  - eapply IH; [ | exact Hl ]. apply union_mono_r. exact Hsub.
Qed.

Lemma scoped_app (l1 l2 : list Event) :
  forall known : gset nat,
    scoped known l1 = true ->
    scoped (known ∪ list_to_set (flat_map event_defines l1)) l2 = true ->
    scoped known (l1 ++ l2) = true.
Proof.
  induction l1 as [|ev l1 IH]; intros known H1 H2.
  - cbn [app]. eapply scoped_mono; [ | exact H2 ].
    cbn [flat_map list_to_set]. rewrite (right_id_L ∅ (∪)). reflexivity.
  - cbn [app scoped] in *. rewrite andb_true_iff in *.
    destruct H1 as [Hu H1]. split; [ exact Hu | ].
    apply IH; [ exact H1 | ].
    eapply scoped_mono; [ | exact H2 ].
    cbn [flat_map]. rewrite list_to_set_app_L, (assoc_L (∪)). reflexivity.
Qed.

Ltac in_known := apply bool_decide_eq_true_2; set_solver.

Lemma scoped_tick c aspect dv t texture view (known : gset nat) :
  uniformBuffer c ∈ known -> verticesBuffer c ∈ known ->
  pipeline c ∈ known -> uniformBindGroup c ∈ known -> dv ∈ known ->
  scoped known (tick_events c aspect dv t texture view) = true.
Proof.
  intros Hu Hv Hp Hg Hd.
  unfold tick_events, tick_commands.
  cbn [app map scoped event_uses event_defines command_refs forallb flat_map
       color_view depth_view descriptor_with andb].
  repeat (apply andb_true_intro; split); try reflexivity; in_known.
Qed.

Lemma scoped_ticks c aspect dv base ts :
  forall k (known : gset nat),
    uniformBuffer c ∈ known -> verticesBuffer c ∈ known ->
    pipeline c ∈ known -> uniformBindGroup c ∈ known -> dv ∈ known ->
    scoped known (ticks_events c aspect dv base k ts) = true.
Proof.
  induction ts as [|t ts IH]; intros k known Hu Hv Hp Hg Hd;
    [ reflexivity | ].
  cbn [ticks_events]. apply scoped_app.
  - apply scoped_tick; assumption.
  - apply IH; set_solver.
Qed.

(** X9: in the log of a run, from the first call of start-up to the last
    call of the last tick, no call is given a handle that an earlier call
    has not handed out: the pipeline names the two shader modules after
    they are created, the bind group the layout and the uniform buffer,
    each view its texture, each command of a pass and each submitted
    command buffer the objects of [main] and the view of the same tick. *)
Theorem no_handle_is_used_before_it_exists e w0 ts :
  startup table (boot e) = (Ok tt, w0) ->
  scoped ∅ (log (run ts w0)) = true.
Proof.
  intros Hs.
  destruct (startup_running e w0 Hs) as (a & props & _ & _ & _ & _ & R0).
  pose proof (run_running _ _ _ _ _ _ _ ts R0) as R. cbn [app] in R.
  rewrite (run_log _ _ _ _ _ _ _ R).
  apply scoped_app.
  - unfold configured, main_events, main_closure, bind_group_descriptor,
      pipeline_descriptor.
    world_simpl.
    cbn [boot log next_handle next_loc app scoped event_uses event_defines
         call_refs forallb map snd vertex_module fragment_module bg_layout
         bg_entries verticesBuffer pipeline uniformBuffer uniformBindGroup
         Nat.add andb].
    repeat (apply andb_true_intro; split); try reflexivity; in_known.
  - unfold configured, main_events. world_simpl.
    cbn [boot log next_handle next_loc app flat_map event_defines Nat.add].
    apply scoped_ticks;
      cbn [startup_closure uniformBuffer verticesBuffer pipeline
           uniformBindGroup]; set_solver.
Qed.

(** *** The command buffer of a tick *)

Lemma submissions_tick c aspect dv t texture view :
  submissions (tick_events c aspect dv t texture view) =
  [ [ tick_commands c dv view ] ].
Proof. reflexivity. Qed.

Lemma live_valid (objs : gmap nat GPUObject) h :
  live objs ∅ h = objs !! h.
Proof.
  unfold live. rewrite bool_decide_eq_false_2; [ reflexivity | ].
  apply not_elem_of_empty.
Qed.

(** What the check accepts: nothing after the end of the pass; within a
    pass, commands that are neither a begin nor an end, then the end, with
    a draw on the way; and so, as a whole, exactly one pass with at least
    one draw. *)
Lemma check_ended objs invalid current cmds :
  check_commands objs invalid current Ended cmds = true -> cmds = [].
Proof.
  destruct cmds as [|cmd rest]; [ reflexivity | ].
  cbn [check_commands]. rewrite andb_true_iff. intros [_ Hrest].
  destruct cmd as [d|p|[|i] g|[|i] b|n ic f fi|]; discriminate.
Qed.

Lemma check_open objs invalid current cmds :
  forall s,
    check_commands objs invalid current (Open s) cmds = true ->
    exists body,
      cmds = body ++ [ EndPass ] /\
      forallb in_pass body = true /\
      (chk_drawn s || existsb is_draw body = true).
Proof.
  induction cmds as [|cmd rest IH]; intros s; [ discriminate | ].
  cbn [check_commands]. rewrite andb_true_iff. intros [_ Hrest].
  destruct cmd as [d|p|[|i] g|[|i] b|n ic f fi|].
  - discriminate.
  - destruct (live objs invalid p) as [[| |pd| | | | |]|]; try discriminate.
    apply andb_true_iff in Hrest. destruct Hrest as [_ Hrest].
    destruct (IH _ Hrest) as (body & -> & Hin & Hdraw).
    exists (SetPipeline p :: body). cbn in *. auto.
  - destruct (IH _ Hrest) as (body & -> & Hin & Hdraw).
    exists (SetBindGroup 0 g :: body). cbn in *. auto.
  - destruct (IH _ Hrest) as (body & -> & Hin & Hdraw).
    exists (SetBindGroup (S i) g :: body). cbn in *. auto.
  - destruct (IH _ Hrest) as (body & -> & Hin & Hdraw).
    exists (SetVertexBuffer 0 b :: body). cbn in *. auto.
  - destruct (IH _ Hrest) as (body & -> & Hin & Hdraw).
    exists (SetVertexBuffer (S i) b :: body). cbn in *. auto.
  - destruct (chk_pipeline s), (chk_vertex0 s); try discriminate.
    apply andb_true_iff in Hrest. destruct Hrest as [_ Hrest].
    destruct (IH _ Hrest) as (body & -> & Hin & Hdraw).
    exists (Draw n ic f fi :: body). cbn in *.
    split; [ reflexivity | split; [ exact Hin | apply orb_true_r ] ].
  - apply andb_true_iff in Hrest. destruct Hrest as [Hdrawn Hrest].
    apply check_ended in Hrest. subst rest.
    exists []. rewrite Hdrawn. auto.
Qed.

Lemma check_one_pass objs invalid current cmds :
  check_commands objs invalid current NotBegun cmds = true ->
  exists d body view texture,
    cmds = BeginRenderPass d :: (body ++ [ EndPass ]) /\
    forallb in_pass body = true /\ existsb is_draw body = true /\
    color_view d = Some view /\
    objs !! view = Some (TextureView texture) /\
    objs !! texture = Some SurfaceTexture /\
    current = Some texture /\
    (view ∉ invalid) /\ (texture ∉ invalid).
Proof.
  destruct cmds as [|cmd rest]; [ discriminate | ].
  cbn [check_commands]. rewrite andb_true_iff. intros [Hvalid Hrest].
  destruct cmd as [d|p|[|i] g|[|i] b|n ic f fi|]; try discriminate.
  destruct (view_target objs invalid (depth_view d)) as [[dt [| | | |td| | |]]|];
    try discriminate.
  destruct (check_open _ _ _ _ _ Hrest) as (body & -> & Hin & Hdraw).
  cbn [chk_drawn orb] in Hdraw.
  cbn [command_valid] in Hvalid. apply andb_true_iff in Hvalid.
  destruct Hvalid as [Hcolor _].
  destruct (color_view d) as [view|] eqn:Hcv; [ | discriminate ].
  unfold view_target, live in Hcolor.
  destruct (bool_decide (view ∈ invalid)) eqn:Hv; [ discriminate | ].
  destruct (objs !! view) as [[| | | | | |texture|]|] eqn:Hview;
    try discriminate.
  destruct (bool_decide (texture ∈ invalid)) eqn:Ht; [ discriminate | ].
  destruct (objs !! texture) as [[| | | | | | |]|] eqn:Htex; try discriminate.
  apply bool_decide_eq_true_1 in Hcolor.
  apply bool_decide_eq_false_1 in Hv. apply bool_decide_eq_false_1 in Ht.
  exists d, body, view, texture.
  split; [ reflexivity | split; [ exact Hin | split; [ exact Hdraw | ] ] ].
  split; [ exact Hcv | split; [ exact Hview | split; [ exact Htex | ] ] ].
  split; [ exact Hcolor | split; assumption ].
Qed.

Lemma mkMesh_byteLength (vertices : list Vertex) a :
  mkMesh vertices = Some a -> byteLength a = cubeVertexCount * cubeVertexSize.
Proof.
  unfold mkMesh.
  destruct (Nat.eqb_spec (byteLength (flat_map vertex_floats vertices))
              (cubeVertexCount * cubeVertexSize)) as [Hlen|]; [ | discriminate ].
  intros [= <-]. exact Hlen.
Qed.

Lemma check_tick_commands (objs : gmap nat GPUObject) c dv view
    texture depthTexture td vm fm fmt layout p bd contents a vertices :
  objs !! view = Some (TextureView texture) ->
  objs !! texture = Some SurfaceTexture ->
  objs !! dv = Some (TextureView depthTexture) ->
  objs !! depthTexture = Some (Texture td) ->
  has_usage (td_usage td) GPUTextureUsage.RENDER_ATTACHMENT = true ->
  td_format td = depth24plus ->
  objs !! pipeline c = Some (RenderPipeline (pipeline_descriptor vm fm fmt)) ->
  objs !! uniformBindGroup c =
    Some (BindGroup {| bg_layout := layout;
                       bg_entries := [ (0%nat, uniformBuffer c) ] |}) ->
  objs !! layout = Some (BindGroupLayout p 0) ->
  objs !! uniformBuffer c = Some (Buffer bd None contents) ->
  has_usage (bd_usage bd) GPUBufferUsage.UNIFORM = true ->
  objs !! verticesBuffer c =
    Some (Buffer (vertex_buffer_descriptor a) None vertices) ->
  byteLength a = cubeVertexCount * cubeVertexSize ->
  check_commands objs ∅ (Some texture) NotBegun (tick_commands c dv view)
  = true.
Proof.
  intros Hview Htex Hdv Hdtex Hra Hfmt Hp Hg Hl Hu Huu Hv Hlen.
  assert (Hvu : has_usage (bd_usage (vertex_buffer_descriptor a))
                  GPUBufferUsage.VERTEX = true) by reflexivity.
  unfold tick_commands.
  cbn [check_commands command_valid color_view depth_view descriptor_with].
  unfold view_target, draw_in_bounds.
  repeat progress
    (rewrite ?live_valid, ?Hview, ?Htex, ?Hdv, ?Hdtex, ?Hra, ?Hfmt, ?Hp, ?Hg,
       ?Hl, ?Hu, ?Huu, ?Hv, ?Hvu;
     rewrite ?bool_decide_eq_true_2 by reflexivity;
     cbn [depth_bits andb chk_depth chk_pipeline chk_group0 chk_vertex0
          chk_drawn pipeline_descriptor depthStencil_format format_eqb
          bg_layout bg_entries forallb snd Nat.eqb vertex_buffers]).
  cbn [vertexBufferLayout arrayStride vertex_buffer_descriptor bd_size Nat.add].
  rewrite Hlen, Nat.leb_refl. reflexivity.
Qed.

(** X10: the command buffer a tick submits is the render pass of that
    tick, and at the moment of the submission it is well formed: one pass,
    begun and ended once, with its draw in it; the colour attachment is
    the view made in this tick of the surface texture that is current; the
    depth attachment is a view of the depth texture, which has
    render-attachment usage and the depth format the pipeline was built
    with; the bind group set at index 0 was made for the layout
    [getBindGroupLayout(0)] and binds the unmapped uniform buffer; the
    vertex buffer is unmapped and of vertex usage; the draw comes after
    pipeline, bind group and vertex buffer are set, and its
    [cubeVertexCount] vertices of [cubeVertexSize] bytes lie within the
    vertex buffer; and every object named is valid. *)
Theorem submitted_pass_is_well_formed e w0 ts t :
  startup table (boot e) = (Ok tt, w0) ->
  exists w' texture view,
    frame startup_closure (at_time t (run ts w0)) = (Ok tt, w') /\
    currentTexture w' = Some texture /\
    objects (run ts w0) !! texture = None /\
    objects (run ts w0) !! view = None /\
    objects w' !! view = Some (TextureView texture) /\
    submissions (log w') =
      submissions (log (run ts w0)) ++
      [ [ tick_commands startup_closure 8 view ] ] /\
    check_commands (objects w') (invalidObjects w') (currentTexture w')
      NotBegun (tick_commands startup_closure 8 view) = true.
Proof.
  intros Hs.
  destruct (startup_running e w0 Hs) as (a & props & Hmesh & _ & _ & Hw & R0).
  pose proof (run_running _ _ _ _ _ _ _ ts R0) as R. cbn [app] in R.
  destruct (tick_running _ _ _ _ _ _ _ t R) as (Hf & _ & _).
  pose proof (run_next _ _ _ _ _ _ _ R) as Hn.
  pose proof (run_fresh _ _ _ _ _ _ _ R) as Hfresh.
  pose proof (run_valid _ _ _ _ _ _ _ R) as Hinv.
  assert (Hobj : forall h o, h < 9 -> objects w0 !! h = Some o ->
            objects (frame_world startup_closure (aspect_of (run ts w0)) 8
                       (at_time t (run ts w0))) !! h = Some o).
  { intros h o Hh Ho. unfold frame_world, at_time. world_simpl.
    rewrite !lookup_insert_ne by lia.
    exact (objects_persist _ _ _ _ _ _ _ ts h o R0 Ho). }
  exists (frame_world startup_closure (aspect_of (run ts w0)) 8
            (at_time t (run ts w0))),
    (next_handle (run ts w0)), (S (next_handle (run ts w0))).
  split; [ exact Hf | ].
  split; [ reflexivity | ].
  split; [ apply Hfresh; lia | ].
  split; [ apply Hfresh; lia | ].
  split; [ unfold frame_world, at_time; world_simpl; apply lookup_insert_eq | ].
  split.
  { unfold frame_world at 1. world_simpl.
    rewrite submissions_app, submissions_tick. reflexivity. }
  replace (invalidObjects
             (frame_world startup_closure (aspect_of (run ts w0)) 8
                (at_time t (run ts w0)))) with (∅ : gset nat)
    by (symmetry; exact Hinv).
  replace (currentTexture
             (frame_world startup_closure (aspect_of (run ts w0)) 8
                (at_time t (run ts w0)))) with (Some (next_handle (run ts w0)))
    by reflexivity.
  eapply (check_tick_commands _ startup_closure 8 _
            (next_handle (run ts w0)) 4 _ 1 2 _ 6 3 _ _ a _).
  - unfold frame_world, at_time. world_simpl. apply lookup_insert_eq.
  - unfold frame_world, at_time. world_simpl.
    rewrite lookup_insert_ne by lia. apply lookup_insert_eq.
  - apply Hobj; [ lia | ]. rewrite Hw. unfold main_world. world_simpl.
    lookup_solve.
  - apply Hobj; [ lia | ]. rewrite Hw. unfold main_world. world_simpl.
    lookup_solve.
  - reflexivity.
  - reflexivity.
  - apply Hobj; [ cbn; lia | ]. rewrite Hw. unfold main_world. world_simpl.
    cbn [startup_closure pipeline]. lookup_solve.
  - apply Hobj; [ cbn; lia | ]. rewrite Hw. unfold main_world. world_simpl.
    cbn [startup_closure uniformBindGroup]. lookup_solve.
  - apply Hobj; [ lia | ]. rewrite Hw. unfold main_world. world_simpl.
    lookup_solve.
  - apply Hobj; [ cbn; lia | ]. rewrite Hw. unfold main_world. world_simpl.
    cbn [startup_closure uniformBuffer]. lookup_solve.
  - reflexivity.
  - apply Hobj; [ cbn; lia | ]. rewrite Hw. unfold main_world. world_simpl.
    cbn [startup_closure verticesBuffer]. lookup_solve.
  - exact (mkMesh_byteLength _ _ Hmesh).
Qed.

(** *** The size of the canvas *)

Lemma negotiate_canvas size (k : IMain -> M unit) w u :
  (forall props w1,
     canvas_width (snd (k props w1)) = canvas_width w1 /\
     canvas_height (snd (k props w1)) = canvas_height w1) ->
  navigator_gpu (env w) = true ->
  querySelector_canvas (env w) = Some u ->
  canvas_width (snd (negotiate size k w)) =
    toUnsignedLong (env w) (fst (size (env w))) /\
  canvas_height (snd (negotiate size k w)) =
    toUnsignedLong (env w) (snd (size (env w))).
Proof.
  intros Hk Hgpu Hcanvas.
  unfold negotiate, record, bind, get, modify, throw.
  rewrite Hgpu, Hcanvas. cbn [negb]. world_simpl.
  destruct (requestAdapter (env w)) as [[?|]|]; [ | split; reflexivity .. ].
  destruct (requestDevice (env w)) as [[?|]|]; [ | split; reflexivity .. ].
  destruct (getContext_webgpu (env w)); [ | split; reflexivity ].
  world_simpl.
  destruct (fetch_basic_vert (env w)), (fetch_vertexPositionColor_frag (env w));
    [ | split; reflexivity .. ].
  match goal with
  | |- context [k ?props ?w1] => destruct (Hk props w1) as [-> ->]
  end.
  split; reflexivity.
Qed.

Lemma main_canvas a props w :
  canvas_width (snd (main a props w)) = canvas_width w /\
  canvas_height (snd (main a props w)) = canvas_height w.
Proof.
  pose proof (main_outcome a props w) as Ho.
  destruct (main a props w) as [[[]|err] w']; cbn [snd].
  - destruct Ho as (_ & _ & Hw & Hh & _). split; assumption.
  - destruct Ho as (call & _ & _ & _ & _ & _ & Hw & Hh & _). split; assumption.
Qed.

(** X11: both programs size the canvas before they ask for an adapter, so
    the canvas has its new size however the rest of start-up ends, an
    exception included: in the first program the inner size of the window
    less 50 device pixels each way, in the second the client size of the
    canvas times the device pixel ratio, each as an unsigned long.  No
    later step of start-up and no tick changes it again. *)
Theorem canvas_is_sized_before_negotiation e a u ts :
  mkMesh table = Some a ->
  navigator_gpu e = true ->
  querySelector_canvas e = Some u ->
  let w := snd (startup table (boot e)) in
  let w_alt := snd (startup_alt table (boot e)) in
  canvas_width w =
    toUnsignedLong e (innerWidth e - 50 * devicePixelRatio e)%R /\
  canvas_height w =
    toUnsignedLong e (innerHeight e - 50 * devicePixelRatio e)%R /\
  canvas_width w_alt =
    toUnsignedLong e (clientWidth e * devicePixelRatio e)%R /\
  canvas_height w_alt =
    toUnsignedLong e (clientHeight e * devicePixelRatio e)%R /\
  canvas_width (run ts w) = canvas_width w /\
  canvas_height (run ts w) = canvas_height w.
Proof.
  intros Hmesh Hgpu Hcanvas. cbv zeta.
  unfold startup, startup_alt, import_cube. rewrite Hmesh.
  rewrite !(bind_eq (ret a) _ (boot e) a (boot e) eq_refl).
  destruct (negotiate_canvas canvasSize (main a) (boot e) u
              (main_canvas a) Hgpu Hcanvas) as [Hw Hh].
  destruct (negotiate_canvas canvasSize_alt main_alt (boot e) u
              (fun props w1 => conj eq_refl eq_refl) Hgpu Hcanvas) as [Hw' Hh'].
  split; [ exact Hw | split; [ exact Hh | ] ].
  split; [ exact Hw' | split; [ exact Hh' | ] ].
  pose proof (startup_cases e) as Hc. cbv zeta in Hc.
  unfold startup, import_cube in Hc. rewrite Hmesh in Hc.
  rewrite (bind_eq (ret a) _ (boot e) a (boot e) eq_refl) in Hc.
  destruct (negotiate canvasSize (main a) (boot e)) as [[[]|err] w] eqn:Hn;
    cbn [snd].
  - apply (started_canvas e w ts).
    unfold startup, import_cube. rewrite Hmesh.
    rewrite (bind_eq (ret a) _ (boot e) a (boot e) eq_refl). exact Hn.
  - destruct Hc as (Hcb & _ & _).
    clear - Hcb. induction ts as [|t ts IH] using rev_ind;
      [ split; reflexivity | ].
    rewrite run_snoc. destruct (idle_run w ts Hcb) as (Hidle & _ & _).
    unfold animationFrame. rewrite Hidle. cbn [fold_left]. world_simpl.
    exact IH.
Qed.

(** *** Everything is created once *)

Lemma creations_app (l1 l2 : list Event) :
  creations (l1 ++ l2) = creations l1 ++ creations l2.
Proof. unfold creations. apply flat_map_app. Qed.

Lemma configurations_app (l1 l2 : list Event) :
  configurations (l1 ++ l2) = configurations l1 ++ configurations l2.
Proof. unfold configurations. apply flat_map_app. Qed.

Lemma ticks_create_nothing c aspect dv base ts :
  forall k,
    creations (ticks_events c aspect dv base k ts) = [] /\
    configurations (ticks_events c aspect dv base k ts) = [].
Proof.
  induction ts as [|t ts IH]; intros k; [ split; reflexivity | ].
  cbn [ticks_events]. rewrite creations_app, configurations_app.
  destruct (IH (S k)) as [-> ->]. split; reflexivity.
Qed.

(** X12: over a whole run, start-up and any number of ticks, the program
    configures the context once, with the preferred canvas format, and
    asks the device for exactly seven objects, those of [main] in the
    order of [main]: the vertex buffer, the two shader modules, the
    pipeline, the depth texture, the uniform buffer and the bind group.
    A tick creates no buffer, no texture, no pipeline and no bind group. *)
Theorem resources_are_created_once e w0 :
  startup table (boot e) = (Ok tt, w0) ->
  exists a props,
    mkMesh table = Some a /\ handshake e = Some props /\
    forall ts,
      creations (log (run ts w0)) =
        resource_calls a props (configured canvasSize (boot e)) /\
      configurations (log (run ts w0)) = [ getPreferredCanvasFormat e ].
Proof.
  intros Hs.
  destruct (startup_running e w0 Hs) as (a & props & Hm & Hh & _ & _ & R0).
  exists a, props. split; [ exact Hm | split; [ exact Hh | ] ].
  intros ts.
  pose proof (run_running _ _ _ _ _ _ _ ts R0) as R. cbn [app] in R.
  rewrite (run_log _ _ _ _ _ _ _ R), creations_app, configurations_app.
  destruct (ticks_create_nothing startup_closure (aspect_of (run ts w0)) 8 9 ts 0)
    as [-> ->].
  rewrite !app_nil_r. split; reflexivity.
Qed.
End Properties.

(** ** Closed instances on the stub platform *)

#[local] Existing Instance Stub.float32.
#[local] Existing Instance Stub.matrix.

Lemma sin_1_above_sin_milli : (sin (1 / 1000) < sin 1)%R.
Proof.
  pose proof PI2_1. pose proof PI_RGT_0.
  apply sin_increasing_1; lra.
Qed.

(** The stub page after two ticks, [Date.now()] = 5000. *)
Lemma getTransformationMatrix_projection_times_view_witness :
  startup Stub.table (boot Stub.page) =
    (Ok tt, Stub.started) /\
  returned_matrix startup_closure
    (at_time 5000 (run [0; 16]%R Stub.started)) =
  Some (mat4_multiply_value
          (mat4_perspective_value (2 * Math_PI / 5)
             (IZR (canvas_width Stub.started) / IZR (canvas_height Stub.started))
             1 100)
          (mat4_rotate_value
             (mat4_translate_value mat4_identity_value
                (vec3_fromValues 0 0 (-10)))
             (vec3_fromValues (Math_sin (5000 / 5000)) (Math_cos (5000 / 5000)) 0)
             1)).
Proof.
  assert (Hs : startup Stub.table (boot Stub.page) =
               (Ok tt, Stub.started)) by (vm_compute; reflexivity).
  split; [ exact Hs | ].
  exact (proj1 (proj2
    (getTransformationMatrix_projection_times_view
       Stub.table Stub.page Stub.started [0; 16]%R 5000%R Hs))).
Defined.

(** C1 as stated fails: with [Date.now()] = 5000 (five seconds), the angle
    of the axis is 5000 / 5000 = 1, not 5 / 5000; the sines differ, and on
    the stub platform so does the matrix returned. *)
Lemma getTransformationMatrix_angle_not_in_seconds :
  startup Stub.table (boot Stub.page) =
    (Ok tt, Stub.started) /\
  fst (fst (rotation_axis 5000)) <> Math_sin (5000 / 1000 / 5000) /\
  returned_matrix startup_closure
    (at_time 5000 Stub.started) <>
  Some (claimed_MVP 5000 (aspect_of Stub.started)).
Proof.
  assert (Hs : startup Stub.table (boot Stub.page) =
               (Ok tt, Stub.started)) by (vm_compute; reflexivity).
  assert (Hne : (sin (5000 / 5000) <> sin (5000 / 1000 / 5000))%R).
  { replace (5000 / 5000)%R with 1%R by lra.
    replace (5000 / 1000 / 5000)%R with (1 / 1000)%R by lra.
    pose proof sin_1_above_sin_milli. lra. }
  split; [ exact Hs | split; [ exact Hne | ] ].
  destruct (started_running Stub.table Stub.page
              Stub.started [] Hs) as (a & log0 & _ & _ & _ & _ & R).
  destruct (returned_matrix_running _ _ _ _ _ _ _
              5000%R R) as [_ Hret].
  change (run [] Stub.started) with Stub.started in Hret.
  rewrite Hret. intros Heq. injection Heq as Heq.
  apply Hne. unfold Math_sin in Heq. lra.
Qed.

(** Two runs on the stub page, after one tick and after two. *)
Lemma getTransformationMatrix_deterministic_witness :
  startup Stub.table (boot Stub.page) = (Ok tt, Stub.started) /\
  aspect_of Stub.started = aspect_of Stub.started /\
  returned_matrix startup_closure (at_time 48 (run [0]%R Stub.started)) =
  returned_matrix startup_closure (at_time 48 (run [16; 32]%R Stub.started)).
Proof.
  assert (Hs : startup Stub.table (boot Stub.page) = (Ok tt, Stub.started))
    by (vm_compute; reflexivity).
  split; [ exact Hs | split; [ reflexivity | ] ].
  exact (proj1 (proj2
    (getTransformationMatrix_deterministic Stub.table Stub.page Stub.page
       Stub.started Stub.started [0]%R [16; 32]%R 48%R Hs Hs eq_refl))).
Defined.

(** C7 as stated fails: from time 0 to time 5000, one multiple of the
    divisor, the axis goes from (sin 0, cos 0, 0) to (sin 1, cos 1, 0). *)
Lemma rotation_axis_not_periodic_in_divisor :
  rotation_axis (0 + 1 * 5000) <> rotation_axis 0.
Proof.
  unfold rotation_axis, Math_sin, Math_cos. intros Heq.
  injection Heq as Hsin _.
  replace ((0 + 1 * 5000) / 5000)%R with 1%R in Hsin by lra.
  replace (0 / 5000)%R with 0%R in Hsin by lra.
  rewrite sin_0 in Hsin.
  pose proof PI2_1. pose proof PI_RGT_0.
  pose proof (sin_gt_0 1). lra.
Qed.

(** Time 15000, three times the divisor. *)
Lemma rotation_axis_at_multiples_of_divisor_witness :
  startup Stub.table (boot Stub.page) = (Ok tt, Stub.started) /\
  (0 <= 3 <= 1728000000000)%Z /\
  rotation_axis (IZR 3 * 5000) = (Math_sin (IZR 3), Math_cos (IZR 3), 0%R) /\
  rotation_axis (IZR 3 * 5000) <> rotation_axis 0.
Proof.
  assert (Hs : startup Stub.table (boot Stub.page) = (Ok tt, Stub.started))
    by (vm_compute; reflexivity).
  assert (Hk : (0 <= 3 <= 1728000000000)%Z) by lia.
  split; [ exact Hs | split; [ exact Hk | ] ].
  destruct (rotation_axis_at_multiples_of_divisor Stub.table Stub.page
              Stub.started [] 3 Hs Hk) as (Hp & _ & _ & _ & Hne & _).
  split; [ exact Hp | apply Hne; lia ].
Defined.

(** The calls of the second and of the fourth tick on the stub page. *)
Lemma getTransformationMatrix_returns_shared_buffer_witness :
  startup Stub.table (boot Stub.page) = (Ok tt, Stub.started) /\
  exists l1 wa l2 wb,
    getTransformationMatrix startup_closure
      (at_time 16 (run [0]%R Stub.started)) = (Ok l1, wa) /\
    getTransformationMatrix startup_closure
      (at_time 48 (run ([0] ++ [16] ++ [32])%R Stub.started)) = (Ok l2, wb) /\
    l1 = 2 /\ l2 = l1.
Proof.
  assert (Hs : startup Stub.table (boot Stub.page) = (Ok tt, Stub.started))
    by (vm_compute; reflexivity).
  split; [ exact Hs | ].
  destruct (getTransformationMatrix_returns_shared_buffer Stub.table Stub.page
              Stub.started [0]%R 16%R [32]%R 48%R Hs)
    as (l1 & wa & l2 & wb & H1 & H2 & H3 & H4 & _).
  exists l1, wa, l2, wb. auto.
Defined.

(** The third tick on the stub page. *)
Lemma frame_tick_witness :
  startup Stub.table (boot Stub.page) = (Ok tt, Stub.started) /\
  exists w',
    frame startup_closure (at_time 32 (run [0; 16]%R Stub.started)) = (Ok tt, w') /\
    buffer_contents (memory (device_after w')) 5 =
      Some (serialize (computeMVP 32 (aspect_of Stub.started))).
Proof.
  assert (Hs : startup Stub.table (boot Stub.page) = (Ok tt, Stub.started))
    by (vm_compute; reflexivity).
  split; [ exact Hs | ].
  destruct (frame_tick Stub.table Stub.page Stub.started [0; 16]%R 32%R Hs)
    as (w' & Hf & _ & _ & _ & _ & _ & _ & _ & _ & Hb).
  exists w'. auto.
Defined.

(** Three ticks on the stub page. *)
Lemma frames_render_their_own_matrix_witness :
  startup Stub.table (boot Stub.page) = (Ok tt, Stub.started) /\
  map drawn_uniform (draws (device_after (run [0; 16; 32]%R Stub.started))) =
  map (fun t => Some (serialize (computeMVP t (aspect_of Stub.started))))
    [0; 16; 32]%R.
Proof.
  assert (Hs : startup Stub.table (boot Stub.page) = (Ok tt, Stub.started))
    by (vm_compute; reflexivity).
  split; [ exact Hs | ].
  exact (proj1 (proj2
    (frames_render_their_own_matrix Stub.table Stub.page Stub.started
       [0; 16; 32]%R Hs))).
Defined.


(** The device that throws at [createTexture], whatever else it finds
    invalid: the fourth creation call of [main] ends start-up. *)
Lemma startup_aborts_only_when_a_call_throws_witness :
  StartupFailure Stub.table Stub.page_without_textures /\
  exists err,
    fst (startup Stub.table
           (boot_reporting Pages.fragment_shader_does_not_compile
              Stub.page_without_textures)) = Throw err.
Proof.
  assert (Hf : StartupFailure Stub.table Stub.page_without_textures).
  { eapply step_fails with
      (call := CreateTexture
                 (depth_texture_descriptor
                    (configured canvasSize (boot Stub.page_without_textures)))).
    - vm_compute. reflexivity.
    - vm_compute. reflexivity.
    - do 4 right. left. reflexivity.
    - reflexivity. }
  split; [ exact Hf | ].
  pose proof (startup_aborts_only_when_a_call_throws Stub.table
                Pages.fragment_shader_does_not_compile
                Stub.page_without_textures) as H.
  destruct H as [H _]. apply H. exact Hf.
Defined.

(** C5 as stated fails: on the stub page with a device that finds the
    fragment shader invalid (it does not compile), [createShaderModule]
    returns, the pipeline, its layout and the bind group are invalid in
    their turn, and [main] registers the frame callback all the same: the
    compilation step has failed and the frame loop is running.  It goes
    on at every refresh, and the device draws nothing. *)
Lemma startup_survives_a_shader_that_does_not_compile :
  let result :=
    startup Stub.table
      (boot_reporting Pages.fragment_shader_does_not_compile Stub.page) in
  Pages.fragment_shader_does_not_compile
    (CreateShaderModule "fragment shader") = true /\
  fst result = Ok tt /\
  In EvValidationError (log (snd result)) /\
  invalidObjects (snd result) = {[ 2; 3; 6; 7 ]} /\
  animationFrameCallbacks (snd result) = [ startup_closure ] /\
  animationFrameCallbacks (run [0; 16]%R (snd result)) = [ startup_closure ] /\
  length (submissions (log (run [0; 16]%R (snd result)))) = 2 /\
  draws (device_after (run [0; 16]%R (snd result))) = [].
Proof.
  cbv zeta.
  split; [ reflexivity | ].
  split; [ vm_compute; reflexivity | ].
  split; [ vm_compute; tauto | ].
  split; [ vm_compute; reflexivity | ].
  split; [ vm_compute; reflexivity | ].
  split; [ vm_compute; reflexivity | ].
  split; [ vm_compute; reflexivity | ].
  vm_compute; reflexivity.
Qed.

(** The mesh of the stub table. *)
Lemma mesh_bytes_and_layout_witness :
  mkMesh Stub.table = Some (flat_map vertex_floats Stub.table) /\
  byteLength (flat_map vertex_floats Stub.table) = 36 * 24.
Proof.
  assert (Hm : mkMesh Stub.table = Some (flat_map vertex_floats Stub.table))
    by (vm_compute; reflexivity).
  split; [ exact Hm | ].
  exact (proj1 (mesh_bytes_and_layout Stub.table _ Hm)).
Defined.

(** C9 as stated fails: on the stub page the first program registers its
    frame callback and the second registers none. *)
Lemma second_program_is_not_the_same_program :
  ~ same_startup Stub.table Stub.page.
Proof.
  intros (_ & Hcb).
  assert (H1 : animationFrameCallbacks (snd (startup Stub.table (boot Stub.page))) =
               [ startup_closure ]) by (vm_compute; reflexivity).
  assert (H2 : animationFrameCallbacks
                 (snd (startup_alt Stub.table (boot Stub.page))) = [])
    by (vm_compute; reflexivity).
  rewrite H1, H2 in Hcb. discriminate Hcb.
Qed.

(** ** Closed instances of the further properties *)

(** A tick on a page where [main] has not run: the shared matrix does not
    exist, the first [mat4] call of the tick throws. *)
Lemma failed_tick_ends_the_loop_witness :
  animationFrameCallbacks Pages.dangling = [ startup_closure ] /\
  frame startup_closure (at_time 0 Pages.dangling) =
    (Throw TypeError, snd (frame startup_closure (at_time 0 Pages.dangling))) /\
  animationFrameCallbacks
    (run [16; 32]%R (animationFrame 0 Pages.dangling)) = [].
Proof.
  assert (Hc : animationFrameCallbacks Pages.dangling = [ startup_closure ])
    by reflexivity.
  assert (Hf : frame startup_closure (at_time 0 Pages.dangling) =
               (Throw TypeError,
                snd (frame startup_closure (at_time 0 Pages.dangling))))
    by (vm_compute; reflexivity).
  split; [ exact Hc | split; [ exact Hf | ] ].
  pose proof (failed_tick_ends_the_loop startup_closure Pages.dangling 0%R
                TypeError _ Hc Hf [16; 32]%R) as Hw.
  destruct Hw as [Hw _]. exact Hw.
Defined.

(** The stub page: what reaches the two shader modules. *)
Lemma startup_hands_the_page_to_main_witness :
  startup Stub.table (boot Stub.page) = (Ok tt, Stub.started) /\
  exists vert frag,
    fetch_basic_vert Stub.page = Fulfilled vert /\
    fetch_vertexPositionColor_frag Stub.page = Fulfilled frag /\
    objects Stub.started !! 1 = Some (ShaderModule vert) /\
    objects Stub.started !! 2 = Some (ShaderModule frag).
Proof.
  assert (Hs : startup Stub.table (boot Stub.page) = (Ok tt, Stub.started))
    by (vm_compute; reflexivity).
  split; [ exact Hs | ].
  destruct (startup_hands_the_page_to_main Stub.table Stub.page Stub.started Hs)
    as (vert & frag & d & H1 & H2 & H3 & H4 & _).
  exists vert, frag. auto.
Defined.

(** The stub page without WebGPU. *)
Lemma both_programs_fail_alike_witness :
  handshake Pages.page_without_gpu = None /\
  exists err,
    fst (startup Stub.table (boot Pages.page_without_gpu)) = Throw err /\
    fst (startup_alt Stub.table (boot Pages.page_without_gpu)) = Throw err.
Proof.
  assert (Hh : handshake Pages.page_without_gpu = None)
    by (vm_compute; reflexivity).
  split; [ exact Hh | ].
  apply (both_programs_fail_alike Stub.table Pages.page_without_gpu).
  right. exact Hh.
Defined.

(** Three ticks on the stub page. *)
Lemma every_draw_has_its_own_target_witness :
  startup Stub.table (boot Stub.page) = (Ok tt, Stub.started) /\
  map drawn_target (draws (device_after (run [0; 16; 32]%R Stub.started))) =
    [ Some 10; Some 12; Some 14 ].
Proof.
  assert (Hs : startup Stub.table (boot Stub.page) = (Ok tt, Stub.started))
    by (vm_compute; reflexivity).
  split; [ exact Hs | ].
  destruct (every_draw_has_its_own_target Stub.table Stub.page Stub.started
              [0; 16; 32]%R Hs) as (_ & Ht & _).
  exact Ht.
Defined.

Lemma descriptor_keeps_the_expired_view_witness :
  startup Stub.table (boot Stub.page) = (Ok tt, Stub.started) /\
  currentTexture (run [0; 16]%R Stub.started) = None.
Proof.
  assert (Hs : startup Stub.table (boot Stub.page) = (Ok tt, Stub.started))
    by (vm_compute; reflexivity).
  split; [ exact Hs | ].
  destruct (descriptor_keeps_the_expired_view Stub.table Stub.page Stub.started
              [0; 16]%R Hs) as (Ht & _).
  exact Ht.
Defined.

Lemma no_handle_is_used_before_it_exists_witness :
  startup Stub.table (boot Stub.page) = (Ok tt, Stub.started) /\
  scoped ∅ (log (run [0; 16]%R Stub.started)) = true.
Proof.
  assert (Hs : startup Stub.table (boot Stub.page) = (Ok tt, Stub.started))
    by (vm_compute; reflexivity).
  split; [ exact Hs | ].
  apply (no_handle_is_used_before_it_exists Stub.table Stub.page Stub.started
           [0; 16]%R Hs).
Defined.

(** The third tick on the stub page. *)
Lemma submitted_pass_is_well_formed_witness :
  startup Stub.table (boot Stub.page) = (Ok tt, Stub.started) /\
  exists w' texture view,
    frame startup_closure (at_time 32 (run [0; 16]%R Stub.started)) =
      (Ok tt, w') /\
    currentTexture w' = Some texture /\
    check_commands (objects w') (invalidObjects w') (currentTexture w')
      NotBegun (tick_commands startup_closure 8 view) = true.
Proof.
  assert (Hs : startup Stub.table (boot Stub.page) = (Ok tt, Stub.started))
    by (vm_compute; reflexivity).
  split; [ exact Hs | ].
  destruct (submitted_pass_is_well_formed Stub.table Stub.page Stub.started
              [0; 16]%R 32%R Hs)
    as (w' & texture & view & Hf & Hcur & _ & _ & _ & _ & Hc).
  exists w', texture, view. auto.
Defined.

(** The stub page without an adapter: start-up throws, the canvas is
    sized. *)
Lemma canvas_is_sized_before_negotiation_witness :
  mkMesh Stub.table = Some (flat_map vertex_floats Stub.table) /\
  navigator_gpu Pages.page_without_adapter = true /\
  querySelector_canvas Pages.page_without_adapter = Some tt /\
  canvas_width (snd (startup Stub.table (boot Pages.page_without_adapter))) =
    Int_part (850 - 50 * 1).
Proof.
  assert (Hm : mkMesh Stub.table = Some (flat_map vertex_floats Stub.table))
    by (vm_compute; reflexivity).
  split; [ exact Hm | split; [ reflexivity | split; [ reflexivity | ] ] ].
  destruct (canvas_is_sized_before_negotiation Stub.table
              Pages.page_without_adapter _ tt [] Hm eq_refl eq_refl)
    as (Hw & _).
  exact Hw.
Defined.

Lemma resources_are_created_once_witness :
  startup Stub.table (boot Stub.page) = (Ok tt, Stub.started) /\
  configurations (log (run [0; 16]%R Stub.started)) = [ bgra8unorm ].
Proof.
  assert (Hs : startup Stub.table (boot Stub.page) = (Ok tt, Stub.started))
    by (vm_compute; reflexivity).
  split; [ exact Hs | ].
  destruct (resources_are_created_once Stub.table Stub.page Stub.started Hs)
    as (a & props & _ & _ & Hall).
  destruct (Hall [0; 16]%R) as [_ Hc]. exact Hc.
Defined.
